(** * Student assessment processing: a shallow embedding of
    [student_processing.py] and the properties of its pipeline

    The script reads a table of student names and three subject scores,
    computes per-student statistics and writes an augmented table.  The
    embedding follows the source function by function:

    - Python values are the three kinds of scalars the script creates
      ([int], [float], [str]); a [dict] is a [gmap string pyval];
    - a Python [int] is an unbounded [Z]; a Python [float] is an IEEE 754
      binary64 number, taken from the Standard Library's [SpecFloat];
    - exceptions, [print] and the file system are threaded through a small
      state-and-exception monad. *)

From Stdlib Require Import ZArith List String Ascii Bool Lia QArith Qabs.
From Stdlib Require Import DecimalString DecimalPos SpecFloat.
From stdpp Require Import gmap strings.

Open Scope string_scope.
Open Scope Z_scope.

(** ** Python values and exceptions *)

(** Binary64: 53 bits of mantissa, infinities at exponent 1024. *)
Definition prec : Z := 53.
Definition emax : Z := 1024.

Inductive pyval : Type :=
  | VInt (z : Z)
  | VFloat (f : spec_float)
  | VStr (s : string).

(** The exceptions the script can meet.  [KeyError] carries the missing key,
    [ValueError] the text that was rejected, [SystemExit] the exit status. *)
Inductive exn : Type :=
  | KeyError (key : string)
  | ValueError (arg : string)
  | TypeError
  | OverflowError
  | ZeroDivisionError
  | IndexError
  | StopIteration
  | FileNotFoundError (filename : string)
  | SystemExit (status : Z).

(** The outcome of evaluating an expression: a value or a raised exception. *)
Inductive res (A : Type) : Type :=
  | Ok (a : A)
  | Raise (e : exn).
Arguments Ok {A} a.
Arguments Raise {A} e.

Definition res_bind {A B : Type} (r : res A) (k : A -> res B) : res B :=
  match r with
  | Ok a => k a
  | Raise e => Raise e
  end.

Notation "'let?' x ':=' r 'in' k" := (res_bind r (fun x => k))
  (at level 10, x pattern, r at level 100, k at level 200, only parsing).

(** ** Builtin operations on numbers

    [int / int] is Python's true division: the quotient of the two integers
    rounded once, to nearest-even, to a binary64 number; a quotient too large
    for a double raises [OverflowError], a zero divisor [ZeroDivisionError]. *)
Definition int_truediv (a b : Z) : res spec_float :=
  if b =? 0 then Raise ZeroDivisionError
  else if a =? 0 then Ok (S754_zero (b <? 0))
  else
    let '(q, e, l) := SFdiv_core_binary prec emax (Z.abs a) 0 (Z.abs b) 0 in
    match binary_round_aux prec emax (xorb (a <? 0) (b <? 0)) q e l with
    | S754_infinity _ => Raise OverflowError
    | f => Ok f
    end.

(** [float(n)] for an integer [n]: rounded to nearest-even, [OverflowError]
    when [n] is too large for a double. *)
Definition float_of_int (n : Z) : res spec_float :=
  match binary_normalize prec emax n 0 false with
  | S754_infinity _ => Raise OverflowError
  | f => Ok f
  end.

Definition float_is_zero (f : spec_float) : bool :=
  match f with
  | S754_zero _ => true
  | _ => false
  end.

(** [float / float]: IEEE division, except that a zero divisor raises. *)
Definition float_truediv (x y : spec_float) : res spec_float :=
  if float_is_zero y then Raise ZeroDivisionError else Ok (SFdiv prec emax x y).

(** The mantissa of a finite float with its sign. *)
Definition signed_mantissa (s : bool) (m : positive) : Z :=
  if s then Zneg m else Zpos m.

(** Python compares a float with an integer exactly, on their mathematical
    values: [s m * 2^e] against [n].  [None] is the unordered result of a
    NaN. *)
Definition float_cmp_int (f : spec_float) (n : Z) : option comparison :=
  match f with
  | S754_nan => None
  | S754_infinity s => Some (if s then Lt else Gt)
  | S754_zero _ => Some (0 ?= n)
  | S754_finite s m e =>
      if 0 <=? e then Some (signed_mantissa s m * 2 ^ e ?= n)
      else Some (signed_mantissa s m ?= n * 2 ^ (- e))
  end.

Definition opp_cmp (c : option comparison) : option comparison :=
  option_map CompOpp c.

(** Three-way comparison of two values, as the rich comparisons of [int],
    [float] and [str] decide it; values of unrelated types are not ordered. *)
Definition py_cmp (a b : pyval) : res (option comparison) :=
  match a, b with
  | VInt x, VInt y => Ok (Some (x ?= y))
  | VFloat x, VFloat y => Ok (SFcompare x y)
  | VFloat x, VInt y => Ok (float_cmp_int x y)
  | VInt x, VFloat y => Ok (opp_cmp (float_cmp_int y x))
  | VStr x, VStr y => Ok (Some (String.compare x y))
  | _, _ => Raise TypeError
  end.

(** [a >= b], [a < b], [a > b] *)
Definition py_ge (a b : pyval) : res bool :=
  let? c := py_cmp a b in
  Ok match c with
     | Some Gt | Some Eq => true
     | _ => false
     end.

Definition py_lt (a b : pyval) : res bool :=
  let? c := py_cmp a b in
  Ok match c with
     | Some Lt => true
     | _ => false
     end.

Definition py_gt (a b : pyval) : res bool :=
  let? c := py_cmp a b in
  Ok match c with
     | Some Gt => true
     | _ => false
     end.

(** [a + b]: integers add exactly, floats with one rounding, an integer
    meeting a float is converted first, strings concatenate. *)
Definition py_add (a b : pyval) : res pyval :=
  match a, b with
  | VInt x, VInt y => Ok (VInt (x + y))
  | VFloat x, VFloat y => Ok (VFloat (SFadd prec emax x y))
  | VInt x, VFloat y => let? x' := float_of_int x in Ok (VFloat (SFadd prec emax x' y))
  | VFloat x, VInt y => let? y' := float_of_int y in Ok (VFloat (SFadd prec emax x y'))
  | VStr x, VStr y => Ok (VStr (x +:+ y))
  | _, _ => Raise TypeError
  end.

(** [a - b] *)
Definition py_sub (a b : pyval) : res pyval :=
  match a, b with
  | VInt x, VInt y => Ok (VInt (x - y))
  | VFloat x, VFloat y => Ok (VFloat (SFsub prec emax x y))
  | VInt x, VFloat y => let? x' := float_of_int x in Ok (VFloat (SFsub prec emax x' y))
  | VFloat x, VInt y => let? y' := float_of_int y in Ok (VFloat (SFsub prec emax x y'))
  | _, _ => Raise TypeError
  end.

(** [a / b] *)
Definition py_truediv (a b : pyval) : res pyval :=
  match a, b with
  | VInt x, VInt y => let? f := int_truediv x y in Ok (VFloat f)
  | VFloat x, VFloat y => let? f := float_truediv x y in Ok (VFloat f)
  | VInt x, VFloat y =>
      let? x' := float_of_int x in let? f := float_truediv x' y in Ok (VFloat f)
  | VFloat x, VInt y =>
      let? y' := float_of_int y in let? f := float_truediv x y' in Ok (VFloat f)
  | _, _ => Raise TypeError
  end.

(** [min(xs)] and [max(xs)] keep the first item and replace it by a later
    one that compares strictly smaller (larger); an empty list is a
    [ValueError]. *)
Fixpoint min_loop (best : pyval) (xs : list pyval) : res pyval :=
  match xs with
  | [] => Ok best
  | x :: rest =>
      let? smaller := py_lt x best in
      min_loop (if smaller then x else best) rest
  end.

Fixpoint max_loop (best : pyval) (xs : list pyval) : res pyval :=
  match xs with
  | [] => Ok best
  | x :: rest =>
      let? larger := py_gt x best in
      max_loop (if larger then x else best) rest
  end.

Definition py_min (xs : list pyval) : res pyval :=
  match xs with
  | [] => Raise (ValueError "min() arg is an empty sequence")
  | x :: rest => min_loop x rest
  end.

Definition py_max (xs : list pyval) : res pyval :=
  match xs with
  | [] => Raise (ValueError "max() arg is an empty sequence")
  | x :: rest => max_loop x rest
  end.

(** ** [int(text)]

    A string is read as a sequence of code points below 256.  [int] strips
    surrounding whitespace, takes an optional sign and then decimal digits,
    where single underscores may separate digits; anything else is a
    [ValueError].  The whitespace of [int] is that of C ([\t], [\n],
    [\v], [\f], [\r] and the space) and, of the code points from 128 on,
    NEL (133) and the no-break space (160), which [int] turns into spaces
    first; the separators 28 to 31, which [str.strip] removes, are not
    whitespace for [int]. *)
Definition is_space (c : ascii) : bool :=
  let n := N_of_ascii c in
  ((9 <=? n) && (n <=? 13) || (n =? 32) || (n =? 133) || (n =? 160))%N.

Definition digit_of (c : ascii) : option Z :=
  let n := Z.of_N (N_of_ascii c) in
  if (48 <=? n) && (n <=? 57) then Some (n - 48) else None.

Fixpoint lstrip (cs : list ascii) : list ascii :=
  match cs with
  | c :: rest => if is_space c then lstrip rest else cs
  | [] => []
  end.

Definition strip (cs : list ascii) : list ascii :=
  rev (lstrip (rev (lstrip cs))).

(** [after_digit] tells whether the previous character was a digit: only
    then may an underscore or the end of the text follow. *)
Fixpoint digits_value (acc : Z) (after_digit : bool) (cs : list ascii) : option Z :=
  match cs with
  | [] => if after_digit then Some acc else None
  | c :: rest =>
      if Ascii.eqb c "_" then
        if after_digit then digits_value acc false rest else None
      else
        match digit_of c with
        | Some d => digits_value (10 * acc + d) true rest
        | None => None
        end
  end.

Definition int_literal (text : string) : option Z :=
  match strip (list_ascii_of_string text) with
  | c :: rest =>
      if Ascii.eqb c "-" then option_map Z.opp (digits_value 0 false rest)
      else if Ascii.eqb c "+" then digits_value 0 false rest
      else digits_value 0 false (c :: rest)
  | [] => None
  end.

Definition py_int (text : string) : res Z :=
  match int_literal text with
  | Some n => Ok n
  | None => Raise (ValueError text)
  end.

(** ** The world of a run: standard output and the file system *)

(** The lines the script prints, one constructor per [print] call of the
    source, with the values its f-string interpolates. *)
Inductive message : Type :=
  | IncompleteData (row : list string)
      (* Incomplete data in row: {row} *)
  | InvalidData (row : list string) (e : exn)
      (* Invalid data in row {row}: {e} *)
  | OnlyIntegers
      (* Only integer scores are allowed. Goodbye! *)
  | FileNotFound (filename : string)
      (* Error: {filename} not found. *)
  | UnexpectedError (e : exn)
      (* An unexpected error occurred: {e} *)
  | MissingData (e : exn)
      (* Missing data for {e} *)
  | ResultsWritten (filename : string)
      (* Results written to {filename} *)
  | NoResults
      (* No results to write. *)
  | Goodbye.
      (* Goodbye! *)

(** A CSV file is held as its rows of cells, as [csv.reader] yields them and
    [csv.writer] receives them (quoting and line ends are the csv module's
    business). *)
Record world : Type := World {
  stdout : list message;
  files : gmap string (list (list string))
}.

(** A computation reads and changes the world and returns or raises. *)
Definition M (A : Type) : Type := world -> res A * world.

Definition ret {A : Type} (a : A) : M A := fun w => (Ok a, w).

Definition raise {A : Type} (e : exn) : M A := fun w => (Raise e, w).

Definition bind {A B : Type} (c : M A) (k : A -> M B) : M B :=
  fun w =>
    match c w with
    | (Ok a, w') => k a w'
    | (Raise e, w') => (Raise e, w')
    end.

Notation "'let*' x ':=' c 'in' k" := (bind c (fun x => k))
  (at level 10, x pattern, c at level 100, k at level 200, only parsing).
Notation "c1 '>>' c2" := (bind c1 (fun _ => c2))
  (at level 60, right associativity, only parsing).

(** An expression evaluated inside a computation. *)
Definition lift {A : Type} (r : res A) : M A := fun w => (r, w).

(** [try: body  except ...: handler]: [handler e] is [None] for an exception
    that no [except] clause matches, which then propagates. *)
Definition try_except {A : Type} (body : M A) (handler : exn -> option (M A)) : M A :=
  fun w =>
    match body w with
    | (Ok a, w') => (Ok a, w')
    | (Raise e, w') =>
        match handler e with
        | Some h => h w'
        | None => (Raise e, w')
        end
    end.

Definition print (m : message) : M unit :=
  fun w => (Ok tt, World (stdout w ++ [m])%list (files w)).

(** [sys.exit(status)] *)
Definition sys_exit {A : Type} (status : Z) : M A := raise (SystemExit status).

(** [open(filename, 'r')] followed by [csv.reader]: the rows of the file. *)
Definition open_read (filename : string) : M (list (list string)) :=
  fun w =>
    match files w !! filename with
    | Some rows => (Ok rows, w)
    | None => (Raise (FileNotFoundError filename), w)
    end.

(** [open(filename, 'w')] creates the file or empties it. *)
Definition open_write (filename : string) : M unit :=
  fun w => (Ok tt, World (stdout w) (<[filename := []]> (files w))).

(** [writer.writerow(row)] on the file opened under [filename]. *)
Definition append_row (filename : string) (row : list string) : M unit :=
  fun w =>
    (Ok tt, World (stdout w)
                  (<[filename := (default [] (files w !! filename) ++ [row])%list]> (files w))).

(** [next(csv_reader)] *)
Definition next_row (rows : list (list string)) : M (list string * list (list string)) :=
  match rows with
  | row :: rest => ret (row, rest)
  | [] => raise StopIteration
  end.

(** [row[i]] on a list and [d[key]] on a dict *)
Definition list_get (row : list string) (i : nat) : res string :=
  match nth_error row i with
  | Some x => Ok x
  | None => Raise IndexError
  end.

Definition subscript (d : gmap string pyval) (key : string) : res pyval :=
  match d !! key with
  | Some v => Ok v
  | None => Raise (KeyError key)
  end.

(** ** The script *)

Abbreviation dict := (gmap string pyval).

(** The dictionary literal of [read_student_data], as a function of the four
    values it holds. *)
Definition student_literal (name math science english : pyval) : dict :=
  <["english" := english]>
  (<["science" := science]>
   (<["math" := math]>
    (<["name" := name]> ∅))).

(** The values of the literal are evaluated in the order they are written. *)
Definition student_of_row (row : list string) : res dict :=
  let? name := list_get row 0 in
  let? math_text := list_get row 1 in
  let? math := py_int math_text in
  let? science_text := list_get row 2 in
  let? science := py_int science_text in
  let? english_text := list_get row 3 in
  let? english := py_int english_text in
  Ok (student_literal (VStr name) (VInt math) (VInt science) (VInt english)).

(** The [for row in csv_reader] loop, with [data] the list built so far. *)
Fixpoint read_rows (rows : list (list string)) (data : list dict) : M (list dict) :=
  match rows with
  | [] => ret data
  | row :: rest =>
      if (length row <? 4)%nat then
        print (IncompleteData row) >>
        read_rows rest data
      else
        let* data' :=
          try_except
            (let* student := lift (student_of_row row) in
             ret (data ++ [student])%list)
            (fun e =>
               match e with
               | ValueError _ =>
                   Some (print (InvalidData row e) >>
                         print OnlyIntegers >>
                         sys_exit 1)
               | _ => None
               end) in
        read_rows rest data'
  end.

(** [except Exception] catches every exception but [SystemExit]. *)
Definition is_Exception (e : exn) : bool :=
  match e with
  | SystemExit _ => false
  | _ => true
  end.

Definition read_student_data (filename : string) : M (list dict) :=
  try_except
    (let* rows := open_read filename in
     let* first := next_row rows in
     let '(header, rest) := first in
     read_rows rest [])
    (fun e =>
       match e with
       | FileNotFoundError _ =>
           Some (print (FileNotFound filename) >>
                 print Goodbye >>
                 sys_exit 1)
       | _ =>
           if is_Exception e then
             Some (print (UnexpectedError e) >>
                   print Goodbye >>
                   sys_exit 1)
           else None
       end).

(** Returns the average, or [None] when a score is missing. *)
Definition calculate_average (student : dict) : M (option pyval) :=
  try_except
    (let* math := lift (subscript student "math") in
     let* science := lift (subscript student "science") in
     let* partial := lift (py_add math science) in
     let* english := lift (subscript student "english") in
     let* total := lift (py_add partial english) in
     let* average := lift (py_truediv total (VInt 3)) in
     ret (Some average))
    (fun e =>
       match e with
       | KeyError _ => Some (print (MissingData e) >> ret None)
       | _ => None
       end).

Definition assign_grade (score : pyval) : res string :=
  let? a := py_ge score (VInt 90) in
  if a then Ok "A" else
  let? b := py_ge score (VInt 80) in
  if b then Ok "B" else
  let? c := py_ge score (VInt 70) in
  if c then Ok "C" else
  let? d := py_ge score (VInt 60) in
  if d then Ok "D" else
  let? e := py_ge score (VInt 50) in
  if e then Ok "E" else
  Ok "F".

Definition calculate_min_max_range (student_scores : list pyval)
  : res (pyval * pyval * pyval) :=
  let? min_score := py_min student_scores in
  let? max_score := py_max student_scores in
  let? score_range := py_sub max_score min_score in
  Ok (min_score, max_score, score_range).

(** The dictionary literal [student_results] of [process_student_results],
    as a function of the ten values it holds. *)
Definition student_results_literal
    (name math science english average grade : pyval)
    (min_score max_score score_range pass_fail : pyval) : dict :=
  <["pass_fail" := pass_fail]>
  (<["score_range" := score_range]>
   (<["max_score" := max_score]>
    (<["min_score" := min_score]>
     (<["grade" := grade]>
      (<["average" := average]>
       (<["english" := english]>
        (<["science" := science]>
         (<["math" := math]>
          (<["name" := name]> ∅))))))))).

(** The body of the loop of [process_student_results] for one [student],
    with [results] the list built so far. *)
Definition process_student (student : dict) (results : list dict) : M (list dict) :=
  let* math := lift (subscript student "math") in
  let* science := lift (subscript student "science") in
  let* english := lift (subscript student "english") in
  let student_scores := [math; science; english] in
  let* average := calculate_average student in
  match average with
  | Some average =>
      let* grade := lift (assign_grade average) in
      let* statistics := lift (calculate_min_max_range student_scores) in
      let '(min_score, max_score, score_range) := statistics in
      let* passed := lift (py_ge average (VInt 50)) in
      let pass_fail := if passed then "Congratulations, you passed!" else "Fail" in
      let* name := lift (subscript student "name") in
      let* math := lift (subscript student "math") in
      let* science := lift (subscript student "science") in
      let* english := lift (subscript student "english") in
      let student_results :=
        student_results_literal name math science english average (VStr grade)
                                min_score max_score score_range (VStr pass_fail) in
      ret (results ++ [student_results])%list
  | None => ret results
  end.

Fixpoint process_loop (students_data : list dict) (results : list dict) : M (list dict) :=
  match students_data with
  | [] => ret results
  | student :: rest =>
      let* results' := process_student student results in
      process_loop rest results'
  end.

Definition process_student_results (students_data : list dict) : M (list dict) :=
  process_loop students_data [].

(** [str(n)] of an integer: its decimal digits. *)
Definition int_text (n : Z) : string := NilZero.string_of_int (Z.to_int n).

Section Writer.

(** [str(x)] of a float, the shortest decimal text that reads back as the
    same double.  Its digits play no part below, so the function is a
    parameter of the writer. *)
Variable repr_float : spec_float -> string.

(** [str(v)], the text [csv.writer] puts in a cell. *)
Definition py_str (v : pyval) : string :=
  match v with
  | VStr s => s
  | VInt z => int_text z
  | VFloat f => repr_float f
  end.

Definition header : list string :=
  ["name"; "math"; "science"; "english"; "average"; "grade";
   "min_score"; "max_score"; "score_range"; "pass_fail"].

(** [DictWriter._dict_to_list]: a key outside [fieldnames] is a
    [ValueError]; a field the dictionary lacks is written empty. *)
Definition dict_to_list (fieldnames : list string) (rowdict : dict) : res (list string) :=
  if bool_decide (dom rowdict ⊆ list_to_set fieldnames) then
    Ok (map (fun key => match rowdict !! key with
                        | Some v => py_str v
                        | None => ""
                        end) fieldnames)
  else Raise (ValueError "dict contains fields not in fieldnames").

(** [writer.writerows(results)] *)
Fixpoint writerows (filename : string) (rowdicts : list dict) : M unit :=
  match rowdicts with
  | [] => ret tt
  | rowdict :: rest =>
      let* row := lift (dict_to_list header rowdict) in
      append_row filename row >>
      writerows filename rest
  end.

Definition write_results_to_csv (results : list dict) (filename : string) : M unit :=
  match results with
  | _ :: _ =>
      open_write filename >>
      append_row filename header >>
      writerows filename results >>
      print (ResultsWritten filename)
  | [] => print NoResults
  end.

(** The [__main__] block. *)
Definition main : M unit :=
  let filename := "students.csv" in
  let* students_data := read_student_data filename in
  match students_data with
  | _ :: _ =>
      let* results := process_student_results students_data in
      write_results_to_csv results "student_results.csv"
  | [] => ret tt
  end >>
  print Goodbye.

End Writer.

(** The exit status of the interpreter: 0 after a normal end, the argument
    of [sys.exit], and 1 after any other exception that nothing caught. *)
Definition exit_status {A : Type} (r : res A) : Z :=
  match r with
  | Ok _ => 0
  | Raise (SystemExit status) => status
  | Raise _ => 1
  end.

(** ** Vocabulary of the statements *)

(** The rational number a finite float stands for: [m * 2^e] with its sign.
    Infinities and NaN stand for none. *)
Definition float_value (f : spec_float) : option Q :=
  match f with
  | S754_zero _ => Some 0%Q
  | S754_finite s m e =>
      Some (if 0 <=? e then inject_Z (signed_mantissa s m * 2 ^ e)
            else signed_mantissa s m # Z.to_pos (2 ^ (- e)))
  | S754_infinity _ | S754_nan => None
  end.

(** The value of a number, integer or finite float. *)
Definition number_value (v : pyval) : option Q :=
  match v with
  | VInt z => Some (inject_Z z)
  | VFloat f => float_value f
  | VStr _ => None
  end.

(** [f >= n] for a float and an integer, as [py_ge] decides it. *)
Definition float_ge_int (f : spec_float) (n : Z) : bool :=
  match float_cmp_int f n with
  | Some Gt | Some Eq => true
  | _ => false
  end.

(** [N / D] rounded to the nearest integer, a tie going to the even one. *)
Definition round_half_even (N D : Z) : Z :=
  let q := N / D in
  match 2 * (N mod D) ?= D with
  | Lt => q
  | Eq => if Z.even q then q else q + 1
  | Gt => q + 1
  end.

(** A shift record [mrs] of [SpecFloat] locates the quotient [N / D]: its
    mantissa is the integer part, its round bit tells whether the remainder
    reaches one half, its sticky bit whether the quotient lies strictly
    between two of the points [m], [m + 1/2], [m + 1]. *)
Definition located (N D : Z) (mrs : shr_record) : Prop :=
  0 <= shr_m mrs /\
  shr_m mrs * D <= N < (shr_m mrs + 1) * D /\
  (shr_r mrs = true <-> D <= 2 * (N - shr_m mrs * D)) /\
  (shr_s mrs = true <-> N - shr_m mrs * D <> 0 /\ 2 * (N - shr_m mrs * D) <> D).

(** The last step of [binary_round_aux]: a mantissa and an exponent make a
    finite double unless the exponent is beyond the largest one, 971. *)
Definition pack_float (sx : bool) (m e : Z) : spec_float :=
  if e <=? 971 then S754_finite sx (Z.to_pos m) e else S754_infinity sx.

(** An infinite result of a division of integers is an [OverflowError]. *)
Definition checked (f : spec_float) : res spec_float :=
  match f with
  | S754_infinity _ => Raise OverflowError
  | _ => Ok f
  end.

(** The least positive [t] whose third is too large for a double: three
    times [2^1024 - 2^970], the midpoint above the largest double. *)
Definition overflow_bound : Z := 3 * 2 ^ 970 * (2 ^ 54 - 1).

(** The steps of [int_truediv t 3] for a positive [t]: the exponent and the
    numerator of the quotient that [SFdiv_core_binary] forms, the number of
    digits [binary_round_aux] then shifts out, and the mantissa it rounds
    to. *)
Definition third_exponent (t : Z) : Z := Z.min (Zdigits2 t - 55) 0.
Definition third_numerator (t : Z) : Z := t * 2 ^ (- third_exponent t).
Definition third_shift (t : Z) : Z := Zdigits2 (third_numerator t / 3) - 53.
Definition third_mantissa (t : Z) : Z :=
  round_half_even (third_numerator t) (3 * 2 ^ third_shift t).

(** [m * 2^e] is within half a unit in the last place of [t / 3]. *)
Definition half_ulp (t m e : Z) : Prop :=
  2 * Z.abs (3 * m * 2 ^ Z.max e 0 - t * 2 ^ Z.max (- e) 0) <= 3 * 2 ^ Z.max e 0.

(** A Record of the data model: a dictionary that holds a name and three
    integer scores (other keys are not looked at). *)
Definition int_record (d : dict) (name : pyval) (math science english : Z) : Prop :=
  d !! "name" = Some name /\
  d !! "math" = Some (VInt math) /\
  d !! "science" = Some (VInt science) /\
  d !! "english" = Some (VInt english).

(** The sum of the scores is small enough for its third to be a double. *)
Definition in_float_range (math science english : Z) : Prop :=
  Z.abs (math + science + english) < overflow_bound.

(** The messages of the pass/fail column. *)
Definition passed_message : string := "Congratulations, you passed!".
Definition failed_message : string := "Fail".

(** The letter [assign_grade] gives a float. *)
Definition float_grade (f : spec_float) : string :=
  if float_ge_int f 90 then "A"
  else if float_ge_int f 80 then "B"
  else if float_ge_int f 70 then "C"
  else if float_ge_int f 60 then "D"
  else if float_ge_int f 50 then "E"
  else "F".

(** The Result of a Record with integer scores whose average is [f]. *)
Definition student_result (name : pyval) (m s e : Z) (f : spec_float) : dict :=
  student_results_literal
    name (VInt m) (VInt s) (VInt e) (VFloat f) (VStr (float_grade f))
    (VInt (Z.min (Z.min m s) e)) (VInt (Z.max (Z.max m s) e))
    (VInt (Z.max (Z.max m s) e - Z.min (Z.min m s) e))
    (VStr (if float_ge_int f 50 then passed_message else failed_message)).

(** A record that yields a Result: integer scores whose average exists. *)
Definition valid_student (d : dict) : Prop :=
  exists name m s e, int_record d name m s e /\ in_float_range m s e.

(** [r] is the Result of [student]. *)
Definition result_for (student r : dict) : Prop :=
  exists name m s e f,
    int_record student name m s e /\
    int_truediv (m + s + e) 3 = Ok f /\
    r = student_result name m s e f.

(** The world before a run that has printed nothing and holds no file. *)
Definition empty_world : world := World [] ∅.

(** Alice of the examples, and Zoe, one of whose scores has 401 digits. *)
Definition alice : dict :=
  student_literal (VStr "Alice") (VInt 95) (VInt 88) (VInt 92).
Definition zoe : dict :=
  student_literal (VStr "Zoe") (VInt (10 ^ 400)) (VInt 0) (VInt 0).

(** Bob, who fails, and Eve, whose record lacks the english score. *)
Definition bob : dict :=
  student_literal (VStr "Bob") (VInt 40) (VInt 55) (VInt 30).
Definition eve : dict :=
  <["science" := VInt 80]> (<["math" := VInt 70]> (<["name" := VStr "Eve"]> ∅)).

(** The double nearest to 275/3, printed 91.66666666666667. *)
Definition alice_average : spec_float := S754_finite false 6450468216285867 (-46).

(** A row the Reader skips, and a row it turns into a Record: a name and
    three integer literals, whatever follows them. *)
Definition short_row (row : list string) : bool := (length row <? 4)%nat.

Definition long_row (row : list string) : bool := negb (short_row row).

Definition row_student (row : list string) (name : string) (m s e : Z) : Prop :=
  exists math_text science_text english_text extra,
    row = name :: math_text :: science_text :: english_text :: extra /\
    int_literal math_text = Some m /\
    int_literal science_text = Some s /\
    int_literal english_text = Some e.

(** A valid row yields a Result: its scores are integers and their average
    exists. *)
Definition valid_row (row : list string) : Prop :=
  exists name m s e, row_student row name m s e /\ in_float_range m s e.

(** A row of at least four fields whose math, science or english field
    (the fields 1, 2 and 3) is not an integer literal. *)
Definition invalid_score_row (row : list string) : Prop :=
  (4 <= length row)%nat /\
  exists (i : nat) (text : string),
    (1 <= i <= 3)%nat /\ nth_error row i = Some text /\ int_literal text = None.

(** The cell of column [key] and the row of a Result in the output file, in
    the column order of the header. *)
Definition cell (repr_float : spec_float -> string) (r : dict) (key : string) : string :=
  match r !! key with
  | Some v => py_str repr_float v
  | None => ""
  end.

Definition result_row (repr_float : spec_float -> string) (r : dict) : list string :=
  [cell repr_float r "name"; cell repr_float r "math"; cell repr_float r "science";
   cell repr_float r "english"; cell repr_float r "average"; cell repr_float r "grade";
   cell repr_float r "min_score"; cell repr_float r "max_score";
   cell repr_float r "score_range"; cell repr_float r "pass_fail"].

(** A dictionary the Writer accepts: it has no key outside the header. *)
Definition writable (r : dict) : Prop := dom r ⊆ list_to_set header.

(** For the examples, a float is printed with all its decimal digits (as
    [Decimal(x)] prints it), a text that reads back as the same double. *)
Definition pad_zeros (width : nat) (digits : string) : string :=
  string_of_list_ascii (repeat "0"%char (width - String.length digits))
  +:+ digits.

Definition decimal_text (f : spec_float) : string :=
  match f with
  | S754_nan => "nan"
  | S754_infinity s => if s then "-inf" else "inf"
  | S754_zero s => if s then "-0.0" else "0.0"
  | S754_finite s m e =>
      (if s then "-" else "") +:+
      (if 0 <=? e then int_text (Zpos m * 2 ^ e) +:+ ".0"
       else
         int_text (Zpos m / 2 ^ (- e)) +:+ "." +:+
         pad_zeros (Z.to_nat (- e)) (int_text ((Zpos m mod 2 ^ (- e)) * 5 ^ (- e))))
  end.

(** An input file with a row of three fields whose math field is no
    integer, between its header and a valid row. *)
Definition world_with_short_row : world :=
  World [] (<["students.csv" :=
               [["name"; "math"; "science"; "english"];
                ["Bob"; "abc"; "88"];
                ["Alice"; "95"; "88"; "92"]]]> ∅).

(** A valid row, then a row of four fields with a math field that is no
    integer, then a short row. *)
Definition world_with_fatal_row : world :=
  World [] (<["students.csv" :=
               [["name"; "math"; "science"; "english"];
                ["Alice"; "95"; "88"; "92"];
                ["Carl"; "seventy"; "81"; "90"];
                ["Bob"; "70"; "80"]]]> ∅).

(** The row of the specification, with a math field that is no integer,
    after a valid row. *)
Definition world_with_invalid_score : world :=
  World [] (<["students.csv" :=
               [["name"; "math"; "science"; "english"];
                ["Alice"; "95"; "88"; "92"];
                ["Bob"; "abc"; "88"; "92"]]]> ∅).

(** *** The limit of the interpreter, and further vocabulary

    CPython (since 3.11) refuses a conversion between an integer and a
    decimal text of more than 4300 digits: [int] raises [ValueError] on
    such a text, and so does [str] on such an integer.  [py_int] and
    [int_text] have no such limit.  The statements that read or print
    integers of any size take them to stay within it: [short_cells] for
    the texts of an input file, [within_str_digits] for an integer that is
    printed. *)

(** [r] holds exactly the ten fields of the header, the first four as
    [student] has them. *)
Definition complete_result (student r : dict) : Prop :=
  dom r = list_to_set header /\
  r !! "name" = student !! "name" /\
  r !! "math" = student !! "math" /\
  r !! "science" = student !! "science" /\
  r !! "english" = student !! "english".

(** [student] is the Record the Reader builds from [row]. *)
Definition record_of_row (row : list string) (student : dict) : Prop :=
  exists name m s e,
    row_student row name m s e /\
    student = student_literal (VStr name) (VInt m) (VInt s) (VInt e).

(** [r] is the Result of the Record that the Reader builds from [row]. *)
Definition result_of_row (row : list string) (r : dict) : Prop :=
  exists name m s e f,
    row_student row name m s e /\
    int_truediv (m + s + e) 3 = Ok f /\
    r = student_result (VStr name) m s e f.

(** A row that becomes a Record whose average does not exist. *)
Definition overflowing_row (row : list string) : Prop :=
  exists name m s e, row_student row name m s e /\ ~ in_float_range m s e.

(** The cells of a table are shorter than 4300 characters. *)
Definition short_cells (rows : list (list string)) : Prop :=
  forallb (forallb (fun text => (String.length text <? 4300)%nat)) rows = true.



(** The place of a letter grade in the order F < E < D < C < B < A. *)
Definition grade_rank (grade : string) : Z :=
  if String.eqb grade "A" then 5
  else if String.eqb grade "B" then 4
  else if String.eqb grade "C" then 3
  else if String.eqb grade "D" then 2
  else if String.eqb grade "E" then 1
  else 0.

(** The number that the decimal digits [d] spell after the digits of
    [acc]. *)
Fixpoint uint_value (acc : Z) (d : Decimal.uint) : Z :=
  match d with
  | Decimal.Nil => acc
  | Decimal.D0 d => uint_value (10 * acc + 0) d
  | Decimal.D1 d => uint_value (10 * acc + 1) d
  | Decimal.D2 d => uint_value (10 * acc + 2) d
  | Decimal.D3 d => uint_value (10 * acc + 3) d
  | Decimal.D4 d => uint_value (10 * acc + 4) d
  | Decimal.D5 d => uint_value (10 * acc + 5) d
  | Decimal.D6 d => uint_value (10 * acc + 6) d
  | Decimal.D7 d => uint_value (10 * acc + 7) d
  | Decimal.D8 d => uint_value (10 * acc + 8) d
  | Decimal.D9 d => uint_value (10 * acc + 9) d
  end.

(** The characters [int] accepts somewhere in its argument: whitespace,
    digits, the underscore and the signs. *)
Definition int_char (c : ascii) : bool :=
  is_space c
  || match digit_of c with Some _ => true | None => false end
  || Ascii.eqb c "_" || Ascii.eqb c "+" || Ascii.eqb c "-".

(** The exponent and the mantissa of the double [int_truediv t 3], after
    the carry of a mantissa rounded up to [2^53]. *)
Definition third_float_exponent (t : Z) : Z :=
  if third_mantissa t <? 2 ^ 53 then third_exponent t + third_shift t
  else third_exponent t + third_shift t + 1.

Definition third_float_mantissa (t : Z) : Z :=
  if third_mantissa t <? 2 ^ 53 then third_mantissa t else 2 ^ 52.

(** A short row, then a row whose math score has 401 digits, then a valid
    row. *)
Definition world_with_overflow : world :=
  World [] (<["students.csv" :=
               [["name"; "math"; "science"; "english"];
                ["Bob"; "70"];
                ["Zoe"; int_text (10 ^ 400); "0"; "0"];
                ["Alice"; "95"; "88"; "92"]]]> ∅).

(** An input file that is the output file of the run on
    [world_with_short_row]. *)
Definition world_with_results : world :=
  World [] (<["students.csv" :=
               [header;
                result_row decimal_text
                  (student_result (VStr "Alice") 95 88 92 alice_average)]]> ∅).

(** * Properties

    ** Binary64 arithmetic: the third of an integer *)

Lemma fexp_eq (e : Z) : fexp prec emax e = Z.max (e - 53) (-1074).
Proof. reflexivity. Qed.

Lemma digits2_pos_bounds (p : positive) :
  2 ^ (Zpos (digits2_pos p) - 1) <= Zpos p < 2 ^ Zpos (digits2_pos p).
Proof.
  induction p as [p IH | p IH |]; cbn [digits2_pos].
  - rewrite Pos2Z.inj_succ.
    replace (Z.succ (Zpos (digits2_pos p)) - 1) with (Z.succ (Zpos (digits2_pos p) - 1)) by lia.
    rewrite !Z.pow_succ_r by lia. lia.
  - rewrite Pos2Z.inj_succ.
    replace (Z.succ (Zpos (digits2_pos p)) - 1) with (Z.succ (Zpos (digits2_pos p) - 1)) by lia.
    rewrite !Z.pow_succ_r by lia. lia.
  - cbn. lia.
Qed.

(** the number of binary digits of a positive integer is determined by the
    interval of powers of two that holds it *)
Lemma Zdigits2_unique (z d : Z) :
  0 < d -> 2 ^ (d - 1) <= z < 2 ^ d -> Zdigits2 z = d.
Proof.
  intros Hd [Hlo Hhi].
  assert (0 < z) by (pose proof (Z.pow_pos_nonneg 2 (d - 1)); lia).
  destruct z as [|p|p]; try lia.
  cbn [Zdigits2]. pose proof (digits2_pos_bounds p) as [Hl Hh].
  set (k := Zpos (digits2_pos p)) in *.
  assert (0 < k) by (subst k; lia).
  destruct (Z.lt_trichotomy k d) as [Hlt | [Heq | Hgt]]; [ | exact Heq | ].
  - assert (2 ^ k <= 2 ^ (d - 1)) by (apply Z.pow_le_mono_r; lia). lia.
  - assert (2 ^ d <= 2 ^ (k - 1)) by (apply Z.pow_le_mono_r; lia). lia.
Qed.

Lemma Zdigits2_bounds (z : Z) :
  0 < z -> 0 < Zdigits2 z /\ 2 ^ (Zdigits2 z - 1) <= z < 2 ^ Zdigits2 z.
Proof.
  intros Hz. destruct z as [|p|p]; try lia. cbn [Zdigits2].
  split; [lia | apply digits2_pos_bounds].
Qed.

Lemma shr_1_nonneg (m : Z) (r s : bool) :
  0 <= m ->
  shr_1 (Build_shr_record m r s) = Build_shr_record (m / 2) (Z.odd m) (r || s).
Proof.
  intros Hm. destruct m as [|p|p]; [reflexivity | | lia].
  destruct p as [p|p|]; cbn [shr_1 Z.odd].
  - f_equal. rewrite Pos2Z.inj_xI. apply Z.div_unique with 1; lia.
  - f_equal. rewrite Pos2Z.inj_xO. apply Z.div_unique with 0; lia.
  - reflexivity.
Qed.

Lemma located_shr_1 (N D : Z) (mrs : shr_record) :
  0 < D -> located N D mrs -> located N (2 * D) (shr_1 mrs).
Proof.
  intros HD (Hm & Hin & Hr & Hs). destruct mrs as [m r s]. cbn [shr_m shr_r shr_s] in *.
  rewrite shr_1_nonneg by exact Hm. unfold located. cbn [shr_m shr_r shr_s].
  pose proof (Z.div_mod m 2 ltac:(lia)) as Hdm.
  pose proof (Z.mod_pos_bound m 2 ltac:(lia)) as Hb.
  rewrite Zodd_mod.
  set (h := m / 2) in *. set (b := m mod 2) in *.
  assert (Hcases : b = 0 \/ b = 1) by lia.
  rewrite orb_true_iff.
  destruct Hcases as [Hb0 | Hb1].
  - rewrite Hb0 in *. cbn [Z.eqb]. replace m with (2 * h) in * by lia.
    split; [lia|]. split; [nia|]. split.
    + split; [discriminate | intros; nia].
    + split.
      * intros [Hr1 | Hs1]; [apply Hr in Hr1 | apply Hs in Hs1]; nia.
      * intros [Hne _].
        destruct (Z.eq_dec (2 * (N - 2 * h * D)) D) as [Heq | Hneq].
        -- left. apply Hr. lia.
        -- right. apply Hs. split; nia.
  - rewrite Hb1 in *. cbn [Z.eqb]. replace m with (2 * h + 1) in * by lia.
    split; [lia|]. split; [nia|]. split.
    + split; [intros; nia | reflexivity].
    + split.
      * intros [Hr1 | Hs1]; [apply Hr in Hr1 | apply Hs in Hs1]; nia.
      * intros [Hne Hne2].
        destruct (Z.eq_dec (2 * (N - (2 * h + 1) * D)) D) as [Heq | Hneq].
        -- left. apply Hr. lia.
        -- right. apply Hs. split; nia.
Qed.

Lemma pow2_xI (p : positive) : 2 ^ Zpos p~1 = 2 * (2 ^ Zpos p * 2 ^ Zpos p).
Proof.
  replace (Zpos p~1) with (1 + Zpos p + Zpos p) by lia.
  do 2 rewrite Z.pow_add_r by lia. rewrite Z.pow_1_r. ring.
Qed.

Lemma pow2_xO (p : positive) : 2 ^ Zpos p~0 = 2 ^ Zpos p * 2 ^ Zpos p.
Proof.
  replace (Zpos p~0) with (Zpos p + Zpos p) by lia.
  rewrite Z.pow_add_r by lia. reflexivity.
Qed.

Lemma located_iter_shr_1 (p : positive) :
  forall (N D : Z) (mrs : shr_record),
    0 < D -> located N D mrs -> located N (D * 2 ^ Zpos p) (SpecFloat.iter_pos shr_1 p mrs).
Proof.
  induction p as [p IH | p IH |]; intros N D mrs HD Hloc; cbn [SpecFloat.iter_pos].
  - assert (0 < 2 ^ Zpos p) by (apply Z.pow_pos_nonneg; lia).
    replace (D * 2 ^ Zpos p~1) with (2 * D * 2 ^ Zpos p * 2 ^ Zpos p)
      by (rewrite pow2_xI; ring).
    apply IH; [nia|]. apply IH; [lia|]. apply located_shr_1; assumption.
  - assert (0 < 2 ^ Zpos p) by (apply Z.pow_pos_nonneg; lia).
    replace (D * 2 ^ Zpos p~0) with (D * 2 ^ Zpos p * 2 ^ Zpos p)
      by (rewrite pow2_xO; ring).
    apply IH; [nia|]. apply IH; [lia|]. assumption.
  - replace (D * 2 ^ 1) with (2 * D) by (rewrite Z.pow_1_r; ring).
    apply located_shr_1; assumption.
Qed.

(** [shr] by [n] places: the mantissa loses [n] digits, the exponent gains [n] *)
Lemma located_shr (N D : Z) (mrs : shr_record) (e n : Z) :
  0 < D -> 0 <= n -> located N D mrs ->
  located N (D * 2 ^ n) (fst (shr mrs e n)) /\ snd (shr mrs e n) = e + n.
Proof.
  intros HD Hn Hloc. destruct n as [|p|p]; [ | | lia]; cbn [shr fst snd].
  - rewrite Z.pow_0_r, Z.mul_1_r, Z.add_0_r. split; [assumption | reflexivity].
  - split; [apply located_iter_shr_1; assumption | reflexivity].
Qed.

Lemma located_quotient (N D : Z) (mrs : shr_record) :
  0 < D -> located N D mrs -> shr_m mrs = N / D.
Proof.
  intros HD (Hm & Hin & _). apply Z.div_unique with (N - shr_m mrs * D); lia.
Qed.

Lemma round_nearest_even_located (N D : Z) (mrs : shr_record) :
  0 < D -> located N D mrs ->
  round_nearest_even (shr_m mrs) (loc_of_shr_record mrs) = round_half_even N D.
Proof.
  intros HD Hloc. pose proof (located_quotient N D mrs HD Hloc) as Hq.
  destruct Hloc as (Hm & Hin & Hr & Hs). unfold round_half_even.
  rewrite <- Hq.
  assert (Hrem : N mod D = N - shr_m mrs * D).
  { symmetry. apply Z.mod_unique with (shr_m mrs); lia. }
  rewrite Hrem.
  destruct mrs as [m r s]. cbn [shr_m shr_r shr_s loc_of_shr_record] in *.
  destruct (Z.compare_spec (2 * (N - m * D)) D) as [Heq | Hlt | Hgt].
  - assert (r = true) by (apply Hr; lia).
    assert (s = false).
    { destruct s; [|reflexivity]. destruct Hs as [Hs _]. specialize (Hs eq_refl). lia. }
    subst r s. reflexivity.
  - assert (r = false).
    { destruct r; [|reflexivity]. destruct Hr as [Hr _]. specialize (Hr eq_refl). lia. }
    subst r. destruct s; reflexivity.
  - assert (r = true) by (apply Hr; lia).
    assert (s = true) by (apply Hs; lia).
    subst r s. reflexivity.
Qed.

Lemma round_half_even_spec (N D : Z) :
  0 < D ->
  let m := round_half_even N D in
  (m = N / D \/ m = N / D + 1) /\
  2 * Z.abs (m * D - N) <= D /\
  (2 * Z.abs (m * D - N) = D -> Z.even m = true).
Proof.
  intros HD. unfold round_half_even.
  pose proof (Z.div_mod N D ltac:(lia)) as Hdm.
  pose proof (Z.mod_pos_bound N D HD) as Hb.
  set (q := N / D) in *. set (r := N mod D) in *.
  destruct (Z.compare_spec (2 * r) D) as [Heq | Hlt | Hgt].
  - destruct (Z.even q) eqn:Hev.
    + cbn zeta. split; [left; reflexivity|]. split; [nia|]. intros _. exact Hev.
    + cbn zeta. split; [right; reflexivity|]. split; [nia|]. intros _.
      rewrite Z.even_add, Hev. reflexivity.
  - cbn zeta. split; [left; reflexivity|]. split; [nia|]. intros Habs. nia.
  - cbn zeta. split; [right; reflexivity|]. split; [nia|]. intros Habs. nia.
Qed.

Lemma located_of_loc_exact (m : Z) :
  0 <= m -> located m 1 (shr_record_of_loc m loc_Exact).
Proof.
  intros Hm. unfold located. cbn [shr_record_of_loc shr_m shr_r shr_s].
  split; [lia|]. split; [lia|]. split; split; try discriminate; lia.
Qed.

(** the two calls of [shr_fexp] in [binary_round_aux], for a mantissa of at
    least 53 digits in the normal range *)
Lemma shr_fexp_located (N D mx ex : Z) (lx : location) :
  0 < D -> 0 < mx -> 53 <= Zdigits2 mx -> -1074 <= Zdigits2 mx + ex - 53 ->
  located N D (shr_record_of_loc mx lx) ->
  exists mrs,
    shr_fexp prec emax mx ex lx = (mrs, ex + (Zdigits2 mx - 53)) /\
    located N (D * 2 ^ (Zdigits2 mx - 53)) mrs /\
    2 ^ 52 <= shr_m mrs < 2 ^ 53.
Proof.
  intros HD Hmx Hd Hrange Hloc.
  unfold shr_fexp. rewrite fexp_eq.
  replace (Z.max (Zdigits2 mx + ex - 53) (-1074) - ex) with (Zdigits2 mx - 53) by lia.
  set (n := Zdigits2 mx - 53) in *.
  assert (Hn : 0 <= n) by (subst n; lia).
  destruct (located_shr N D (shr_record_of_loc mx lx) ex n HD Hn Hloc) as [Hl He].
  exists (fst (shr (shr_record_of_loc mx lx) ex n)).
  split; [rewrite <- He; apply surjective_pairing|]. split; [exact Hl|].
  assert (0 < 2 ^ n) by (apply Z.pow_pos_nonneg; lia).
  assert (HD1 : 0 < D * 2 ^ n) by nia.
  rewrite (located_quotient _ _ _ HD1 Hl).
  assert (Hq : mx = N / D).
  { rewrite <- (located_quotient N D _ HD Hloc). destruct lx as [|[]]; reflexivity. }
  rewrite <- Z.div_div by lia. rewrite <- Hq.
  destruct (Zdigits2_bounds mx Hmx) as [_ [Hlo Hhi]].
  replace (Zdigits2 mx - 1) with (52 + n) in Hlo by lia.
  replace (Zdigits2 mx) with (53 + n) in Hhi by lia.
  rewrite Z.pow_add_r in Hlo, Hhi by lia.
  split.
  - apply Z.div_le_lower_bound; lia.
  - apply Z.div_lt_upper_bound; lia.
Qed.

Lemma binary_round_aux_located (sx : bool) (N D mx ex : Z) (lx : location) :
  0 < D -> 0 < mx -> 53 <= Zdigits2 mx -> -1074 <= Zdigits2 mx + ex - 53 ->
  located N D (shr_record_of_loc mx lx) ->
  let n := Zdigits2 mx - 53 in
  let m := round_half_even N (D * 2 ^ n) in
  2 ^ 52 <= N / (D * 2 ^ n) < 2 ^ 53 /\
  binary_round_aux prec emax sx mx ex lx =
    if m <? 2 ^ 53 then pack_float sx m (ex + n)
    else pack_float sx (2 ^ 52) (ex + n + 1).
Proof.
  intros HD Hmx Hd Hrange Hloc n m.
  destruct (shr_fexp_located N D mx ex lx HD Hmx Hd Hrange Hloc) as (mrs & Heq & Hl & Hb).
  fold n in Heq, Hl.
  assert (0 < 2 ^ n) by (apply Z.pow_pos_nonneg; subst n; lia).
  assert (HD1 : 0 < D * 2 ^ n) by nia.
  pose proof (located_quotient _ _ _ HD1 Hl) as Hq. rewrite Hq in Hb.
  split; [exact Hb|].
  unfold binary_round_aux. rewrite Heq.
  rewrite (round_nearest_even_located _ _ _ HD1 Hl). fold m.
  destruct (round_half_even_spec N (D * 2 ^ n) HD1) as (Hm & _). fold m in Hm.
  assert (Hmb : 2 ^ 52 <= m <= 2 ^ 53) by lia.
  unfold shr_fexp. rewrite fexp_eq.
  destruct (Z.ltb_spec m (2 ^ 53)) as [Hlt | Hge].
  - rewrite (Zdigits2_unique m 53) by lia.
    replace (Z.max (53 + (ex + n) - 53) (-1074) - (ex + n)) with 0 by (subst n; lia).
    cbn [shr shr_record_of_loc shr_m].
    unfold pack_float. destruct m as [|p|p]; try lia. reflexivity.
  - assert (m = 2 ^ 53) by lia. clearbody m. subst m.
    rewrite (Zdigits2_unique (2 ^ 53) 54) by (cbn; lia).
    replace (Z.max (54 + (ex + n) - 53) (-1074) - (ex + n)) with 1 by (subst n; lia).
    reflexivity.
Qed.

(** the positive powers of two that a proof step needs as facts *)
Ltac pow2_pos e :=
  let H := fresh "Hpow" in
  assert (H : 0 < 2 ^ e) by (apply Z.pow_pos_nonneg; lia).

Lemma half_ulp_scale (t m ex n : Z) :
  ex <= 0 <= n ->
  2 * Z.abs (m * (3 * 2 ^ n) - t * 2 ^ (- ex)) <= 3 * 2 ^ n ->
  half_ulp t m (ex + n).
Proof.
  intros [Hex Hn] H. unfold half_ulp.
  destruct (Z.le_ge_cases 0 (ex + n)) as [Hpos | Hneg].
  - rewrite (Z.max_l (ex + n) 0), (Z.max_r (- (ex + n)) 0) by lia.
    rewrite Z.pow_0_r, Z.mul_1_r.
    replace n with ((ex + n) + (- ex)) in H by lia.
    rewrite Z.pow_add_r in H by lia.
    pow2_pos (ex + n). pow2_pos (- ex).
    set (A := 2 ^ (ex + n)) in *. set (B := 2 ^ (- ex)) in *.
    replace (m * (3 * (A * B)) - t * B) with ((3 * m * A - t) * B) in H by ring.
    rewrite Z.abs_mul, (Z.abs_eq B) in H by lia. nia.
  - rewrite (Z.max_r (ex + n) 0), (Z.max_l (- (ex + n)) 0) by lia.
    rewrite Z.pow_0_r, !Z.mul_1_r.
    replace (- ex) with (n + (- (ex + n))) in H by lia.
    rewrite Z.pow_add_r in H by lia.
    pow2_pos n. pow2_pos (- (ex + n)).
    set (A := 2 ^ n) in *. set (C := 2 ^ (- (ex + n))) in *.
    replace (m * (3 * A) - t * (A * C)) with ((3 * m - t * C) * A) in H by ring.
    rewrite Z.abs_mul, (Z.abs_eq A) in H by lia. nia.
Qed.

(** the powers of two around [2^970], with [2^970] kept as it is *)
Lemma pow2_le_970 (n : Z) :
  (n <= 970 -> 2 ^ n <= 2 ^ 970) /\ (n <= 971 -> 2 ^ n <= 2 * 2 ^ 970) /\
  (971 <= n -> 2 * 2 ^ 970 <= 2 ^ n) /\ (972 <= n -> 4 * 2 ^ 970 <= 2 ^ n).
Proof.
  assert (H1 : 2 * 2 ^ 970 = 2 ^ 971).
  { replace 971 with (Z.succ 970) by reflexivity. rewrite Z.pow_succ_r by lia. reflexivity. }
  assert (H2 : 4 * 2 ^ 970 = 2 ^ 972).
  { replace 972 with (Z.succ (Z.succ 970)) by reflexivity.
    do 2 rewrite Z.pow_succ_r by lia. ring. }
  rewrite H1, H2.
  repeat split; intros H; apply Z.pow_le_mono_r; lia.
Qed.

(** *** A positive integer divided by three *)

Section PositiveThird.

Variable t : Z.
Hypothesis Ht : 0 < t.

Lemma third_exponent_range : -54 <= third_exponent t <= 0.
Proof.
  unfold third_exponent. destruct (Zdigits2_bounds t Ht) as [Hd _]. lia.
Qed.

(** the numerator has 55 digits or more *)
Lemma third_numerator_lower : 2 ^ 54 <= third_numerator t.
Proof.
  unfold third_numerator, third_exponent.
  destruct (Zdigits2_bounds t Ht) as [Hd [Hlo Hhi]].
  destruct (Z.le_ge_cases (Zdigits2 t) 55) as [Hle | Hgt].
  - rewrite Z.min_l by lia.
    replace 54 with ((Zdigits2 t - 1) + (- (Zdigits2 t - 55))) by lia.
    rewrite Z.pow_add_r by lia.
    apply Z.mul_le_mono_nonneg_r; [apply Z.pow_nonneg; lia | exact Hlo].
  - rewrite Z.min_r by lia. cbn [Z.opp]. rewrite Z.pow_0_r, Z.mul_1_r.
    assert (2 ^ 54 <= 2 ^ (Zdigits2 t - 1)) by (apply Z.pow_le_mono_r; lia). lia.
Qed.

(** what [SFdiv_core_binary] hands to the rounding *)
Lemma SFdiv_core_binary_3 :
  SFdiv_core_binary prec emax t 0 3 0
  = (third_numerator t / 3, third_exponent t,
     new_location 3 (third_numerator t mod 3)).
Proof.
  pose proof third_exponent_range as Hex.
  unfold SFdiv_core_binary. rewrite fexp_eq. change (Zdigits2 3) with 2.
  replace (Z.min (Z.max (Zdigits2 t + 0 - (2 + 0) - 53) (-1074)) (0 - 0))
    with (third_exponent t)
    by (unfold third_exponent in *; destruct (Zdigits2_bounds t Ht); lia).
  replace (0 - 0 - third_exponent t) with (- third_exponent t) by lia.
  assert (Hm : match - third_exponent t with
               | Zpos _ => Z.shiftl t (- third_exponent t)
               | Z0 => t
               | Zneg _ => 0
               end = third_numerator t).
  { unfold third_numerator. destruct (- third_exponent t) as [|p|p] eqn:He; try lia.
    rewrite Z.shiftl_mul_pow2 by lia. reflexivity. }
  rewrite Hm. unfold Z.div, Z.modulo.
  destruct (Z.div_eucl (third_numerator t) 3). reflexivity.
Qed.

(** the quotient and the location of the remainder locate the third *)
Lemma third_located :
  located (third_numerator t) 3
          (shr_record_of_loc (third_numerator t / 3)
                             (new_location 3 (third_numerator t mod 3))).
Proof.
  pose proof third_numerator_lower as HN.
  pose proof (Z.div_mod (third_numerator t) 3 ltac:(lia)) as Hdm.
  pose proof (Z.mod_pos_bound (third_numerator t) 3 ltac:(lia)) as Hb.
  assert (Hq : 0 <= third_numerator t / 3) by (apply Z.div_pos; lia).
  set (N := third_numerator t) in *. set (q := N / 3) in *. set (r := N mod 3) in *.
  assert (Hr : r = 0 \/ r = 1 \/ r = 2) by lia.
  unfold located.
  destruct Hr as [Hr | [Hr | Hr]]; rewrite Hr in *.
  - change (new_location 3 0) with loc_Exact.
    cbn [shr_record_of_loc shr_m shr_r shr_s].
    split; [lia|]. split; [lia|]. split; split; try discriminate; lia.
  - change (new_location 3 1) with (loc_Inexact Lt).
    cbn [shr_record_of_loc shr_m shr_r shr_s].
    split; [lia|]. split; [lia|]. split; split; try discriminate; try lia;
      intros _; reflexivity.
  - change (new_location 3 2) with (loc_Inexact Gt).
    cbn [shr_record_of_loc shr_m shr_r shr_s].
    split; [lia|]. split; [lia|]. split; split; try discriminate; try lia;
      intros _; reflexivity.
Qed.

(** the quotient has 53 digits or more *)
Lemma third_quotient_digits :
  0 < third_numerator t / 3 /\ 0 <= third_shift t.
Proof.
  pose proof third_numerator_lower as HN.
  assert (Hq : 2 ^ 52 <= third_numerator t / 3).
  { apply Z.div_le_lower_bound; [lia|]. change (2 ^ 54) with (4 * 2 ^ 52) in HN. lia. }
  pow2_pos 52.
  split; [lia|]. unfold third_shift.
  destruct (Zdigits2_bounds (third_numerator t / 3) ltac:(lia)) as [Hdq [_ Hhi]].
  destruct (Z.le_gt_cases 53 (Zdigits2 (third_numerator t / 3))) as [|Hlt]; [lia|].
  assert (2 ^ Zdigits2 (third_numerator t / 3) <= 2 ^ 52)
    by (apply Z.pow_le_mono_r; lia).
  lia.
Qed.

(** after the shift the mantissa has exactly 53 digits *)
Lemma third_shifted_quotient :
  2 ^ 52 <= third_numerator t / (3 * 2 ^ third_shift t) < 2 ^ 53.
Proof.
  destruct third_quotient_digits as [Hq0 Hn]. pose proof third_exponent_range as Hex.
  refine (proj1 (binary_round_aux_located false (third_numerator t) 3
                   (third_numerator t / 3) (third_exponent t) _ _ Hq0 _ _ third_located)).
  - lia.
  - unfold third_shift in Hn. lia.
  - unfold third_shift in Hn. lia.
Qed.

(** [int_truediv t 3] in terms of integer division *)
Lemma int_truediv_3_unfold :
  int_truediv t 3 =
    checked (if third_mantissa t <? 2 ^ 53
             then pack_float false (third_mantissa t) (third_exponent t + third_shift t)
             else pack_float false (2 ^ 52) (third_exponent t + third_shift t + 1)).
Proof.
  destruct third_quotient_digits as [Hq0 Hn]. pose proof third_exponent_range as Hex.
  assert (Hround := proj2 (binary_round_aux_located false (third_numerator t) 3
                             (third_numerator t / 3) (third_exponent t) _
                             ltac:(lia) Hq0
                             ltac:(unfold third_shift in Hn; lia)
                             ltac:(unfold third_shift in Hn; lia)
                             third_located)).
  cbv zeta in Hround. fold (third_shift t) in Hround. fold (third_mantissa t) in Hround.
  unfold int_truediv.
  replace (3 =? 0) with false by reflexivity.
  replace (t =? 0) with false by (symmetry; apply Z.eqb_neq; lia).
  rewrite (Z.abs_eq t) by lia. change (Z.abs 3) with 3.
  rewrite SFdiv_core_binary_3.
  replace (t <? 0) with false by (symmetry; apply Z.ltb_ge; lia).
  change (xorb false (3 <? 0)) with false.
  rewrite Hround. unfold checked.
  destruct (third_mantissa t <? 2 ^ 53); unfold pack_float;
    match goal with |- context [?a <=? 971] => destruct (a <=? 971) end; reflexivity.
Qed.

(** the exponent reaches 972 exactly when the quotient reaches the bound *)
Lemma final_exponent :
  (if third_mantissa t <? 2 ^ 53 then third_exponent t + third_shift t
   else third_exponent t + third_shift t + 1) <= 971
  <-> t < overflow_bound.
Proof.
  destruct third_quotient_digits as [_ Hn].
  pose proof third_numerator_lower as HN. pose proof third_shifted_quotient as Hq.
  destruct (Zdigits2_bounds t Ht) as [Hd [Hlo Hhi]].
  pow2_pos (third_shift t).
  destruct (round_half_even_spec (third_numerator t) (3 * 2 ^ third_shift t) ltac:(lia))
    as (Hm & Hnear & Htie).
  fold (third_mantissa t) in Hm, Hnear, Htie.
  pose proof (Z.div_mod (third_numerator t) (3 * 2 ^ third_shift t) ltac:(lia)) as Hdm.
  pose proof (Z.mod_pos_bound (third_numerator t) (3 * 2 ^ third_shift t) ltac:(lia)) as Hrb.
  destruct (pow2_le_970 (third_shift t)) as (Hp970 & Hp971 & Hq971 & Hq972).
  pow2_pos 970.
  assert (HNdef : third_numerator t = t * 2 ^ (- third_exponent t)) by reflexivity.
  assert (Hexdef : third_exponent t = Z.min (Zdigits2 t - 55) 0) by reflexivity.
  unfold overflow_bound.
  set (K := 2 ^ 970) in *. clearbody K.
  set (m := third_mantissa t) in *. set (n := third_shift t) in *.
  set (N := third_numerator t) in *. set (ex := third_exponent t) in *.
  set (q := N / (3 * 2 ^ n)) in *. set (r := N mod (3 * 2 ^ n)) in *.
  set (P := 2 ^ n) in *.
  clearbody m q r.
  destruct (Z.le_gt_cases (Zdigits2 t) 55) as [Hsmall | Hbig].
  - (* below 2^55: the exponent is at most 1 *)
    assert (Hex : ex = Zdigits2 t - 55) by lia.
    assert (HN55 : N < 2 ^ 55).
    { rewrite HNdef, Hex.
      replace 55 with (Zdigits2 t + (- (Zdigits2 t - 55))) at 2 by lia.
      rewrite Z.pow_add_r by lia.
      apply Z.mul_lt_mono_pos_r; [apply Z.pow_pos_nonneg; lia | exact Hhi]. }
    assert (Hn1 : n <= 1).
    { destruct (Z.le_gt_cases n 1) as [|Hgt]; [assumption|].
      assert (2 ^ 2 <= P) by (apply Z.pow_le_mono_r; lia). nia. }
    assert (Ht55 : t < 2 ^ 55).
    { assert (2 ^ Zdigits2 t <= 2 ^ 55) by (apply Z.pow_le_mono_r; lia). lia. }
    split; [lia|]. intros _. destruct (m <? 2 ^ 53); lia.
  - (* from 2^55 on: the numerator is [t] itself *)
    assert (Hex : ex = 0) by lia.
    assert (HNt : N = t) by (rewrite HNdef, Hex; cbn; lia).
    rewrite Hex. cbn [Z.add]. clearbody P n N ex. subst N.
    rewrite HNt in Htie, Hnear, HN.
    destruct (Z.ltb_spec m (2 ^ 53)) as [Hlt | Hge].
    + split.
      * intros Hle. specialize (Hp971 Hle).
        destruct (Z.lt_ge_cases t (3 * K * (2 ^ 54 - 1))) as [|Hcontra]; [assumption|].
        exfalso.
        assert (Hm1 : m = 2 ^ 53 - 1) by nia.
        assert (HP1 : P = 2 * K) by nia.
        assert (Htie1 : 2 * Z.abs (m * (3 * P) - t) = 3 * P) by nia.
        specialize (Htie Htie1). rewrite Hm1 in Htie. discriminate Htie.
      * intros Hlt2.
        destruct (Z.le_gt_cases n 971) as [|Hgt]; [assumption|]. exfalso.
        assert (HPge : 4 * K <= P) by (apply Hq972; lia). nia.
    + assert (Hm53 : m = 2 ^ 53) by lia.
      split.
      * intros Hle. assert (HPle : P <= K) by (apply Hp970; lia). nia.
      * intros Hlt2.
        destruct (Z.le_gt_cases (n + 1) 971) as [|Hgt]; [assumption|]. exfalso.
        assert (HPge : 2 * K <= P) by (apply Hq971; lia). nia.
Qed.

(** Below [overflow_bound] the third of [t] is a double with a full
    mantissa, within half a unit in the last place of the exact third; from
    the bound on the division overflows. *)
Theorem int_truediv_3_pos :
  (t < overflow_bound ->
   exists m e,
     int_truediv t 3 = Ok (S754_finite false m e) /\
     2 ^ 52 <= Zpos m < 2 ^ 53 /\ -54 <= e <= 971 /\ half_ulp t (Zpos m) e) /\
  (overflow_bound <= t -> int_truediv t 3 = Raise OverflowError).
Proof.
  destruct third_quotient_digits as [_ Hn].
  pose proof third_shifted_quotient as Hq. pose proof final_exponent as Hfinal.
  pose proof third_exponent_range as Hex.
  pow2_pos (third_shift t). pow2_pos 52.
  destruct (round_half_even_spec (third_numerator t) (3 * 2 ^ third_shift t) ltac:(lia))
    as (Hm & Hnear & _).
  fold (third_mantissa t) in Hm, Hnear.
  rewrite int_truediv_3_unfold.
  assert (HNdef : third_numerator t = t * 2 ^ (- third_exponent t)) by reflexivity.
  set (m := third_mantissa t) in *. set (n := third_shift t) in *.
  set (ex := third_exponent t) in *.
  destruct (Z.ltb_spec m (2 ^ 53)) as [Hlt | Hge].
  - split.
    + intros HT. apply Hfinal in HT.
      exists (Z.to_pos m), (ex + n).
      rewrite Z2Pos.id by lia.
      split; [|split; [lia|split; [lia|]]].
      * unfold pack_float, checked. rewrite (proj2 (Z.leb_le _ _) HT). reflexivity.
      * apply half_ulp_scale; [lia|]. rewrite <- HNdef. exact Hnear.
    + intros HT. unfold pack_float.
      destruct (Z.leb_spec (ex + n) 971) as [Hle|]; [|reflexivity].
      apply Hfinal in Hle. lia.
  - assert (Hm53 : m = 2 ^ 53) by lia.
    split.
    + intros HT. apply Hfinal in HT.
      exists (Z.to_pos (2 ^ 52)), (ex + n + 1).
      split; [|split; [cbn; lia|split; [lia|]]].
      * unfold pack_float, checked. rewrite (proj2 (Z.leb_le _ _) HT). reflexivity.
      * replace (ex + n + 1) with (ex + (n + 1)) by lia.
        apply half_ulp_scale; [lia|].
        rewrite Z.pow_add_r, Z.pow_1_r by lia. rewrite <- HNdef.
        rewrite Hm53 in Hnear. change (2 ^ 53) with (2 * 2 ^ 52) in Hnear.
        change (Zpos (Z.to_pos (2 ^ 52))) with (2 ^ 52).
        set (A := 2 ^ 52) in *. set (P := 2 ^ n) in *.
        replace (A * (3 * (P * 2)) - third_numerator t)
          with (2 * A * (3 * P) - third_numerator t) by ring.
        lia.
    + intros HT. unfold pack_float.
      destruct (Z.leb_spec (ex + n + 1) 971) as [Hle|]; [|reflexivity].
      apply Hfinal in Hle. lia.
Qed.

End PositiveThird.

Lemma binary_round_aux_opp (mx ex : Z) (lx : location) :
  binary_round_aux prec emax true mx ex lx
  = SFopp (binary_round_aux prec emax false mx ex lx).
Proof.
  unfold binary_round_aux.
  destruct (shr_fexp prec emax mx ex lx) as [mrs' e'].
  destruct (shr_fexp prec emax _ e' loc_Exact) as [mrs'' e''].
  destruct (shr_m mrs'') as [|p|p]; try reflexivity.
  destruct (e'' <=? emax - prec); reflexivity.
Qed.

Lemma int_truediv_3_opp (t : Z) :
  0 < t ->
  int_truediv (- t) 3 =
    match int_truediv t 3 with
    | Ok f => Ok (SFopp f)
    | Raise e => Raise e
    end.
Proof.
  intros Ht. unfold int_truediv.
  replace (3 =? 0) with false by reflexivity.
  replace (t =? 0) with false by (symmetry; apply Z.eqb_neq; lia).
  replace (- t =? 0) with false by (symmetry; apply Z.eqb_neq; lia).
  rewrite Z.abs_opp.
  replace (- t <? 0) with true by (symmetry; apply Z.ltb_lt; lia).
  replace (t <? 0) with false by (symmetry; apply Z.ltb_ge; lia).
  change (xorb true (3 <? 0)) with true. change (xorb false (3 <? 0)) with false.
  destruct (SFdiv_core_binary prec emax (Z.abs t) 0 (Z.abs 3) 0) as [[q e] l].
  rewrite binary_round_aux_opp.
  destruct (binary_round_aux prec emax false q e l); reflexivity.
Qed.

(** The average of any three integers, when it exists, is a finite double
    within half a unit in the last place of the exact third of their sum; it
    fails to exist exactly from [overflow_bound] on. *)
Theorem int_truediv_3_cases (t : Z) :
  (t = 0 /\ int_truediv t 3 = Ok (S754_zero false)) \/
  (t <> 0 /\ Z.abs t < overflow_bound /\
   exists m e,
     int_truediv t 3 = Ok (S754_finite (t <? 0) m e) /\
     2 ^ 52 <= Zpos m < 2 ^ 53 /\ -54 <= e <= 971 /\ half_ulp (Z.abs t) (Zpos m) e) \/
  (overflow_bound <= Z.abs t /\ int_truediv t 3 = Raise OverflowError).
Proof.
  destruct (Z.lt_trichotomy t 0) as [Hneg | [Hzero | Hpos]].
  - assert (Ht : 0 < - t) by lia.
    destruct (int_truediv_3_pos (- t) Ht) as [Hfin Hovf].
    pose proof (int_truediv_3_opp (- t) Ht) as Hopp. rewrite Z.opp_involutive in Hopp.
    rewrite (Z.abs_neq t) by lia.
    destruct (Z.lt_ge_cases (- t) overflow_bound) as [Hlt | Hge].
    + right; left. split; [lia|]. split; [exact Hlt|].
      destruct (Hfin Hlt) as (m & e & Heq & Hm & He & Hulp).
      exists m, e. rewrite Hopp, Heq.
      replace (t <? 0) with true by (symmetry; apply Z.ltb_lt; lia).
      repeat split; try assumption; lia.
    + right; right. split; [exact Hge|]. rewrite Hopp, (Hovf Hge). reflexivity.
  - left. subst t. split; reflexivity.
  - destruct (int_truediv_3_pos t Hpos) as [Hfin Hovf].
    rewrite (Z.abs_eq t) by lia.
    destruct (Z.lt_ge_cases t overflow_bound) as [Hlt | Hge].
    + right; left. split; [lia|]. split; [exact Hlt|].
      destruct (Hfin Hlt) as (m & e & Heq & Hm & He & Hulp).
      exists m, e. rewrite Heq.
      replace (t <? 0) with false by (symmetry; apply Z.ltb_ge; lia).
      repeat split; try assumption; lia.
    + right; right. split; [exact Hge|]. exact (Hovf Hge).
Qed.

(** Comparing the float average with a small positive integer gives the
    answer of the exact comparison of the sum with three times the integer:
    rounding never moves the average across such a threshold. *)
Theorem average_ge_threshold (t n : Z) (f : spec_float) :
  0 < n <= 2 ^ 51 ->
  int_truediv t 3 = Ok f ->
  float_ge_int f n = (3 * n <=? t).
Proof.
  intros Hn Heq.
  destruct (int_truediv_3_cases t) as [[Ht H0] | [(Ht & Hlt & m & e & Hf & Hm & He & Hulp) | [_ Hovf]]].
  - rewrite H0 in Heq. injection Heq as <-. subst t.
    unfold float_ge_int, float_cmp_int.
    replace (3 * n <=? 0) with false by (symmetry; apply Z.leb_gt; lia).
    destruct (Z.compare_spec 0 n); try lia; reflexivity.
  - rewrite Hf in Heq. injection Heq as <-.
    unfold float_ge_int, float_cmp_int, signed_mantissa.
    destruct (Z.ltb_spec t 0) as [Hneg | Hnonneg].
    + (* a negative average is below every positive threshold *)
      replace (3 * n <=? t) with false by (symmetry; apply Z.leb_gt; lia).
      destruct (0 <=? e).
      * assert (0 < 2 ^ e \/ 2 ^ e = 0).
        { destruct (Z.le_gt_cases 0 e); [left; apply Z.pow_pos_nonneg; lia|].
          right; apply Z.pow_neg_r; lia. }
        destruct (Z.compare_spec (Zneg m * 2 ^ e) n); try reflexivity; nia.
      * assert (0 < 2 ^ (- e) \/ 2 ^ (- e) = 0).
        { destruct (Z.le_gt_cases 0 (- e)); [left; apply Z.pow_pos_nonneg; lia|].
          right; apply Z.pow_neg_r; lia. }
        destruct (Z.compare_spec (Zneg m) (n * 2 ^ (- e))); try reflexivity; nia.
    + rewrite (Z.abs_eq t) in Hulp by lia. unfold half_ulp in Hulp.
      destruct (Z.leb_spec 0 e) as [Hpos | Hnegexp].
      * rewrite (Z.max_l e 0), (Z.max_r (- e) 0) in Hulp by lia.
        rewrite Z.pow_0_r, Z.mul_1_r in Hulp.
        assert (HA : 1 <= 2 ^ e) by (pose proof (Z.pow_pos_nonneg 2 e); lia).
        change (2 ^ 51) with 2251799813685248 in Hn.
        change (2 ^ 52) with 4503599627370496 in Hm.
        set (A := 2 ^ e) in *.
        replace (3 * n <=? t) with true by (symmetry; apply Z.leb_le; nia).
        destruct (Z.compare_spec (Zpos m * A) n); try reflexivity; nia.
      * rewrite (Z.max_r e 0), (Z.max_l (- e) 0) in Hulp by lia.
        rewrite Z.pow_0_r, Z.mul_1_r in Hulp.
        assert (HC : 2 <= 2 ^ (- e)).
        { change 2 with (2 ^ 1) at 1. apply Z.pow_le_mono_r; lia. }
        set (C := 2 ^ (- e)) in *.
        destruct (Z.leb_spec (3 * n) t) as [Hle | Hgt];
          destruct (Z.compare_spec (Zpos m) (n * C)); try reflexivity; nia.
  - rewrite Hovf in Heq. discriminate Heq.
Qed.

(** ** Comparisons and values *)

Lemma float_cmp_int_value (f : spec_float) (x : Q) (n : Z) :
  float_value f = Some x -> float_cmp_int f n = Some (x ?= inject_Z n)%Q.
Proof.
  destruct f as [s | s | | s m e]; cbn [float_value]; try discriminate.
  - intros [= <-]. unfold float_cmp_int, Qcompare. cbn [Qnum Qden inject_Z].
    repeat rewrite Z.mul_1_r. reflexivity.
  - intros [= <-]. unfold float_cmp_int.
    destruct (Z.leb_spec 0 e) as [Hpos | Hneg].
    + unfold Qcompare. cbn [Qnum Qden inject_Z]. repeat rewrite Z.mul_1_r. reflexivity.
    + unfold Qcompare. cbn [Qnum Qden inject_Z]. rewrite Z.mul_1_r.
      rewrite Z2Pos.id by (apply Z.pow_pos_nonneg; lia). reflexivity.
Qed.

Lemma py_ge_value (score : pyval) (x : Q) (n : Z) :
  number_value score = Some x ->
  py_ge score (VInt n) = Ok (Qle_bool (inject_Z n) x).
Proof.
  intros Hv.
  assert (Hcmp : py_cmp score (VInt n) = Ok (Some (x ?= inject_Z n)%Q)).
  { destruct score as [z | f | s]; cbn [number_value] in Hv; try discriminate.
    - injection Hv as <-. cbn [py_cmp]. unfold Qcompare. cbn [Qnum Qden inject_Z].
      repeat rewrite Z.mul_1_r. reflexivity.
    - cbn [py_cmp]. rewrite (float_cmp_int_value f x n Hv). reflexivity. }
  unfold py_ge. rewrite Hcmp. cbn [res_bind]. f_equal.
  destruct (Qle_bool (inject_Z n) x) eqn:Hle.
  - apply Qle_bool_iff in Hle. destruct (Qcompare_spec x (inject_Z n)) as [H|H|H];
      try reflexivity. exfalso. apply (Qlt_not_le _ _ H Hle).
  - destruct (Qcompare_spec x (inject_Z n)) as [H|H|H]; try reflexivity;
      exfalso; apply not_true_iff_false in Hle; apply Hle; apply Qle_bool_iff.
    + rewrite H. apply Qle_refl.
    + apply Qlt_le_weak. exact H.
Qed.

Lemma assign_grade_value (score : pyval) (x : Q) :
  number_value score = Some x ->
  assign_grade score =
    Ok (if Qle_bool 90 x then "A"
        else if Qle_bool 80 x then "B"
        else if Qle_bool 70 x then "C"
        else if Qle_bool 60 x then "D"
        else if Qle_bool 50 x then "E"
        else "F").
Proof.
  intros Hv. unfold assign_grade.
  rewrite !(py_ge_value score x _ Hv). cbn [res_bind inject_Z].
  change (inject_Z 90) with 90%Q. change (inject_Z 80) with 80%Q.
  change (inject_Z 70) with 70%Q. change (inject_Z 60) with 60%Q.
  change (inject_Z 50) with 50%Q.
  destruct (Qle_bool 90 x); [reflexivity|]. cbn [res_bind].
  destruct (Qle_bool 80 x); [reflexivity|]. cbn [res_bind].
  destruct (Qle_bool 70 x); [reflexivity|]. cbn [res_bind].
  destruct (Qle_bool 60 x); [reflexivity|]. cbn [res_bind].
  destruct (Qle_bool 50 x); reflexivity.
Qed.

(** C1.  For every score, [assign_grade] returns the letter of the table of
    inclusive lower bounds: at least 90 gives A, at least 80 gives B, at
    least 70 gives C, at least 60 gives D, at least 50 gives E and anything
    lower gives F.  The score is any number, an integer or a finite float,
    and [x] is its value; plus infinity, above every bound, gives A and
    minus infinity, below every bound, gives F.  At the boundaries: 89
    gives B, 90 gives A, 49 gives F and 50 gives E. *)
Theorem assign_grade_thresholds :
  (forall (score : pyval) (x : Q),
     number_value score = Some x ->
     (90 <= x -> assign_grade score = Ok "A") /\
     (80 <= x < 90 -> assign_grade score = Ok "B") /\
     (70 <= x < 80 -> assign_grade score = Ok "C") /\
     (60 <= x < 70 -> assign_grade score = Ok "D") /\
     (50 <= x < 60 -> assign_grade score = Ok "E") /\
     (x < 50 -> assign_grade score = Ok "F"))%Q /\
  assign_grade (VFloat (S754_infinity false)) = Ok "A" /\
  assign_grade (VFloat (S754_infinity true)) = Ok "F" /\
  assign_grade (VInt 89) = Ok "B" /\
  assign_grade (VInt 90) = Ok "A" /\
  assign_grade (VInt 49) = Ok "F" /\
  assign_grade (VInt 50) = Ok "E".
Proof.
  split; [|repeat split; reflexivity].
  intros score x Hv. rewrite (assign_grade_value score x Hv).
  assert (Hb : forall n : Q, (Qle_bool n x = true <-> n <= x)%Q)
    by (intros n; apply Qle_bool_iff).
  assert (Hf : forall n : Q, (x < n -> Qle_bool n x = false)%Q).
  { intros n Hlt. apply not_true_iff_false. intros Hle. apply Hb in Hle.
    exact (Qlt_not_le _ _ Hlt Hle). }
  assert (Hlt : forall a b : Q, (a < b)%Q -> (x < a)%Q -> (x < b)%Q).
  { intros a b Hab Hxa. exact (Qlt_trans _ _ _ Hxa Hab). }
  repeat split.
  - intros H. rewrite (proj2 (Hb 90%Q) H). reflexivity.
  - intros [H1 H2]. rewrite (Hf 90%Q H2), (proj2 (Hb 80%Q) H1). reflexivity.
  - intros [H1 H2].
    rewrite (Hf 90%Q (Hlt 80%Q 90%Q eq_refl H2)), (Hf 80%Q H2), (proj2 (Hb 70%Q) H1).
    reflexivity.
  - intros [H1 H2].
    assert (H3 := Hlt 70%Q 80%Q eq_refl H2). assert (H4 := Hlt 80%Q 90%Q eq_refl H3).
    rewrite (Hf 90%Q H4), (Hf 80%Q H3), (Hf 70%Q H2), (proj2 (Hb 60%Q) H1).
    reflexivity.
  - intros [H1 H2].
    assert (H3 := Hlt 60%Q 70%Q eq_refl H2). assert (H4 := Hlt 70%Q 80%Q eq_refl H3).
    assert (H5 := Hlt 80%Q 90%Q eq_refl H4).
    rewrite (Hf 90%Q H5), (Hf 80%Q H4), (Hf 70%Q H3), (Hf 60%Q H2), (proj2 (Hb 50%Q) H1).
    reflexivity.
  - intros H2.
    assert (H3 := Hlt 50%Q 60%Q eq_refl H2). assert (H4 := Hlt 60%Q 70%Q eq_refl H3).
    assert (H5 := Hlt 70%Q 80%Q eq_refl H4). assert (H6 := Hlt 80%Q 90%Q eq_refl H5).
    rewrite (Hf 90%Q H6), (Hf 80%Q H5), (Hf 70%Q H4), (Hf 60%Q H3), (Hf 50%Q H2).
    reflexivity.
Qed.

Lemma assign_grade_thresholds_witness :
  assign_grade (VFloat alice_average) = Ok "A" /\
  assign_grade (VInt 85) = Ok "B" /\
  assign_grade (VFloat (S754_finite true 4503599627370496 (-53))) = Ok "F".
Proof.
  split; [|split].
  - apply (proj1 assign_grade_thresholds (VFloat alice_average)
             (6450468216285867 # 2 ^ 46) eq_refl).
    vm_compute. discriminate.
  - apply (proj1 assign_grade_thresholds (VInt 85) 85%Q eq_refl).
    split; [vm_compute; discriminate | vm_compute; reflexivity].
  - apply (proj1 assign_grade_thresholds (VFloat (S754_finite true 4503599627370496 (-53)))
             (-4503599627370496 # 2 ^ 53) eq_refl).
    vm_compute. reflexivity.
Defined.

(** What is not an ordered number: NaN compares false with every bound and
    falls through to F; a string cannot be compared with 90 at all. *)
Lemma assign_grade_unordered :
  assign_grade (VFloat S754_nan) = Ok "F" /\
  assign_grade (VStr "90") = Raise TypeError.
Proof. split; reflexivity. Qed.

(** the relative error of a double with a full mantissa that lies within
    half a unit in the last place of [t / 3] *)
Lemma half_ulp_relative (t : Z) (m : positive) (e : Z) (v : Q) :
  t <> 0 -> 2 ^ 52 <= Zpos m ->
  half_ulp (Z.abs t) (Zpos m) e ->
  float_value (S754_finite (t <? 0) m e) = Some v ->
  (Qabs (v - (t # 3)) <= (1 # 2 ^ 53) * Qabs v)%Q.
Proof.
  intros Ht Hm Hulp [= <-]. unfold half_ulp in Hulp.
  change (2 ^ 52) with 4503599627370496 in Hm.
  assert (Hs : exists g, (g = 1 \/ g = -1) /\
                      signed_mantissa (t <? 0) m = g * Zpos m /\ Z.abs t = g * t).
  { unfold signed_mantissa. destruct (Z.ltb_spec t 0).
    - exists (-1). split; [right; reflexivity|]. split; lia.
    - exists 1. split; [left; reflexivity|]. split; lia. }
  destruct Hs as (g & Hsg & Hs & Habs). rewrite Hs. rewrite Habs in Hulp.
  destruct (Z.leb_spec 0 e) as [Hpos | Hneg].
  - rewrite (Z.max_l e 0), (Z.max_r (- e) 0) in Hulp by lia.
    rewrite Z.pow_0_r, Z.mul_1_r in Hulp.
    assert (HA : 0 < 2 ^ e) by (apply Z.pow_pos_nonneg; lia).
    set (A := 2 ^ e) in *.
    unfold Qle, Qabs, Qminus, Qplus, Qopp, Qmult, inject_Z. cbn [Qnum Qden].
    rewrite !Pos2Z.inj_mul.
    change (Zpos (2 ^ 53)) with 9007199254740992.
    destruct Hsg as [Hsg | Hsg]; subst g; nia.
  - rewrite (Z.max_r e 0), (Z.max_l (- e) 0) in Hulp by lia.
    rewrite Z.pow_0_r, Z.mul_1_r in Hulp.
    assert (HC : 0 < 2 ^ (- e)) by (apply Z.pow_pos_nonneg; lia).
    unfold Qle, Qabs, Qminus, Qplus, Qopp, Qmult, inject_Z. cbn [Qnum Qden].
    rewrite !Pos2Z.inj_mul. rewrite !Z2Pos.id by exact HC.
    set (C := 2 ^ (- e)) in *.
    change (Zpos (2 ^ 53)) with 9007199254740992.
    destruct Hsg as [Hsg | Hsg]; subst g; nia.
Qed.

(** The average of three integers is, whenever it exists, a finite double
    whose value differs from the exact third of the sum by at most [2^-53]
    of itself. *)
Theorem int_truediv_3_value (t : Z) (f : spec_float) :
  int_truediv t 3 = Ok f ->
  exists v : Q,
    float_value f = Some v /\ (Qabs (v - (t # 3)) <= (1 # 2 ^ 53) * Qabs v)%Q.
Proof.
  intros Heq.
  destruct (int_truediv_3_cases t)
    as [[Ht H0] | [(Ht & Hlt & m & e & Hf & Hm & He & Hulp) | [_ Hovf]]].
  - rewrite H0 in Heq. injection Heq as <-. subst t. exists 0%Q.
    split; [reflexivity | discriminate].
  - rewrite Hf in Heq. injection Heq as <-.
    destruct (float_value (S754_finite (t <? 0) m e)) as [v|] eqn:Hv; [|discriminate Hv].
    exists v. split; [reflexivity|].
    apply (half_ulp_relative t m e v Ht (proj1 Hm) Hulp Hv).
  - rewrite Hovf in Heq. discriminate Heq.
Qed.

(** When the sum is a multiple of three and its third is at most [2^53],
    the average is that third exactly: a double holds every integer up to
    [2^53].  Below [2^53 - 1] the bound of half a unit in the last place
    leaves no other double; the last two thirds are computed. *)
Theorem int_truediv_3_exact (k : Z) (f : spec_float) :
  Z.abs k <= 2 ^ 53 ->
  int_truediv (3 * k) 3 = Ok f ->
  exists v : Q, float_value f = Some v /\ (v == inject_Z k)%Q.
Proof.
  intros Hk Heq.
  destruct (Z.le_gt_cases (Z.abs k) (2 ^ 53 - 2)) as [Hsmall | Hedge].
  - destruct (int_truediv_3_cases (3 * k))
      as [[Ht H0] | [(Ht & Hlt & m & e & Hf & Hm & He & Hulp) | [_ Hovf]]].
    + rewrite H0 in Heq. injection Heq as <-. exists 0%Q.
      split; [reflexivity|]. replace k with 0 by lia. reflexivity.
    + rewrite Hf in Heq. injection Heq as <-. cbn [float_value].
      eexists. split; [reflexivity|].
      unfold half_ulp in Hulp.
      change (2 ^ 53) with 9007199254740992 in *.
      change (2 ^ 52) with 4503599627370496 in *.
      assert (Hs : exists g, (g = 1 \/ g = -1) /\
                     signed_mantissa (3 * k <? 0) m = g * Zpos m /\
                     Z.abs (3 * k) = 3 * (g * k)).
      { unfold signed_mantissa. destruct (Z.ltb_spec (3 * k) 0).
        - exists (-1). split; [right; reflexivity|]. split; lia.
        - exists 1. split; [left; reflexivity|]. split; lia. }
      destruct Hs as (g & Hsg & Hs & Habs). rewrite Hs. rewrite Habs in Hulp.
      destruct (Z.leb_spec 0 e) as [Hpos | Hneg].
      * rewrite (Z.max_l e 0), (Z.max_r (- e) 0) in Hulp by lia.
        rewrite Z.pow_0_r, Z.mul_1_r in Hulp.
        assert (HA : 1 <= 2 ^ e) by (pose proof (Z.pow_pos_nonneg 2 e); lia).
        assert (HA1 : e = 0 \/ 2 <= 2 ^ e).
        { destruct (Z.eq_dec e 0); [left; assumption | right].
          change 2 with (2 ^ 1) at 1. apply Z.pow_le_mono_r; lia. }
        unfold Qeq, inject_Z. cbn [Qnum Qden].
        destruct HA1 as [-> | HA2].
        -- rewrite Z.pow_0_r in *. destruct Hsg; subst g; lia.
        -- set (A := 2 ^ e) in *. destruct Hsg; subst g; nia.
      * rewrite (Z.max_r e 0), (Z.max_l (- e) 0) in Hulp by lia.
        rewrite Z.pow_0_r, Z.mul_1_r in Hulp.
        assert (HC : 0 < 2 ^ (- e)) by (apply Z.pow_pos_nonneg; lia).
        unfold Qeq, inject_Z. cbn [Qnum Qden]. rewrite Z2Pos.id by exact HC.
        set (C := 2 ^ (- e)) in *. destruct Hsg; subst g; nia.
    + rewrite Hovf in Heq. discriminate Heq.
  - change (2 ^ 53) with 9007199254740992 in *.
    assert (Hcases : k = 9007199254740991 \/ k = 9007199254740992
                     \/ k = -9007199254740991 \/ k = -9007199254740992) by lia.
    destruct Hcases as [-> | [-> | [-> | ->]]];
      vm_compute in Heq; injection Heq as <-; eexists; split; reflexivity.
Qed.

(** [int / 3] returns or overflows, nothing else. *)
Lemma int_truediv_3_total (t : Z) :
  (Z.abs t < overflow_bound -> exists f, int_truediv t 3 = Ok f) /\
  (overflow_bound <= Z.abs t -> int_truediv t 3 = Raise OverflowError).
Proof.
  destruct (int_truediv_3_cases t)
    as [[Ht H0] | [(Ht & Hlt & m & e & Hf & _) | [Hge Hovf]]].
  - split; [intros _; eexists; exact H0|].
    subst t. intros H. exfalso. revert H. apply Z.lt_nge.
    unfold overflow_bound. pose proof (Z.pow_pos_nonneg 2 970 ltac:(lia) ltac:(lia)).
    set (K := 2 ^ 970) in *. clearbody K. cbn [Z.abs]. lia.
  - split; [intros _; eexists; exact Hf | lia].
  - split; [lia | intros _; exact Hovf].
Qed.

(** ** The statistics of one record *)

Lemma assign_grade_float (f : spec_float) :
  assign_grade (VFloat f) = Ok (float_grade f).
Proof.
  unfold assign_grade, float_grade, py_ge, py_cmp, float_ge_int. cbn [res_bind].
  destruct (float_cmp_int f 90) as [[]|]; cbn [res_bind]; try reflexivity;
  destruct (float_cmp_int f 80) as [[]|]; cbn [res_bind]; try reflexivity;
  destruct (float_cmp_int f 70) as [[]|]; cbn [res_bind]; try reflexivity;
  destruct (float_cmp_int f 60) as [[]|]; cbn [res_bind]; try reflexivity;
  destruct (float_cmp_int f 50) as [[]|]; reflexivity.
Qed.

Lemma calculate_min_max_range_int (m s e : Z) :
  calculate_min_max_range [VInt m; VInt s; VInt e]
  = Ok (VInt (Z.min (Z.min m s) e), VInt (Z.max (Z.max m s) e),
        VInt (Z.max (Z.max m s) e - Z.min (Z.min m s) e)).
Proof.
  unfold calculate_min_max_range, py_min, py_max.
  cbn [min_loop max_loop py_lt py_gt py_cmp res_bind].
  assert (Hmin1 : (if match s ?= m with Lt => true | _ => false end then VInt s else VInt m)
                  = VInt (Z.min m s)).
  { destruct (Z.compare_spec s m); f_equal; lia. }
  assert (Hmax1 : (if match s ?= m with Gt => true | _ => false end then VInt s else VInt m)
                  = VInt (Z.max m s)).
  { destruct (Z.compare_spec s m); f_equal; lia. }
  rewrite Hmin1, Hmax1. cbn [py_lt py_gt py_cmp res_bind].
  assert (Hmin2 : (if match e ?= Z.min m s with Lt => true | _ => false end
                   then VInt e else VInt (Z.min m s)) = VInt (Z.min (Z.min m s) e)).
  { destruct (Z.compare_spec e (Z.min m s)); f_equal; lia. }
  assert (Hmax2 : (if match e ?= Z.max m s with Gt => true | _ => false end
                   then VInt e else VInt (Z.max m s)) = VInt (Z.max (Z.max m s) e)).
  { destruct (Z.compare_spec e (Z.max m s)); f_equal; lia. }
  rewrite Hmin2, Hmax2. reflexivity.
Qed.

Lemma int_truediv_3_outcome (t : Z) :
  (exists f, int_truediv t 3 = Ok f) \/ int_truediv t 3 = Raise OverflowError.
Proof.
  destruct (Z.lt_ge_cases (Z.abs t) overflow_bound) as [Hlt | Hge].
  - left. exact (proj1 (int_truediv_3_total t) Hlt).
  - right. exact (proj2 (int_truediv_3_total t) Hge).
Qed.

Lemma calculate_average_int (student : dict) (name : pyval) (m s e : Z) (w : world) :
  int_record student name m s e ->
  calculate_average student w =
    (match int_truediv (m + s + e) 3 with
     | Ok f => Ok (Some (VFloat f))
     | Raise ex => Raise ex
     end, w).
Proof.
  intros (_ & Hm & Hs & He).
  unfold calculate_average, try_except, bind, lift, subscript, ret.
  rewrite Hm, Hs, He. cbn [py_add py_truediv res_bind].
  destruct (int_truediv_3_outcome (m + s + e)) as [[f Hf] | Hovf].
  - rewrite Hf. reflexivity.
  - rewrite Hovf. reflexivity.
Qed.

Lemma process_student_int (student : dict) (name : pyval) (m s e : Z)
    (results : list dict) (w : world) :
  int_record student name m s e ->
  process_student student results w =
    (match int_truediv (m + s + e) 3 with
     | Ok f => Ok (results ++ [student_result name m s e f])%list
     | Raise ex => Raise ex
     end, w).
Proof.
  intros Hrec. pose proof Hrec as (Hn & Hm & Hs & He).
  unfold process_student, bind, lift, subscript. rewrite Hn, Hm, Hs, He.
  rewrite (calculate_average_int student name m s e w Hrec).
  destruct (int_truediv (m + s + e) 3) as [f | ex]; [|reflexivity].
  rewrite assign_grade_float, calculate_min_max_range_int.
  reflexivity.
Qed.

Lemma student_result_fields (name : pyval) (m s e : Z) (f : spec_float) :
  let r := student_result name m s e f in
  r !! "name" = Some name /\
  r !! "math" = Some (VInt m) /\
  r !! "science" = Some (VInt s) /\
  r !! "english" = Some (VInt e) /\
  r !! "average" = Some (VFloat f) /\
  r !! "grade" = Some (VStr (float_grade f)) /\
  r !! "min_score" = Some (VInt (Z.min (Z.min m s) e)) /\
  r !! "max_score" = Some (VInt (Z.max (Z.max m s) e)) /\
  r !! "score_range" = Some (VInt (Z.max (Z.max m s) e - Z.min (Z.min m s) e)) /\
  r !! "pass_fail" = Some (VStr (if float_ge_int f 50 then passed_message
                                 else failed_message)).
Proof. repeat split; reflexivity. Qed.

(** the grade and the pass mark of an average, read off the sum *)
Lemma float_grade_of_sum (t : Z) (f : spec_float) :
  int_truediv t 3 = Ok f ->
  float_grade f =
    (if 270 <=? t then "A" else if 240 <=? t then "B" else if 210 <=? t then "C"
     else if 180 <=? t then "D" else if 150 <=? t then "E" else "F") /\
  float_ge_int f 50 = (150 <=? t).
Proof.
  intros Hf. unfold float_grade.
  rewrite (average_ge_threshold t 90 f), (average_ge_threshold t 80 f),
    (average_ge_threshold t 70 f), (average_ge_threshold t 60 f),
    (average_ge_threshold t 50 f) by (try exact Hf; cbn; lia).
  split; reflexivity.
Qed.

Lemma process_loop_valid (students : list dict) :
  forall (results : list dict) (w : world),
    Forall valid_student students ->
    exists rs,
      process_loop students results w = (Ok (results ++ rs)%list, w) /\
      Forall2 result_for students rs.
Proof.
  induction students as [|student rest IH]; intros results w Hall.
  - exists []. split; [cbn; rewrite app_nil_r; reflexivity | constructor].
  - inversion Hall as [|? ? (name & m & s & e & Hrec & Hrange) Hrest]; subst.
    destruct (proj1 (int_truediv_3_total (m + s + e)) Hrange) as [f Hf].
    destruct (IH (results ++ [student_result name m s e f])%list w Hrest) as (rs & Hrs & Hrel).
    exists (student_result name m s e f :: rs). split.
    + cbn [process_loop]. unfold bind.
      rewrite (process_student_int student name m s e results w Hrec), Hf.
      rewrite Hrs. rewrite <- app_assoc. reflexivity.
    + constructor; [|exact Hrel]. exists name, m, s, e, f. split; [exact Hrec | split; [exact Hf | reflexivity]].
Qed.

(** ** The average *)

(** C2, as stated, fails twice.  A sum of scores beyond the range of a
    double has no average: [calculate_average] raises [OverflowError]
    instead of returning.  And a float cannot hold 275/3: the average of
    95, 88 and 92 is the double next to it, not that quotient. *)
Lemma calculate_average_not_the_exact_quotient :
  calculate_average zoe empty_world = (Raise OverflowError, empty_world) /\
  calculate_average alice empty_world
  = (Ok (Some (VFloat alice_average)), empty_world) /\
  float_value alice_average = Some (6450468216285867 # 2 ^ 46) /\
  ~ (6450468216285867 # 2 ^ 46 == 275 # 3)%Q.
Proof.
  split; [vm_compute; reflexivity|].
  split; [vm_compute; reflexivity|].
  split; [reflexivity|].
  unfold Qeq. cbn. discriminate.
Qed.

(** C2, amended.  For every student record with integer scores whose sum
    [t] is below [overflow_bound] in absolute value, [calculate_average]
    prints nothing and returns [t / 3] as Python's true division of
    integers computes it, which is not the truncated quotient: a double
    whose value [v] differs from the exact quotient by at most [2^-53] of
    itself, and is the exact quotient whenever [t = 3 * k] with [k] of at
    most [2^53] in absolute value.  Beyond that even an integer quotient is
    rounded: three scores of [2^53 + 1] have the average [2^53].  From
    [overflow_bound] on the division raises [OverflowError].  For the
    scores 95, 88 and 92 the average is a double strictly between 91 and
    92 (the one Python prints as 91.66666666666667), and its grade is A. *)
Theorem calculate_average_true_division :
  (forall (student : dict) (name : pyval) (m s e : Z) (w : world),
     int_record student name m s e ->
     in_float_range m s e ->
     exists (f : spec_float) (v : Q),
       calculate_average student w = (Ok (Some (VFloat f)), w) /\
       int_truediv (m + s + e) 3 = Ok f /\
       float_value f = Some v /\
       (Qabs (v - (m + s + e # 3)) <= (1 # 2 ^ 53) * Qabs v)%Q /\
       (forall k, m + s + e = 3 * k -> Z.abs k <= 2 ^ 53 -> (v == inject_Z k)%Q)) /\
  (forall (student : dict) (name : pyval) (m s e : Z) (w : world),
     int_record student name m s e ->
     ~ in_float_range m s e ->
     calculate_average student w = (Raise OverflowError, w)) /\
  (exists f : spec_float,
     calculate_average
       (student_literal (VStr "Max") (VInt (2 ^ 53 + 1)) (VInt (2 ^ 53 + 1))
                        (VInt (2 ^ 53 + 1))) empty_world
     = (Ok (Some (VFloat f)), empty_world) /\
     float_value f = Some (inject_Z (2 ^ 53))) /\
  calculate_average alice empty_world
  = (Ok (Some (VFloat alice_average)), empty_world) /\
  (exists v : Q, float_value alice_average = Some v /\ (91 < v < 92)%Q) /\
  assign_grade (VFloat alice_average) = Ok "A".
Proof.
  split; [|split; [|split; [|split; [|split]]]].
  - intros student name m s e w Hrec Hrange.
    destruct (proj1 (int_truediv_3_total (m + s + e)) Hrange) as [f Hf].
    destruct (int_truediv_3_value (m + s + e) f Hf) as (v & Hv & Hclose).
    exists f, v. split.
    { rewrite (calculate_average_int student name m s e w Hrec), Hf. reflexivity. }
    split; [exact Hf|]. split; [exact Hv|]. split; [exact Hclose|].
    intros k Hk Hsmall. rewrite Hk in Hf.
    destruct (int_truediv_3_exact k f Hsmall Hf) as (v' & Hv' & Heq).
    rewrite Hv in Hv'. injection Hv' as <-. exact Heq.
  - intros student name m s e w Hrec Hrange.
    rewrite (calculate_average_int student name m s e w Hrec).
    rewrite (proj2 (int_truediv_3_total (m + s + e))); [reflexivity|].
    unfold in_float_range in Hrange. lia.
  - eexists. split; [vm_compute; reflexivity | reflexivity].
  - vm_compute. reflexivity.
  - eexists. split; [reflexivity|]. split; reflexivity.
  - reflexivity.
Qed.

Lemma calculate_average_true_division_witness :
  exists (f : spec_float) (v : Q),
    calculate_average alice empty_world = (Ok (Some (VFloat f)), empty_world) /\
    int_truediv (95 + 88 + 92) 3 = Ok f /\
    float_value f = Some v /\
    (Qabs (v - (95 + 88 + 92 # 3)) <= (1 # 2 ^ 53) * Qabs v)%Q /\
    (forall k, 95 + 88 + 92 = 3 * k -> Z.abs k <= 2 ^ 53 -> (v == inject_Z k)%Q).
Proof.
  apply (proj1 calculate_average_true_division alice (VStr "Alice") 95 88 92 empty_world).
  - repeat split; reflexivity.
  - vm_compute. reflexivity.
Defined.

(** ** One Result per record *)

Lemma process_single_valid (student : dict) (name : pyval) (m s e : Z) (w : world) :
  int_record student name m s e ->
  in_float_range m s e ->
  exists f,
    int_truediv (m + s + e) 3 = Ok f /\
    process_student_results [student] w = (Ok [student_result name m s e f], w).
Proof.
  intros Hrec Hrange.
  destruct (proj1 (int_truediv_3_total (m + s + e)) Hrange) as [f Hf].
  exists f. split; [exact Hf|].
  unfold process_student_results. cbn [process_loop]. unfold bind.
  rewrite (process_student_int student name m s e [] w Hrec), Hf. reflexivity.
Qed.

Lemma process_single_overflow (student : dict) (name : pyval) (m s e : Z) (w : world) :
  int_record student name m s e ->
  ~ in_float_range m s e ->
  process_student_results [student] w = (Raise OverflowError, w).
Proof.
  intros Hrec Hrange.
  unfold process_student_results. cbn [process_loop]. unfold bind.
  rewrite (process_student_int student name m s e [] w Hrec).
  rewrite (proj2 (int_truediv_3_total (m + s + e))); [reflexivity|].
  unfold in_float_range in Hrange. lia.
Qed.

(** C9, as stated, fails: a record with all four fields whose scores sum
    beyond the range of a double gets no Result, the run of
    [process_student_results] ends in [OverflowError]. *)
Lemma process_student_results_overflow :
  int_record zoe (VStr "Zoe") (10 ^ 400) 0 0 /\
  process_student_results [zoe] empty_world = (Raise OverflowError, empty_world).
Proof. split; [repeat split; reflexivity | vm_compute; reflexivity]. Qed.

(** C9, amended.  For every list of records in which each record holds a
    name and three integer scores whose sum is below [overflow_bound] in
    absolute value, [process_student_results] prints nothing and returns
    exactly one Result per record, in the same order, and the name, math,
    science and english fields of each Result are those of its record. *)
Theorem process_student_results_one_per_record
    (students_data : list dict) (w : world) :
  Forall valid_student students_data ->
  exists results,
    process_student_results students_data w = (Ok results, w) /\
    length results = length students_data /\
    Forall2 (fun student r : dict =>
               r !! "name" = student !! "name" /\
               r !! "math" = student !! "math" /\
               r !! "science" = student !! "science" /\
               r !! "english" = student !! "english")
            students_data results.
Proof.
  intros Hall.
  destruct (process_loop_valid students_data [] w Hall) as (rs & Hrs & Hrel).
  exists rs. split; [exact Hrs|]. split.
  - symmetry. exact (Forall2_length _ _ _ Hrel).
  - clear Hrs Hall. induction Hrel as [|student r students rs' Hr _ IH]; constructor.
    + destruct Hr as (name & m & s & e & f & (Hn & Hm & Hs & He) & _ & ->).
      rewrite Hn, Hm, Hs, He. repeat split; reflexivity.
    + exact IH.
Qed.

Lemma process_student_results_one_per_record_witness :
  exists results,
    process_student_results [alice; bob] empty_world = (Ok results, empty_world) /\
    length results = length [alice; bob] /\
    Forall2 (fun student r : dict =>
               r !! "name" = student !! "name" /\
               r !! "math" = student !! "math" /\
               r !! "science" = student !! "science" /\
               r !! "english" = student !! "english")
            [alice; bob] results.
Proof.
  apply (process_student_results_one_per_record [alice; bob] empty_world).
  repeat constructor;
    [exists (VStr "Alice"), 95, 88, 92 | exists (VStr "Bob"), 40, 55, 30];
    (split; [repeat split; reflexivity | vm_compute; reflexivity]).
Defined.

(** ** Pass or fail *)

Lemma float_ge_int_value (f : spec_float) (v : Q) (n : Z) :
  float_value f = Some v ->
  (float_ge_int f n = true <-> (inject_Z n <= v)%Q).
Proof.
  intros Hv. unfold float_ge_int. rewrite (float_cmp_int_value f v n Hv).
  destruct (Qcompare_spec v (inject_Z n)) as [H | H | H].
  - split; [intros _; rewrite H; apply Qle_refl | reflexivity].
  - split; [discriminate | intros Hle; exfalso; exact (Qlt_not_le _ _ H Hle)].
  - split; [intros _; apply Qlt_le_weak; exact H | reflexivity].
Qed.

(** C5.  For every record with integer scores, the Result's pass_fail field
    is the success message if and only if the average is at least 50, and
    is the string "Fail" otherwise.  The average is the float of the
    Result, [v] its value; it is at least 50 exactly when the exact mean is,
    that is when the scores sum to 150 or more.  (A record whose sum is
    beyond the range of a double has no Result: the run ends in
    [OverflowError].) *)
Theorem pass_fail_iff_average_at_least_50
    (student : dict) (name : pyval) (m s e : Z) (w : world) :
  int_record student name m s e ->
  (in_float_range m s e ->
   exists (r : dict) (f : spec_float) (v : Q),
     process_student_results [student] w = (Ok [r], w) /\
     r !! "average" = Some (VFloat f) /\
     float_value f = Some v /\
     (r !! "pass_fail" = Some (VStr "Congratulations, you passed!") <-> (50 <= v)%Q) /\
     (~ (50 <= v)%Q -> r !! "pass_fail" = Some (VStr "Fail")) /\
     ((50 <= v)%Q <-> 150 <= m + s + e)) /\
  (~ in_float_range m s e ->
   process_student_results [student] w = (Raise OverflowError, w)).
Proof.
  intros Hrec. split; [|apply (process_single_overflow student name m s e w Hrec)].
  intros Hrange.
  destruct (process_single_valid student name m s e w Hrec Hrange) as (f & Hf & Hrun).
  destruct (int_truediv_3_value (m + s + e) f Hf) as (v & Hv & _).
  destruct (float_grade_of_sum (m + s + e) f Hf) as [_ Hsum].
  pose proof (float_ge_int_value f v 50 Hv) as Hge.
  change (inject_Z 50) with 50%Q in Hge.
  exists (student_result name m s e f), f, v.
  split; [exact Hrun|]. split; [reflexivity|]. split; [exact Hv|].
  destruct (student_result_fields name m s e f)
    as (_ & _ & _ & _ & _ & _ & _ & _ & _ & Hpf).
  cbv zeta in Hpf. rewrite Hpf. unfold passed_message, failed_message.
  split; [|split].
  - rewrite <- Hge. destruct (float_ge_int f 50); split; congruence.
  - rewrite <- Hge. destruct (float_ge_int f 50); [congruence | reflexivity].
  - rewrite <- Hge, Hsum. apply Z.leb_le.
Qed.

Lemma pass_fail_iff_average_at_least_50_witness :
  exists (r : dict) (f : spec_float) (v : Q),
    process_student_results [alice] empty_world = (Ok [r], empty_world) /\
    r !! "average" = Some (VFloat f) /\
    float_value f = Some v /\
    (r !! "pass_fail" = Some (VStr "Congratulations, you passed!") <-> (50 <= v)%Q) /\
    (~ (50 <= v)%Q -> r !! "pass_fail" = Some (VStr "Fail")) /\
    ((50 <= v)%Q <-> 150 <= 95 + 88 + 92).
Proof.
  destruct (pass_fail_iff_average_at_least_50 alice (VStr "Alice") 95 88 92 empty_world)
    as [Hresult _].
  - repeat split; reflexivity.
  - apply Hresult. vm_compute. reflexivity.
Defined.

(** C10.  For every record with integer scores, the Result's pass_fail
    field is "Fail" if and only if its grade field is "F"; both happen
    exactly when the scores sum to less than 150, that is when the exact
    mean is below 50.  (A record whose sum is beyond the range of a double
    has no Result.) *)
Theorem fail_iff_grade_F
    (student : dict) (name : pyval) (m s e : Z) (w : world) :
  int_record student name m s e ->
  (in_float_range m s e ->
   exists r : dict,
     process_student_results [student] w = (Ok [r], w) /\
     (r !! "pass_fail" = Some (VStr "Fail") <-> r !! "grade" = Some (VStr "F")) /\
     (r !! "grade" = Some (VStr "F") <-> m + s + e < 150)) /\
  (~ in_float_range m s e ->
   process_student_results [student] w = (Raise OverflowError, w)).
Proof.
  intros Hrec. split; [|apply (process_single_overflow student name m s e w Hrec)].
  intros Hrange.
  destruct (process_single_valid student name m s e w Hrec Hrange) as (f & Hf & Hrun).
  destruct (float_grade_of_sum (m + s + e) f Hf) as [Hgrade Hsum].
  exists (student_result name m s e f). split; [exact Hrun|].
  destruct (student_result_fields name m s e f)
    as (_ & _ & _ & _ & _ & Hg & _ & _ & _ & Hpf).
  cbv zeta in Hg, Hpf. rewrite Hg, Hpf, Hgrade, Hsum.
  unfold passed_message, failed_message.
  destruct (Z.leb_spec 270 (m + s + e)); destruct (Z.leb_spec 240 (m + s + e));
    destruct (Z.leb_spec 210 (m + s + e)); destruct (Z.leb_spec 180 (m + s + e));
    destruct (Z.leb_spec 150 (m + s + e));
    (split; split; intros; try discriminate; try reflexivity; lia).
Qed.

Lemma fail_iff_grade_F_witness :
  exists r : dict,
    process_student_results [bob] empty_world = (Ok [r], empty_world) /\
    (r !! "pass_fail" = Some (VStr "Fail") <-> r !! "grade" = Some (VStr "F")) /\
    (r !! "grade" = Some (VStr "F") <-> 40 + 55 + 30 < 150).
Proof.
  destruct (fail_iff_grade_F bob (VStr "Bob") 40 55 30 empty_world) as [Hresult _].
  - repeat split; reflexivity.
  - apply Hresult. vm_compute. reflexivity.
Defined.

(** ** Minimum, maximum and range *)

(** C6.  For every record, min_score is the minimum and max_score the
    maximum of the three raw subject scores, and score_range is their
    difference: [calculate_min_max_range] returns, for three integers, the
    least of them, the greatest of them and the greatest minus the least,
    and these are the three fields of the Result.  For the scores 70, 85
    and 60 the result is 60, 85 and 25.  (A record whose sum is beyond the
    range of a double has no Result: the run ends in [OverflowError].) *)
Theorem min_max_range_of_scores :
  (forall m s e : Z,
     exists lo hi : Z,
       calculate_min_max_range [VInt m; VInt s; VInt e]
       = Ok (VInt lo, VInt hi, VInt (hi - lo)) /\
       lo <= m /\ lo <= s /\ lo <= e /\ (lo = m \/ lo = s \/ lo = e) /\
       m <= hi /\ s <= hi /\ e <= hi /\ (hi = m \/ hi = s \/ hi = e)) /\
  (forall (student : dict) (name : pyval) (m s e : Z) (w : world),
     int_record student name m s e ->
     (in_float_range m s e ->
      exists (r : dict) (lo hi range : pyval),
        process_student_results [student] w = (Ok [r], w) /\
        calculate_min_max_range [VInt m; VInt s; VInt e] = Ok (lo, hi, range) /\
        r !! "min_score" = Some lo /\
        r !! "max_score" = Some hi /\
        r !! "score_range" = Some range) /\
     (~ in_float_range m s e ->
      process_student_results [student] w = (Raise OverflowError, w))) /\
  calculate_min_max_range [VInt 70; VInt 85; VInt 60] = Ok (VInt 60, VInt 85, VInt 25).
Proof.
  split; [|split; [|reflexivity]].
  - intros m s e. exists (Z.min (Z.min m s) e), (Z.max (Z.max m s) e).
    split; [apply calculate_min_max_range_int | lia].
  - intros student name m s e w Hrec.
    split; [|apply (process_single_overflow student name m s e w Hrec)].
    intros Hrange.
    destruct (process_single_valid student name m s e w Hrec Hrange) as (f & Hf & Hrun).
    eexists _, _, _, _. split; [exact Hrun|].
    split; [apply calculate_min_max_range_int|].
    repeat split; reflexivity.
Qed.

Lemma min_max_range_of_scores_witness :
  exists (r : dict) (lo hi range : pyval),
    process_student_results [bob] empty_world = (Ok [r], empty_world) /\
    calculate_min_max_range [VInt 40; VInt 55; VInt 30] = Ok (lo, hi, range) /\
    r !! "min_score" = Some lo /\
    r !! "max_score" = Some hi /\
    r !! "score_range" = Some range.
Proof.
  destruct (proj1 (proj2 min_max_range_of_scores) bob (VStr "Bob") 40 55 30 empty_world)
    as [Hresult _].
  - repeat split; reflexivity.
  - apply Hresult. vm_compute. reflexivity.
Defined.

(** ** A record without a score *)

Lemma process_student_missing_score (student : dict) (results : list dict) (w : world) :
  student !! "math" = None \/ student !! "science" = None \/ student !! "english" = None ->
  exists key,
    student !! key = None /\
    process_student student results w = (Raise (KeyError key), w).
Proof.
  intros Hmissing. unfold process_student, bind, lift, subscript.
  destruct (student !! "math") as [vm|] eqn:Hm;
    [|exists "math"; split; [exact Hm | reflexivity]].
  destruct (student !! "science") as [vs|] eqn:Hs;
    [|exists "science"; split; [exact Hs | reflexivity]].
  destruct (student !! "english") as [ve|] eqn:He;
    [|exists "english"; split; [exact He | reflexivity]].
  destruct Hmissing as [H | [H | H]]; discriminate H.
Qed.

(** C3 does not hold of the code.  The claim is that a Record from which a
    score field is absent is dropped and the run goes on, which is what
    [calculate_average] prepares: alone, it reports the missing key and
    returns [None].  But [process_student_results] reads the three scores
    itself before it calls [calculate_average], outside any [try]: after
    the Results of the records before it, a record without a score ends
    the run in a [KeyError], and no list of Results is returned. *)
Theorem missing_score_is_fatal
    (before after : list dict) (student : dict) (w : world) :
  Forall valid_student before ->
  student !! "math" = None \/ student !! "science" = None \/ student !! "english" = None ->
  exists key,
    student !! key = None /\
    process_student_results (before ++ student :: after) w = (Raise (KeyError key), w).
Proof.
  intros Hbefore Hmissing. unfold process_student_results.
  generalize (@nil dict) as results.
  induction before as [|b before IH]; intros results.
  - destruct (process_student_missing_score student results w Hmissing) as (key & Hkey & Hrun).
    exists key. split; [exact Hkey|].
    cbn [app process_loop]. unfold bind. rewrite Hrun. reflexivity.
  - inversion Hbefore as [|? ? (name & m & s & e & Hrec & Hrange) Hrest]; subst.
    destruct (proj1 (int_truediv_3_total (m + s + e)) Hrange) as [f Hf].
    destruct (IH Hrest (results ++ [student_result name m s e f])%list) as (key & Hkey & Hrun).
    exists key. split; [exact Hkey|].
    cbn [app process_loop]. unfold bind.
    rewrite (process_student_int b name m s e results w Hrec), Hf. exact Hrun.
Qed.

Lemma missing_score_is_fatal_witness :
  exists key,
    eve !! key = None /\
    process_student_results ([alice] ++ eve :: [bob]) empty_world
    = (Raise (KeyError key), empty_world).
Proof.
  apply (missing_score_is_fatal [alice] [bob] eve empty_world).
  - repeat constructor. exists (VStr "Alice"), 95, 88, 92.
    split; [repeat split; reflexivity | vm_compute; reflexivity].
  - right. right. reflexivity.
Defined.

(** What the defensive check of [calculate_average] would do for the same
    record, were it reached. *)
Lemma calculate_average_missing_score :
  calculate_average eve empty_world
  = (Ok None, World [MissingData (KeyError "english")] ∅) /\
  process_student_results [eve] empty_world = (Raise (KeyError "english"), empty_world).
Proof. split; vm_compute; reflexivity. Qed.

(** ** The Writer *)

Section WriterProperties.

Variable repr_float : spec_float -> string.

Lemma dict_to_list_writable (r : dict) :
  writable r -> dict_to_list repr_float header r = Ok (result_row repr_float r).
Proof.
  intros Hr. unfold dict_to_list. rewrite bool_decide_eq_true_2 by exact Hr.
  reflexivity.
Qed.

Lemma writerows_writable (filename : string) (rowdicts : list dict) :
  forall (content : list (list string)) (w : world),
    Forall writable rowdicts ->
    files w !! filename = Some content ->
    writerows repr_float filename rowdicts w
    = (Ok tt,
       World (stdout w)
             (<[filename := (content ++ map (result_row repr_float) rowdicts)%list]>
                (files w))).
Proof.
  induction rowdicts as [|r rest IH]; intros content w Hall Hfile.
  - cbn [writerows map]. unfold ret. rewrite app_nil_r.
    rewrite insert_id by exact Hfile. destruct w; reflexivity.
  - inversion Hall as [|? ? Hr Hrest]; subst.
    cbn [writerows]. unfold bind, lift. rewrite (dict_to_list_writable r Hr).
    unfold append_row at 1. rewrite Hfile. cbn [default].
    rewrite (IH (content ++ [result_row repr_float r])%list).
    + cbn [stdout files map]. rewrite insert_insert_eq, <- app_assoc. reflexivity.
    + exact Hrest.
    + cbn [files]. apply lookup_insert_eq.
Qed.

(** the Writer on Results it accepts *)
Lemma write_results_to_csv_writable (results : list dict) (filename : string) (w : world) :
  results <> [] ->
  Forall writable results ->
  write_results_to_csv repr_float results filename w
  = (Ok tt,
     World (stdout w ++ [ResultsWritten filename])
           (<[filename := header :: map (result_row repr_float) results]> (files w))).
Proof.
  intros Hne Hall. destruct results as [|r rest]; [congruence|].
  unfold write_results_to_csv, bind, open_write.
  unfold append_row at 1. cbn [files stdout]. rewrite lookup_insert_eq. cbn [default app].
  rewrite (writerows_writable filename (r :: rest) [header]).
  - cbn [stdout files]. rewrite !insert_insert_eq. reflexivity.
  - exact Hall.
  - cbn [files]. apply lookup_insert_eq.
Qed.


End WriterProperties.

Lemma student_result_writable (name : pyval) (m s e : Z) (f : spec_float) :
  writable (student_result name m s e f).
Proof.
  unfold writable, student_result, student_results_literal.
  rewrite !dom_insert_L, dom_empty_L. cbn [list_to_set header]. set_solver.
Qed.


(** ** The Reader *)

(** [int] does not strip the separators 28 to 31, although [str.strip]
    does; it strips the no-break space. *)
Lemma int_literal_separators :
  int_literal (String "028" "95") = None /\
  int_literal (String "031" "95") = None /\
  int_literal ("95" +:+ String "029" "") = None /\
  int_literal (String "160" "95") = Some 95 /\
  int_literal (String "009" " 95" +:+ String "013" (String "133" "")) = Some 95.
Proof. repeat split; reflexivity. Qed.

Lemma student_of_row_student (row : list string) (name : string) (m s e : Z) :
  row_student row name m s e ->
  student_of_row row = Ok (student_literal (VStr name) (VInt m) (VInt s) (VInt e)) /\
  short_row row = false.
Proof.
  intros (tm & ts & te & extra & -> & Hm & Hs & He).
  unfold student_of_row, list_get, py_int. cbn [nth_error res_bind].
  rewrite Hm, Hs, He. split; reflexivity.
Qed.

Lemma student_literal_record (name : pyval) (m s e : Z) :
  int_record (student_literal name (VInt m) (VInt s) (VInt e)) name m s e.
Proof. repeat split; reflexivity. Qed.

(** a row of four fields or more is a Record or has a score that is no
    integer literal, and then building the Record raises [ValueError] *)
Lemma student_of_row_long (row : list string) :
  short_row row = false ->
  (exists name m s e, row_student row name m s e) \/
  (invalid_score_row row /\ exists text, student_of_row row = Raise (ValueError text)).
Proof.
  intros Hlong. unfold short_row in Hlong. apply Nat.ltb_ge in Hlong.
  destruct row as [|name [|tm [|ts [|te extra]]]]; cbn [length] in Hlong; try lia.
  destruct (int_literal tm) as [m|] eqn:Hm.
  - destruct (int_literal ts) as [s|] eqn:Hs.
    + destruct (int_literal te) as [e|] eqn:He.
      * left. exists name, m, s, e, tm, ts, te, extra. repeat split; assumption.
      * right. split.
        -- split; [cbn [length]; lia|]. exists 3%nat, te. repeat split; try lia; assumption.
        -- exists te. unfold student_of_row, list_get, py_int. cbn [nth_error res_bind].
           rewrite Hm, Hs, He. reflexivity.
    + right. split.
      * split; [cbn [length]; lia|]. exists 2%nat, ts. repeat split; try lia; assumption.
      * exists ts. unfold student_of_row, list_get, py_int. cbn [nth_error res_bind].
        rewrite Hm, Hs. reflexivity.
  - right. split.
    + split; [cbn [length]; lia|]. exists 1%nat, tm. repeat split; try lia; assumption.
    + exists tm. unfold student_of_row, list_get, py_int. cbn [nth_error res_bind].
      rewrite Hm. reflexivity.
Qed.

(** a row of four fields or more is a Record, or the first of its math,
    science and english fields that is no integer literal makes the
    building of the Record raise [ValueError] *)
Lemma student_of_row_first_invalid (row : list string) :
  short_row row = false ->
  (exists name m s e, row_student row name m s e) \/
  (invalid_score_row row /\
   exists (i : nat) (text : string),
     ((1 <= i <= 3)%nat /\ nth_error row i = Some text /\ int_literal text = None /\
      forall j t, (1 <= j < i)%nat -> nth_error row j = Some t -> int_literal t <> None) /\
     student_of_row row = Raise (ValueError text)).
Proof.
  intros Hlong. unfold short_row in Hlong. apply Nat.ltb_ge in Hlong.
  destruct row as [|name [|tm [|ts [|te extra]]]]; cbn [length] in Hlong; try lia.
  destruct (int_literal tm) as [m|] eqn:Hm.
  - destruct (int_literal ts) as [s|] eqn:Hs.
    + destruct (int_literal te) as [e|] eqn:He.
      * left. exists name, m, s, e, tm, ts, te, extra. repeat split; assumption.
      * right. split.
        -- split; [cbn [length]; lia|]. exists 3%nat, te. repeat split; try lia; assumption.
        -- exists 3%nat, te. split.
           ++ split; [lia|]. split; [reflexivity|]. split; [exact He|].
              intros j t Hj Hnth. destruct j as [|[|[|j]]]; try lia;
                cbn [nth_error] in Hnth; injection Hnth as <-; congruence.
           ++ unfold student_of_row, list_get, py_int. cbn [nth_error res_bind].
              rewrite Hm, Hs, He. reflexivity.
    + right. split.
      * split; [cbn [length]; lia|]. exists 2%nat, ts. repeat split; try lia; assumption.
      * exists 2%nat, ts. split.
        -- split; [lia|]. split; [reflexivity|]. split; [exact Hs|].
           intros j t Hj Hnth. destruct j as [|[|j]]; try lia;
             cbn [nth_error] in Hnth; injection Hnth as <-; congruence.
        -- unfold student_of_row, list_get, py_int. cbn [nth_error res_bind].
           rewrite Hm, Hs. reflexivity.
  - right. split.
    + split; [cbn [length]; lia|]. exists 1%nat, tm. repeat split; try lia; assumption.
    + exists 1%nat, tm. split.
      * split; [lia|]. split; [reflexivity|]. split; [exact Hm|].
        intros j t Hj. lia.
      * unfold student_of_row, list_get, py_int. cbn [nth_error res_bind].
        rewrite Hm. reflexivity.
Qed.

Lemma invalid_score_row_not_student (row : list string) (name : string) (m s e : Z) :
  invalid_score_row row -> row_student row name m s e -> False.
Proof.
  intros (_ & i & text & Hi & Hnth & Hbad) (tm & ts & te & extra & -> & Hm & Hs & He).
  destruct i as [|[|[|[|i]]]]; try lia; cbn [nth_error] in Hnth;
    injection Hnth as <-; congruence.
Qed.

Lemma read_rows_short (row : list string) (rest : list (list string))
    (data : list dict) (w : world) :
  short_row row = true ->
  read_rows (row :: rest) data w
  = read_rows rest data (World (stdout w ++ [IncompleteData row]) (files w)).
Proof.
  intros Hshort. cbn [read_rows]. unfold short_row in Hshort. rewrite Hshort.
  reflexivity.
Qed.

Lemma read_rows_student (row : list string) (rest : list (list string))
    (data : list dict) (w : world) (name : string) (m s e : Z) :
  row_student row name m s e ->
  read_rows (row :: rest) data w
  = read_rows rest (data ++ [student_literal (VStr name) (VInt m) (VInt s) (VInt e)]) w.
Proof.
  intros Hrow. destruct (student_of_row_student row name m s e Hrow) as [Hok Hlong].
  cbn [read_rows]. unfold short_row in Hlong. rewrite Hlong.
  unfold bind at 1. unfold try_except, bind, lift, ret. rewrite Hok. reflexivity.
Qed.

Lemma read_rows_invalid (row : list string) (rest : list (list string))
    (data : list dict) (w : world) (text : string) :
  short_row row = false ->
  student_of_row row = Raise (ValueError text) ->
  read_rows (row :: rest) data w
  = (Raise (SystemExit 1),
     World (stdout w ++ [InvalidData row (ValueError text); OnlyIntegers]) (files w)).
Proof.
  intros Hlong Hbad. cbn [read_rows]. unfold short_row in Hlong. rewrite Hlong.
  unfold bind at 1. unfold try_except, bind, lift, ret, print, sys_exit, raise.
  rewrite Hbad. cbn [stdout files]. rewrite <- app_assoc. reflexivity.
Qed.

(** the rows read without a fatal one: the short ones are reported, the
    others become the Records, in order *)
Lemma read_rows_valid (rows : list (list string)) :
  forall (data : list dict) (w : world),
    Forall (fun row => short_row row = true \/ valid_row row) rows ->
    exists students,
      read_rows rows data w
      = (Ok (data ++ students)%list,
         World (stdout w ++ map IncompleteData (List.filter short_row rows)) (files w)) /\
      Forall valid_student students /\
      Forall2 (fun row student =>
                 exists name m s e,
                   row_student row name m s e /\ in_float_range m s e /\
                   student = student_literal (VStr name) (VInt m) (VInt s) (VInt e))
              (List.filter long_row rows) students.
Proof.
  induction rows as [|row rest IH]; intros data w Hall.
  - exists []. cbn. rewrite !app_nil_r. destruct w. repeat split; constructor.
  - inversion Hall as [|? ? Hrow Hrest]; subst.
    destruct Hrow as [Hshort | (name & m & s & e & Hrow & Hrange)].
    + rewrite (read_rows_short row rest data w Hshort).
      destruct (IH data (World (stdout w ++ [IncompleteData row]) (files w)) Hrest)
        as (students & Hrun & Hvalid & Hrel).
      exists students. cbn [List.filter]. unfold long_row. rewrite Hshort. cbn [negb map].
      split; [|split; assumption].
      rewrite Hrun. cbn [stdout files]. rewrite <- app_assoc. reflexivity.
    + rewrite (read_rows_student row rest data w name m s e Hrow).
      destruct (student_of_row_student row name m s e Hrow) as [_ Hlong].
      destruct (IH (data ++ [student_literal (VStr name) (VInt m) (VInt s) (VInt e)])%list
                  w Hrest) as (students & Hrun & Hvalid & Hrel).
      exists (student_literal (VStr name) (VInt m) (VInt s) (VInt e) :: students).
      cbn [List.filter]. unfold long_row. rewrite Hlong. cbn [negb].
      split; [rewrite Hrun, <- app_assoc; reflexivity|]. split.
      * constructor; [|exact Hvalid]. exists (VStr name), m, s, e.
        split; [apply student_literal_record | exact Hrange].
      * constructor; [|exact Hrel]. exists name, m, s, e. repeat split; assumption.
Qed.

(** the first row with a score that is no integer ends the reading: the
    rows before it are short or Records, the rows after it are not read *)
Lemma read_rows_fatal (rows : list (list string)) :
  forall (data : list dict) (w : world),
    Exists invalid_score_row rows ->
    exists (before : list (list string)) (row : list string)
           (after : list (list string)) (i : nat) (text : string),
      rows = (before ++ row :: after)%list /\
      Forall (fun r => ~ invalid_score_row r) before /\
      invalid_score_row row /\
      ((1 <= i <= 3)%nat /\ nth_error row i = Some text /\ int_literal text = None /\
       forall j t, (1 <= j < i)%nat -> nth_error row j = Some t -> int_literal t <> None) /\
      read_rows rows data w
      = (Raise (SystemExit 1),
         World (stdout w ++ map IncompleteData (List.filter short_row before)
                         ++ [InvalidData row (ValueError text); OnlyIntegers])
               (files w)).
Proof.
  induction rows as [|row rest IH]; intros data w Hex; [inversion Hex|].
  destruct (short_row row) eqn:Hshort.
  - (* a short row is skipped: the fatal row comes later *)
    assert (Hgood : ~ invalid_score_row row).
    { intros [Hlen _]. unfold short_row in Hshort. apply Nat.ltb_lt in Hshort. lia. }
    assert (Hrest : Exists invalid_score_row rest).
    { inversion Hex as [? ? Hbad | ? ? Hlater]; subst; [|exact Hlater].
      exfalso. exact (Hgood Hbad). }
    rewrite (read_rows_short row rest data w Hshort).
    destruct (IH data (World (stdout w ++ [IncompleteData row]) (files w)) Hrest)
      as (before & bad & after & i & text & -> & Hbefore & Hbad & Hfield & Hrun).
    exists (row :: before), bad, after, i, text.
    split; [reflexivity|]. split; [constructor; assumption|].
    split; [exact Hbad|]. split; [exact Hfield|].
    rewrite Hrun. cbn [List.filter]. rewrite Hshort. cbn [stdout files map].
    rewrite <- app_assoc. reflexivity.
  - destruct (student_of_row_first_invalid row Hshort)
      as [(name & m & s & e & Hrow) | (Hbad & i & text & Hfield & Hraise)].
    + assert (Hgood : ~ invalid_score_row row).
      { intros Hbad. exact (invalid_score_row_not_student row name m s e Hbad Hrow). }
      assert (Hrest : Exists invalid_score_row rest).
      { inversion Hex as [? ? Hbad | ? ? Hlater]; subst; [|exact Hlater].
        exfalso. exact (Hgood Hbad). }
      rewrite (read_rows_student row rest data w name m s e Hrow).
      destruct (IH (data ++ [student_literal (VStr name) (VInt m) (VInt s) (VInt e)])%list
                  w Hrest)
        as (before & bad & after & i & text & -> & Hbefore & Hbad & Hfield & Hrun).
      exists (row :: before), bad, after, i, text.
      split; [reflexivity|]. split; [constructor; assumption|].
      split; [exact Hbad|]. split; [exact Hfield|].
      rewrite Hrun. cbn [List.filter]. rewrite Hshort. reflexivity.
    + exists [], row, rest, i, text.
      split; [reflexivity|]. split; [constructor|].
      split; [exact Hbad|]. split; [exact Hfield|].
      rewrite (read_rows_invalid row rest data w text Hshort Hraise). reflexivity.
Qed.

(** ** The run *)

Lemma read_student_data_ok (filename : string) (w w' : world)
    (header_row : list string) (rows : list (list string)) (students : list dict) :
  files w !! filename = Some (header_row :: rows) ->
  read_rows rows [] w = (Ok students, w') ->
  read_student_data filename w = (Ok students, w').
Proof.
  intros Hfile Hrows. unfold read_student_data, try_except, bind, open_read.
  rewrite Hfile. cbn [next_row ret]. rewrite Hrows. reflexivity.
Qed.

Lemma read_student_data_exit (filename : string) (w w' : world)
    (header_row : list string) (rows : list (list string)) (status : Z) :
  files w !! filename = Some (header_row :: rows) ->
  read_rows rows [] w = (Raise (SystemExit status), w') ->
  read_student_data filename w = (Raise (SystemExit status), w').
Proof.
  intros Hfile Hrows. unfold read_student_data, try_except, bind, open_read.
  rewrite Hfile. cbn [next_row ret]. rewrite Hrows. reflexivity.
Qed.

(** C4, as stated, fails: a row whose math field is no integer literal but
    which has fewer than four fields is skipped like any short row; the run
    goes on, ends with status 0 and writes the output file. *)
Lemma short_row_with_invalid_score_is_skipped :
  int_literal "abc" = None /\
  exists w',
    main decimal_text world_with_short_row = (Ok tt, w') /\
    exit_status (fst (main decimal_text world_with_short_row)) = 0 /\
    stdout w' = [IncompleteData ["Bob"; "abc"; "88"];
                 ResultsWritten "student_results.csv"; Goodbye] /\
    files w' !! "student_results.csv"
    = Some [["name"; "math"; "science"; "english"; "average"; "grade";
             "min_score"; "max_score"; "score_range"; "pass_fail"];
            ["Alice"; "95"; "88"; "92";
             "91.6666666666666714036182384006679058074951171875"; "A";
             "88"; "95"; "7"; "Congratulations, you passed!"]].
Proof.
  split; [reflexivity|]. eexists. split; [vm_compute; reflexivity|].
  split; [vm_compute; reflexivity|]. split; vm_compute; reflexivity.
Qed.

(** C4, amended.  For every input file with a header and, among its data
    rows, some row of at least four fields whose math, science or english
    field is not an integer literal, the run ends at the first such row,
    with exit status 1: it prints the diagnostics of the short rows before
    that row and then the two lines that report the row, with the first
    of its math, science and english fields that is no integer literal;
    whatever rows follow, they are not read, and no file is written or
    changed.  (The cells are taken to be shorter than 4300 characters:
    [int] refuses longer digit strings, which [int_literal] reads.) *)
Theorem invalid_score_is_fatal
    (repr_float : spec_float -> string) (w : world)
    (header_row : list string) (rows : list (list string)) :
  files w !! "students.csv" = Some (header_row :: rows) ->
  short_cells rows ->
  Exists invalid_score_row rows ->
  exists (before : list (list string)) (row : list string)
         (after : list (list string)) (i : nat) (text : string),
    rows = (before ++ row :: after)%list /\
    Forall (fun r => ~ invalid_score_row r) before /\
    invalid_score_row row /\
    ((1 <= i <= 3)%nat /\ nth_error row i = Some text /\ int_literal text = None /\
     forall j t, (1 <= j < i)%nat -> nth_error row j = Some t -> int_literal t <> None) /\
    main repr_float w
    = (Raise (SystemExit 1),
       World (stdout w ++ map IncompleteData (List.filter short_row before)
                       ++ [InvalidData row (ValueError text); OnlyIntegers])
             (files w)) /\
    exit_status (fst (main repr_float w)) = 1.
Proof.
  intros Hfile _ Hex.
  destruct (read_rows_fatal rows [] w Hex)
    as (before & row & after & i & text & Hrows & Hbefore & Hbad & Hfield & Hrun).
  exists before, row, after, i, text.
  split; [exact Hrows|]. split; [exact Hbefore|]. split; [exact Hbad|].
  split; [exact Hfield|].
  assert (Hmain : main repr_float w
                  = (Raise (SystemExit 1),
                     World (stdout w ++ map IncompleteData (List.filter short_row before)
                                     ++ [InvalidData row (ValueError text); OnlyIntegers])
                           (files w))).
  { unfold main, bind at 1.
    rewrite (read_student_data_exit "students.csv" w _ header_row rows 1 Hfile Hrun).
    reflexivity. }
  rewrite Hmain. split; reflexivity.
Qed.

Lemma invalid_score_is_fatal_witness :
  exists (before : list (list string)) (row : list string)
         (after : list (list string)) (i : nat) (text : string),
    [["Alice"; "95"; "88"; "92"]; ["Bob"; "abc"; "88"; "92"]]
    = (before ++ row :: after)%list /\
    Forall (fun r => ~ invalid_score_row r) before /\
    invalid_score_row row /\
    ((1 <= i <= 3)%nat /\ nth_error row i = Some text /\ int_literal text = None /\
     forall j t, (1 <= j < i)%nat -> nth_error row j = Some t -> int_literal t <> None) /\
    main decimal_text world_with_invalid_score
    = (Raise (SystemExit 1),
       World (stdout world_with_invalid_score
                ++ map IncompleteData (List.filter short_row before)
                ++ [InvalidData row (ValueError text); OnlyIntegers])
             (files world_with_invalid_score)) /\
    exit_status (fst (main decimal_text world_with_invalid_score)) = 1.
Proof.
  apply (invalid_score_is_fatal decimal_text world_with_invalid_score
           ["name"; "math"; "science"; "english"]).
  - reflexivity.
  - reflexivity.
  - apply Exists_cons_tl, Exists_cons_hd. split; [cbn; lia|].
    exists 1%nat, "abc". repeat split; try lia; reflexivity.
Defined.

(** the Result of the Record read from a valid row *)
Lemma result_for_row (row : list string) (student r : dict) :
  (exists name m s e,
     row_student row name m s e /\ in_float_range m s e /\
     student = student_literal (VStr name) (VInt m) (VInt s) (VInt e)) ->
  result_for student r ->
  exists name m s e f,
    row_student row name m s e /\
    int_truediv (m + s + e) 3 = Ok f /\
    r = student_result (VStr name) m s e f.
Proof.
  intros (name & m & s & e & Hrow & _ & ->)
         (name' & m' & s' & e' & f & (Hn & Hm & Hs & He) & Hf & ->).
  destruct (student_literal_record (VStr name) m s e) as (Ln & Lm & Ls & Le).
  rewrite Ln in Hn. rewrite Lm in Hm. rewrite Ls in Hs. rewrite Le in He.
  injection Hn as <-. injection Hm as <-. injection Hs as <-. injection He as <-.
  exists name, m, s, e, f. split; [exact Hrow | split; [exact Hf | reflexivity]].
Qed.

Lemma Forall2_compose {A B C : Type} (P : A -> B -> Prop) (Q : B -> C -> Prop)
    (R : A -> C -> Prop) (xs : list A) (ys : list B) (zs : list C) :
  (forall x y z, P x y -> Q y z -> R x z) ->
  Forall2 P xs ys -> Forall2 Q ys zs -> Forall2 R xs zs.
Proof.
  intros HPQ Hxy. revert zs.
  induction Hxy as [|x y xs ys Hp _ IH]; intros zs Hyz; inversion Hyz; subst;
    constructor; eauto.
Qed.

Lemma result_for_writable (student r : dict) : result_for student r -> writable r.
Proof.
  intros (name & m & s & e & f & _ & _ & ->). apply student_result_writable.
Qed.

(** C7, as stated, fails on a file with a fatal row: the valid row before
    it is parsed but neither processed nor written, and the short row
    after it is never reached, so that it gets no diagnostic. *)
Lemma rows_around_a_fatal_row_are_lost :
  valid_row ["Alice"; "95"; "88"; "92"] /\
  short_row ["Bob"; "70"; "80"] = true /\
  main decimal_text world_with_fatal_row
  = (Raise (SystemExit 1),
     World [InvalidData ["Carl"; "seventy"; "81"; "90"] (ValueError "seventy");
            OnlyIntegers]
           (files world_with_fatal_row)) /\
  files world_with_fatal_row !! "student_results.csv" = None.
Proof.
  split; [|split; [reflexivity | split; [vm_compute; reflexivity | reflexivity]]].
  exists "Alice", 95, 88, 92. split.
  - exists "95", "88", "92", []. repeat split; reflexivity.
  - vm_compute. reflexivity.
Qed.

(** C7, amended.  For every input file with a header whose data rows are
    each either shorter than four fields or valid, every short row is
    skipped with its diagnostic and every other row is parsed, processed
    and written: the run ends normally (status 0), prints one diagnostic
    per short row, in order, and, when some row is valid, writes the header
    and one row per valid row, in order, to the output file.  (A valid row
    has a name and three integer scores whose average exists; with no valid
    row at all nothing is written.  The cells are taken to be shorter than
    4300 characters, the limit of the conversions between integers and
    decimal text.) *)
Theorem short_rows_are_skipped
    (repr_float : spec_float -> string) (w : world)
    (header_row : list string) (rows : list (list string)) :
  files w !! "students.csv" = Some (header_row :: rows) ->
  short_cells rows ->
  Forall (fun row => short_row row = true \/ valid_row row) rows ->
  exists results : list dict,
    Forall2 (fun row r =>
               exists name m s e f,
                 row_student row name m s e /\
                 int_truediv (m + s + e) 3 = Ok f /\
                 r = student_result (VStr name) m s e f)
            (List.filter long_row rows) results /\
    main repr_float w
    = (Ok tt,
       World (stdout w ++ map IncompleteData (List.filter short_row rows)
                       ++ match results with
                          | [] => []
                          | _ :: _ => [ResultsWritten "student_results.csv"]
                          end
                       ++ [Goodbye])
             match results with
             | [] => files w
             | _ :: _ =>
                 <["student_results.csv" :=
                     header :: map (result_row repr_float) results]> (files w)
             end) /\
    exit_status (fst (main repr_float w)) = 0.
Proof.
  intros Hfile _ Hall.
  destruct (read_rows_valid rows [] w Hall) as (students & Hread & Hvalid & Hrows).
  cbn [app] in Hread.
  set (w1 := World (stdout w ++ map IncompleteData (List.filter short_row rows)) (files w))
    in *.
  destruct (process_loop_valid students [] w1 Hvalid) as (results & Hproc & Hres).
  cbn [app] in Hproc.
  exists results.
  split; [exact (Forall2_compose _ _ _ _ _ _ result_for_row Hrows Hres)|].
  assert (Hmain : main repr_float w
    = (Ok tt,
       World (stdout w ++ map IncompleteData (List.filter short_row rows)
                       ++ match results with
                          | [] => []
                          | _ :: _ => [ResultsWritten "student_results.csv"]
                          end
                       ++ [Goodbye])
             match results with
             | [] => files w
             | _ :: _ =>
                 <["student_results.csv" :=
                     header :: map (result_row repr_float) results]> (files w)
             end)).
  { unfold main, bind at 1.
    rewrite (read_student_data_ok "students.csv" w w1 header_row rows students Hfile Hread).
    destruct students as [|student students'].
    - inversion Hres; subst. unfold bind, ret, print. subst w1. cbn [stdout files app].
      rewrite <- app_assoc. reflexivity.
    - destruct results as [|r results']; [inversion Hres|].
      unfold bind at 1. unfold bind at 1.
      change (process_student_results (student :: students') w1)
        with (process_loop (student :: students') [] w1).
      rewrite Hproc.
      assert (Hwritable : Forall writable (r :: results')).
      { clear -Hres. induction Hres; constructor; eauto using result_for_writable. }
      rewrite (write_results_to_csv_writable repr_float (r :: results')
                 "student_results.csv" w1 ltac:(discriminate) Hwritable).
      unfold print. subst w1. cbn [stdout files].
      rewrite <- !app_assoc. reflexivity. }
  rewrite Hmain. split; reflexivity.
Qed.

Lemma short_rows_are_skipped_witness :
  exists results : list dict,
    Forall2 (fun row r =>
               exists name m s e f,
                 row_student row name m s e /\
                 int_truediv (m + s + e) 3 = Ok f /\
                 r = student_result (VStr name) m s e f)
            (List.filter long_row [["Bob"; "abc"; "88"]; ["Alice"; "95"; "88"; "92"]])
            results /\
    main decimal_text world_with_short_row
    = (Ok tt,
       World (stdout world_with_short_row
                ++ map IncompleteData
                     (List.filter short_row
                        [["Bob"; "abc"; "88"]; ["Alice"; "95"; "88"; "92"]])
                ++ match results with
                   | [] => []
                   | _ :: _ => [ResultsWritten "student_results.csv"]
                   end
                ++ [Goodbye])
             match results with
             | [] => files world_with_short_row
             | _ :: _ =>
                 <["student_results.csv" :=
                     header :: map (result_row decimal_text) results]>
                   (files world_with_short_row)
             end) /\
    exit_status (fst (main decimal_text world_with_short_row)) = 0.
Proof.
  apply (short_rows_are_skipped decimal_text world_with_short_row
           ["name"; "math"; "science"; "english"]).
  - reflexivity.
  - reflexivity.
  - constructor; [left; reflexivity|]. constructor; [|constructor].
    right. exists "Alice", 95, 88, 92. split.
    + exists "95", "88", "92", []. repeat split; reflexivity.
    + vm_compute. reflexivity.
Defined.

(** ** Further properties of the run *)

(** The letter grade of a Record is decided by the sum of its scores: the
    rounding of the average never moves it across a threshold, so the grade
    is the one the exact mean has in the table. *)
Theorem grade_of_the_exact_mean
    (student : dict) (name : pyval) (m s e : Z) (w : world) :
  int_record student name m s e ->
  in_float_range m s e ->
  exists r : dict,
    process_student_results [student] w = (Ok [r], w) /\
    r !! "grade"
    = Some (VStr (if 270 <=? m + s + e then "A" else if 240 <=? m + s + e then "B"
                  else if 210 <=? m + s + e then "C" else if 180 <=? m + s + e then "D"
                  else if 150 <=? m + s + e then "E" else "F")).
Proof.
  intros Hrec Hrange.
  destruct (process_single_valid student name m s e w Hrec Hrange) as (f & Hf & Hrun).
  exists (student_result name m s e f). split; [exact Hrun|].
  destruct (float_grade_of_sum (m + s + e) f Hf) as [Hgrade _].
  rewrite <- Hgrade. reflexivity.
Qed.

Lemma grade_of_the_exact_mean_witness :
  exists r : dict,
    process_student_results [alice] empty_world = (Ok [r], empty_world) /\
    r !! "grade"
    = Some (VStr (if 270 <=? 95 + 88 + 92 then "A" else if 240 <=? 95 + 88 + 92 then "B"
                  else if 210 <=? 95 + 88 + 92 then "C" else if 180 <=? 95 + 88 + 92 then "D"
                  else if 150 <=? 95 + 88 + 92 then "E" else "F")).
Proof.
  apply (grade_of_the_exact_mean alice (VStr "Alice") 95 88 92 empty_world).
  - repeat split; reflexivity.
  - vm_compute. reflexivity.
Defined.

(** A missing input file is fatal: the run reports it, says goodbye and
    ends with status 1 without writing anything. *)
Theorem missing_input_file_is_fatal (repr_float : spec_float -> string) (w : world) :
  files w !! "students.csv" = None ->
  main repr_float w
  = (Raise (SystemExit 1),
     World (stdout w ++ [FileNotFound "students.csv"; Goodbye]) (files w)) /\
  exit_status (fst (main repr_float w)) = 1.
Proof.
  intros Hfile.
  assert (Hmain : main repr_float w
                  = (Raise (SystemExit 1),
                     World (stdout w ++ [FileNotFound "students.csv"; Goodbye]) (files w))).
  { unfold main, bind at 1. unfold read_student_data, try_except, bind at 1, open_read.
    rewrite Hfile. unfold bind, print, sys_exit, raise. cbn [stdout files].
    rewrite <- app_assoc. reflexivity. }
  rewrite Hmain. split; reflexivity.
Qed.

Lemma missing_input_file_is_fatal_witness :
  main decimal_text empty_world
  = (Raise (SystemExit 1),
     World (stdout empty_world ++ [FileNotFound "students.csv"; Goodbye])
           (files empty_world)) /\
  exit_status (fst (main decimal_text empty_world)) = 1.
Proof.
  apply (missing_input_file_is_fatal decimal_text empty_world). reflexivity.
Defined.

(** An input file without even a header row is fatal too: reading the
    header raises [StopIteration], which the Reader reports as an
    unexpected error before it ends the run with status 1. *)
Theorem empty_input_file_is_fatal (repr_float : spec_float -> string) (w : world) :
  files w !! "students.csv" = Some [] ->
  main repr_float w
  = (Raise (SystemExit 1),
     World (stdout w ++ [UnexpectedError StopIteration; Goodbye]) (files w)) /\
  exit_status (fst (main repr_float w)) = 1.
Proof.
  intros Hfile.
  assert (Hmain : main repr_float w
                  = (Raise (SystemExit 1),
                     World (stdout w ++ [UnexpectedError StopIteration; Goodbye])
                           (files w))).
  { unfold main, bind at 1. unfold read_student_data, try_except, bind at 1, open_read.
    rewrite Hfile. unfold bind, next_row, raise, print, sys_exit, raise.
    cbn [stdout files is_Exception]. rewrite <- app_assoc. reflexivity. }
  rewrite Hmain. split; reflexivity.
Qed.

Lemma empty_input_file_is_fatal_witness :
  main decimal_text (World [] (<["students.csv" := []]> ∅))
  = (Raise (SystemExit 1),
     World (stdout (World [] (<["students.csv" := []]> ∅))
              ++ [UnexpectedError StopIteration; Goodbye])
           (files (World [] (<["students.csv" := []]> ∅)))) /\
  exit_status (fst (main decimal_text (World [] (<["students.csv" := []]> ∅)))) = 1.
Proof.
  apply (empty_input_file_is_fatal decimal_text (World [] (<["students.csv" := []]> ∅))).
  reflexivity.
Defined.

(** When every data row is short the Writer is not even called: the run
    prints the diagnostics of the rows and "Goodbye!", never "No results to
    write.", creates no file and ends with status 0. *)
Theorem only_short_rows_write_nothing
    (repr_float : spec_float -> string) (w : world)
    (header_row : list string) (rows : list (list string)) :
  files w !! "students.csv" = Some (header_row :: rows) ->
  Forall (fun row => short_row row = true) rows ->
  main repr_float w
  = (Ok tt, World (stdout w ++ map IncompleteData rows ++ [Goodbye]) (files w)).
Proof.
  intros Hfile Hall.
  assert (Hread : forall data w0,
             read_rows rows data w0
             = (Ok data, World (stdout w0 ++ map IncompleteData rows) (files w0))).
  { clear Hfile. induction rows as [|row rest IH]; intros data w0.
    - cbn. rewrite app_nil_r. destruct w0; reflexivity.
    - inversion Hall as [|? ? Hshort Hrest]; subst.
      rewrite (read_rows_short row rest data w0 Hshort), (IH Hrest).
      cbn [stdout files map]. rewrite <- app_assoc. reflexivity. }
  unfold main, bind at 1.
  rewrite (read_student_data_ok "students.csv" w _ header_row rows [] Hfile (Hread [] w)).
  unfold bind, ret, print. cbn [stdout files]. rewrite <- app_assoc. reflexivity.
Qed.

Lemma only_short_rows_write_nothing_witness :
  main decimal_text
    (World [] (<["students.csv" := [["name"; "math"]; ["Bob"; "70"]; []]]> ∅))
  = (Ok tt,
     World (stdout (World [] (<["students.csv" := [["name"; "math"]; ["Bob"; "70"]; []]]> ∅))
              ++ map IncompleteData [["Bob"; "70"]; []] ++ [Goodbye])
           (files (World [] (<["students.csv" := [["name"; "math"]; ["Bob"; "70"]; []]]> ∅)))).
Proof.
  apply (only_short_rows_write_nothing decimal_text
           (World [] (<["students.csv" := [["name"; "math"]; ["Bob"; "70"]; []]]> ∅))
           ["name"; "math"]).
  - reflexivity.
  - repeat constructor.
Defined.

(** ** The Processor on arbitrary records *)

Lemma float_of_int_no_KeyError (n : Z) (e : exn) (key : string) :
  float_of_int n = Raise e -> e <> KeyError key.
Proof.
  unfold float_of_int. destruct (binary_normalize prec emax n 0 false); congruence.
Qed.

Lemma py_add_no_KeyError (a b : pyval) (key : string) :
  py_add a b <> Raise (KeyError key).
Proof.
  destruct a as [x | x | x], b as [y | y | y]; cbn [py_add]; try discriminate.
  - destruct (float_of_int x) as [x' | e] eqn:H; cbn [res_bind]; [discriminate|].
    intros [= ->]. exact (float_of_int_no_KeyError _ _ key H eq_refl).
  - destruct (float_of_int y) as [y' | e] eqn:H; cbn [res_bind]; [discriminate|].
    intros [= ->]. exact (float_of_int_no_KeyError _ _ key H eq_refl).
Qed.

Lemma int_truediv_no_KeyError (a b : Z) (key : string) :
  int_truediv a b <> Raise (KeyError key).
Proof.
  unfold int_truediv. destruct (b =? 0); [discriminate|].
  destruct (a =? 0); [discriminate|].
  destruct (SFdiv_core_binary prec emax (Z.abs a) 0 (Z.abs b) 0) as [[q e] l].
  destruct (binary_round_aux prec emax (xorb (a <? 0) (b <? 0)) q e l); discriminate.
Qed.

Lemma py_truediv_no_KeyError (a b : pyval) (key : string) :
  py_truediv a b <> Raise (KeyError key).
Proof.
  destruct a as [x | x | x], b as [y | y | y]; cbn [py_truediv]; try discriminate.
  - pose proof (int_truediv_no_KeyError x y key).
    destruct (int_truediv x y); cbn [res_bind]; congruence.
  - destruct (float_of_int x) as [x' | e] eqn:H; cbn [res_bind].
    + unfold float_truediv. destruct (float_is_zero y); discriminate.
    + intros [= ->]. exact (float_of_int_no_KeyError _ _ key H eq_refl).
  - destruct (float_of_int y) as [y' | e] eqn:H; cbn [res_bind].
    + unfold float_truediv. destruct (float_is_zero y'); discriminate.
    + intros [= ->]. exact (float_of_int_no_KeyError _ _ key H eq_refl).
  - unfold float_truediv. destruct (float_is_zero y); discriminate.
Qed.

(** the average of a record that holds its three scores, whatever they are:
    the handler of [KeyError] is not entered *)
Lemma calculate_average_present (student : dict) (vm vs ve : pyval) (w : world) :
  student !! "math" = Some vm ->
  student !! "science" = Some vs ->
  student !! "english" = Some ve ->
  calculate_average student w =
    (match (let? partial := py_add vm vs in
            let? total := py_add partial ve in
            py_truediv total (VInt 3)) with
     | Ok average => Ok (Some average)
     | Raise ex => Raise ex
     end, w).
Proof.
  intros Hm Hs He.
  unfold calculate_average, try_except, bind, lift, subscript, ret.
  rewrite Hm, Hs, He.
  pose proof (py_add_no_KeyError vm vs) as H1.
  destruct (py_add vm vs) as [partial | ex]; cbn [res_bind].
  - pose proof (py_add_no_KeyError partial ve) as H2.
    destruct (py_add partial ve) as [total | ex]; cbn [res_bind].
    + pose proof (py_truediv_no_KeyError total (VInt 3)) as H3.
      destruct (py_truediv total (VInt 3)) as [average | ex]; [reflexivity|].
      destruct ex; try reflexivity. exfalso. exact (H3 _ eq_refl).
    + destruct ex; try reflexivity. exfalso. exact (H2 _ eq_refl).
  - destruct ex; try reflexivity. exfalso. exact (H1 _ eq_refl).
Qed.

Lemma student_results_literal_complete (student : dict)
    (name math science english average grade lo hi range pass_fail : pyval) :
  student !! "name" = Some name ->
  student !! "math" = Some math ->
  student !! "science" = Some science ->
  student !! "english" = Some english ->
  complete_result student
    (student_results_literal name math science english average grade
                             lo hi range pass_fail).
Proof.
  intros Hn Hm Hs He. unfold complete_result.
  rewrite Hn, Hm, Hs, He. split; [|repeat split; reflexivity].
  unfold student_results_literal.
  rewrite !dom_insert_L, dom_empty_L. cbn [list_to_set header]. set_solver.
Qed.

(** one turn of the loop: a Result is appended or an exception leaves the
    loop, the same whatever the Results before; the world is as before *)
Lemma process_student_outcome (student : dict) (w : world) :
  exists out : res dict,
    (forall results,
       process_student student results w
       = (let? r := out in Ok (results ++ [r])%list, w)) /\
    (forall r, out = Ok r -> complete_result student r).
Proof.
  unfold process_student, bind, lift, subscript.
  destruct (student !! "math") as [vm|] eqn:Hm;
    [|exists (Raise (KeyError "math")); split; [reflexivity | discriminate]].
  destruct (student !! "science") as [vs|] eqn:Hs;
    [|exists (Raise (KeyError "science")); split; [reflexivity | discriminate]].
  destruct (student !! "english") as [ve|] eqn:He;
    [|exists (Raise (KeyError "english")); split; [reflexivity | discriminate]].
  rewrite (calculate_average_present student vm vs ve w Hm Hs He).
  destruct (let? partial := py_add vm vs in
            let? total := py_add partial ve in
            py_truediv total (VInt 3)) as [average | ex];
    [|exists (Raise ex); split; [reflexivity | discriminate]].
  destruct (assign_grade average) as [grade | ex];
    [|exists (Raise ex); split; [reflexivity | discriminate]].
  destruct (calculate_min_max_range [vm; vs; ve]) as [[[lo hi] range] | ex];
    [|exists (Raise ex); split; [reflexivity | discriminate]].
  destruct (py_ge average (VInt 50)) as [passed | ex];
    [|exists (Raise ex); split; [reflexivity | discriminate]].
  destruct (student !! "name") as [name|] eqn:Hn;
    [|exists (Raise (KeyError "name")); split; [reflexivity | discriminate]].
  eexists (Ok _). split; [reflexivity|].
  intros r [= <-]. apply student_results_literal_complete; assumption.
Qed.

Lemma process_loop_outcome (students : list dict) (w : world) :
  exists out : res (list dict),
    (forall results,
       process_loop students results w
       = (let? rs := out in Ok (results ++ rs)%list, w)) /\
    (forall rs, out = Ok rs -> Forall2 complete_result students rs).
Proof.
  induction students as [|student rest IH].
  - exists (Ok []). split.
    + intros results. cbn. rewrite app_nil_r. reflexivity.
    + intros rs [= <-]. constructor.
  - destruct (process_student_outcome student w) as (out1 & Hrun1 & Hc1).
    destruct IH as (out2 & Hrun2 & Hc2).
    exists (let? r := out1 in let? rs := out2 in Ok (r :: rs)). split.
    + intros results. cbn [process_loop]. unfold bind. rewrite Hrun1.
      destruct out1 as [r | ex]; cbn [res_bind]; [|reflexivity].
      rewrite Hrun2. destruct out2 as [rs | ex]; cbn [res_bind]; [|reflexivity].
      rewrite <- app_assoc. reflexivity.
    + intros rs Hrs. destruct out1 as [r | ex]; cbn [res_bind] in Hrs; [|discriminate].
      destruct out2 as [rs' | ex]; cbn [res_bind] in Hrs; [|discriminate].
      injection Hrs as <-. constructor; [apply Hc1 | apply Hc2]; reflexivity.
Qed.

Lemma process_loop_app (xs ys : list dict) :
  forall (results : list dict) (w : world),
    process_loop (xs ++ ys) results w
    = (let* results' := process_loop xs results in process_loop ys results') w.
Proof.
  induction xs as [|x xs IH]; intros results w; [reflexivity|].
  cbn [app process_loop]. unfold bind.
  destruct (process_student x results w) as [[results' | ex] w']; [|reflexivity].
  rewrite IH. reflexivity.
Qed.

(** Whatever integers, floats and strings the records hold, under whatever
    keys, [process_student_results] never drops a record: when it returns,
    it returns one Result per record, in order, each with exactly the ten
    fields of the header, the name and the scores being those of the
    record; and it neither prints nor touches a file, whether it returns
    or raises. *)
Theorem process_student_results_never_drops (students_data : list dict) (w : world) :
  exists out : res (list dict),
    process_student_results students_data w = (out, w) /\
    match out with
    | Ok results =>
        length results = length students_data /\
        Forall2 complete_result students_data results
    | Raise _ => True
    end.
Proof.
  unfold process_student_results.
  destruct (process_loop_outcome students_data w) as (out & Hrun & Hall).
  exists out. rewrite Hrun. split; [destruct out; reflexivity|].
  destruct out as [rs | ex]; [|exact I].
  specialize (Hall rs eq_refl).
  split; [symmetry; exact (Forall2_length _ _ _ Hall) | exact Hall].
Qed.

(** Records are processed one by one, independently of each other: the
    Results of a concatenation are the Results of its parts, one after the
    other, and an exception in the first part ends the run before the
    second is looked at. *)
Theorem process_student_results_app (xs ys : list dict) (w : world) :
  process_student_results (xs ++ ys) w
  = (let* first := process_student_results xs in
     let* second := process_student_results ys in
     ret (first ++ second)%list) w.
Proof.
  unfold process_student_results. rewrite process_loop_app. unfold bind, ret.
  destruct (process_loop_outcome xs w) as (out1 & Hrun1 & _).
  rewrite Hrun1. destruct out1 as [first | ex]; cbn [res_bind app]; [|reflexivity].
  destruct (process_loop_outcome ys w) as (out2 & Hrun2 & _).
  rewrite !Hrun2. destruct out2 as [second | ex]; reflexivity.
Qed.

(** ** The Reader on arbitrary files *)

(** the loop over the rows returns the Records of the long rows after the
    diagnostics of the short ones, or ends the run with status 1 *)
Lemma read_rows_outcome (rows : list (list string)) :
  forall (data : list dict) (w : world),
    (exists students,
       read_rows rows data w
       = (Ok (data ++ students)%list,
          World (stdout w ++ map IncompleteData (List.filter short_row rows)) (files w)) /\
       Forall2 record_of_row (List.filter long_row rows) students) \/
    (exists messages,
       read_rows rows data w
       = (Raise (SystemExit 1), World (stdout w ++ messages ++ [OnlyIntegers]) (files w)) /\
       Exists invalid_score_row rows).
Proof.
  induction rows as [|row rest IH]; intros data w.
  - left. exists []. cbn. rewrite !app_nil_r. destruct w. split; [reflexivity | constructor].
  - destruct (short_row row) eqn:Hshort.
    + rewrite (read_rows_short row rest data w Hshort).
      destruct (IH data (World (stdout w ++ [IncompleteData row]) (files w)))
        as [(students & Hrun & Hrel) | (messages & Hrun & Hbad)].
      * left. exists students. cbn [List.filter]. unfold long_row. rewrite Hshort.
        cbn [negb map]. split; [|exact Hrel].
        rewrite Hrun. cbn [stdout files]. rewrite <- app_assoc. reflexivity.
      * right. exists (IncompleteData row :: messages).
        split; [|apply Exists_cons_tl; exact Hbad].
        rewrite Hrun. cbn [stdout files]. rewrite <- app_assoc. reflexivity.
    + destruct (student_of_row_long row Hshort)
        as [(name & m & s & e & Hrow) | (Hbad & text & Hraise)].
      * rewrite (read_rows_student row rest data w name m s e Hrow).
        destruct (IH (data ++ [student_literal (VStr name) (VInt m) (VInt s) (VInt e)])%list w)
          as [(students & Hrun & Hrel) | (messages & Hrun & Hbad)].
        -- left.
           exists (student_literal (VStr name) (VInt m) (VInt s) (VInt e) :: students).
           cbn [List.filter]. unfold long_row. rewrite Hshort. cbn [negb].
           split; [rewrite Hrun, <- app_assoc; reflexivity|].
           constructor; [|exact Hrel]. exists name, m, s, e. split; [exact Hrow | reflexivity].
        -- right. exists messages. split; [exact Hrun | apply Exists_cons_tl; exact Hbad].
      * right. exists [InvalidData row (ValueError text)].
        split; [|apply Exists_cons_hd; exact Hbad].
        rewrite (read_rows_invalid row rest data w text Hshort Hraise). reflexivity.
Qed.

Lemma read_student_data_outcome (filename : string) (w : world) :
  (exists header_row rows students,
     files w !! filename = Some (header_row :: rows) /\
     read_student_data filename w
     = (Ok students,
        World (stdout w ++ map IncompleteData (List.filter short_row rows)) (files w)) /\
     Forall2 record_of_row (List.filter long_row rows) students) \/
  (exists messages last_message,
     read_student_data filename w
     = (Raise (SystemExit 1), World (stdout w ++ messages ++ [last_message]) (files w)) /\
     (last_message = Goodbye \/ last_message = OnlyIntegers)).
Proof.
  destruct (files w !! filename) as [[|header_row rows]|] eqn:Hfile.
  - right. exists [UnexpectedError StopIteration], Goodbye. split; [|left; reflexivity].
    unfold read_student_data, try_except, bind at 1, open_read.
    rewrite Hfile. unfold bind, next_row, raise, print, sys_exit, raise.
    cbn [stdout files is_Exception]. rewrite <- app_assoc. reflexivity.
  - destruct (read_rows_outcome rows [] w)
      as [(students & Hrun & Hrel) | (messages & Hrun & Hbad)].
    + left. exists header_row, rows, students. split; [reflexivity|].
      split; [|exact Hrel].
      exact (read_student_data_ok filename w _ header_row rows students Hfile Hrun).
    + right. exists messages, OnlyIntegers. split; [|right; reflexivity].
      exact (read_student_data_exit filename w _ header_row rows 1 Hfile Hrun).
  - right. exists [FileNotFound filename], Goodbye. split; [|left; reflexivity].
    unfold read_student_data, try_except, bind at 1, open_read.
    rewrite Hfile. unfold bind, print, sys_exit, raise. cbn [stdout files].
    rewrite <- app_assoc. reflexivity.
Qed.

(** Whatever the file system holds, [read_student_data] returns or ends
    the run with status 1: no other exception leaves it.  When it returns,
    the file has a header row, the Records are those of the rows of four
    fields or more, in order, each with a string for the name and an
    integer for each score, and one diagnostic was printed per shorter row.
    It never changes a file. *)
Theorem read_student_data_returns_records_or_exits (filename : string) (w : world) :
  exists (r : res (list dict)) (w' : world),
    read_student_data filename w = (r, w') /\
    files w' = files w /\
    (r = Raise (SystemExit 1) \/
     exists header_row rows students,
       r = Ok students /\
       files w !! filename = Some (header_row :: rows) /\
       Forall2 record_of_row (List.filter long_row rows) students /\
       stdout w' = (stdout w ++ map IncompleteData (List.filter short_row rows))%list).
Proof.
  destruct (read_student_data_outcome filename w)
    as [(header_row & rows & students & Hfile & Hrun & Hrel) | (messages & l & Hrun & _)].
  - eexists _, _. split; [exact Hrun|]. split; [reflexivity|].
    right. exists header_row, rows, students. repeat split; assumption.
  - eexists _, _. split; [exact Hrun|]. split; [reflexivity|]. left. reflexivity.
Qed.

(** ** The Processor on the Records of the Reader *)

Lemma record_of_row_int_record (row : list string) (student : dict) :
  record_of_row row student ->
  exists name m s e, row_student row name m s e /\ int_record student (VStr name) m s e.
Proof.
  intros (name & m & s & e & Hrow & ->). exists name, m, s, e.
  split; [exact Hrow | apply student_literal_record].
Qed.

(** the Results of the Records of the rows, or [OverflowError] at the first
    row whose average does not exist *)
Lemma process_loop_rows (rows : list (list string)) (students : list dict) :
  Forall2 record_of_row rows students ->
  forall (results : list dict) (w : world),
    (exists rs,
       process_loop students results w = (Ok (results ++ rs)%list, w) /\
       Forall2 result_for students rs /\
       Forall valid_row rows) \/
    (process_loop students results w = (Raise OverflowError, w) /\
     Exists overflowing_row rows).
Proof.
  induction 1 as [|row student rows students Hrow _ IH]; intros results w.
  - left. exists []. cbn. rewrite app_nil_r. repeat split; constructor.
  - destruct (record_of_row_int_record row student Hrow) as (name & m & s & e & Hr & Hrec).
    cbn [process_loop]. unfold bind.
    rewrite (process_student_int student (VStr name) m s e results w Hrec).
    destruct (Z.lt_ge_cases (Z.abs (m + s + e)) overflow_bound) as [Hlt | Hge].
    + destruct (proj1 (int_truediv_3_total (m + s + e)) Hlt) as [f Hf]. rewrite Hf.
      destruct (IH (results ++ [student_result (VStr name) m s e f])%list w)
        as [(rs & Hrun & Hres & Hvalid) | (Hrun & Hbad)].
      * left. exists (student_result (VStr name) m s e f :: rs).
        rewrite Hrun, <- app_assoc. split; [reflexivity|]. split.
        -- constructor; [|exact Hres]. exists (VStr name), m, s, e, f.
           split; [exact Hrec | split; [exact Hf | reflexivity]].
        -- constructor; [|exact Hvalid]. exists name, m, s, e. split; assumption.
      * right. split; [exact Hrun | apply Exists_cons_tl; exact Hbad].
    + right. rewrite (proj2 (int_truediv_3_total (m + s + e)) Hge).
      split; [reflexivity|]. apply Exists_cons_hd. exists name, m, s, e.
      split; [exact Hr|]. unfold in_float_range. lia.
Qed.

(** ** The run on arbitrary files *)

Section RunProperties.

Variable repr_float : spec_float -> string.

Lemma record_result_of_row (row : list string) (student r : dict) :
  record_of_row row student -> result_for student r -> result_of_row row r.
Proof.
  intros (name & m & s & e & Hrow & ->)
         (name' & m' & s' & e' & f & (Hn & Hm & Hs & He) & Hf & ->).
  destruct (student_literal_record (VStr name) m s e) as (Ln & Lm & Ls & Le).
  rewrite Ln in Hn. rewrite Lm in Hm. rewrite Ls in Hs. rewrite Le in He.
  injection Hn as <-. injection Hm as <-. injection Hs as <-. injection He as <-.
  exists name, m, s, e, f. split; [exact Hrow | split; [exact Hf | reflexivity]].
Qed.

Lemma results_writable (students results : list dict) :
  Forall2 result_for students results -> Forall writable results.
Proof. induction 1; constructor; eauto using result_for_writable. Qed.

(** the run on a file with a header row, by the rows that follow it *)
Lemma main_outcome (w : world) (header_row : list string) (rows : list (list string)) :
  files w !! "students.csv" = Some (header_row :: rows) ->
  (exists messages,
     Exists invalid_score_row rows /\
     main repr_float w
     = (Raise (SystemExit 1), World (stdout w ++ messages ++ [OnlyIntegers]) (files w))) \/
  (Exists overflowing_row rows /\
   main repr_float w
   = (Raise OverflowError,
      World (stdout w ++ map IncompleteData (List.filter short_row rows)) (files w))) \/
  (exists results,
     Forall (fun row => short_row row = true \/ valid_row row) rows /\
     Forall2 result_of_row (List.filter long_row rows) results /\
     main repr_float w
     = (Ok tt,
        World (stdout w ++ map IncompleteData (List.filter short_row rows)
                        ++ match results with
                           | [] => []
                           | _ :: _ => [ResultsWritten "student_results.csv"]
                           end
                        ++ [Goodbye])
              match results with
              | [] => files w
              | _ :: _ =>
                  <["student_results.csv" :=
                      header :: map (result_row repr_float) results]> (files w)
              end)).
Proof.
  intros Hfile.
  destruct (read_rows_outcome rows [] w)
    as [(students & Hread & Hrel) | (messages & Hread & Hbad)].
  - cbn [app] in Hread.
    set (w1 := World (stdout w ++ map IncompleteData (List.filter short_row rows)) (files w))
      in *.
    pose proof (read_student_data_ok "students.csv" w w1 header_row rows students
                  Hfile Hread) as Hdata.
    right.
    destruct (process_loop_rows _ _ Hrel [] w1) as [(rs & Hproc & Hres & Hvalid) | (Hproc & Hbad)].
    + right. cbn [app] in Hproc. exists rs.
      split; [|split].
      * clear -Hvalid. induction rows as [|row rest IH]; [constructor|].
        cbn [List.filter] in Hvalid. unfold long_row in Hvalid at 1.
        destruct (short_row row) eqn:Hshort; cbn [negb] in Hvalid.
        -- constructor; [left; exact Hshort | exact (IH Hvalid)].
        -- inversion Hvalid; subst. constructor; [right; assumption | apply IH; assumption].
      * exact (Forall2_compose _ _ _ _ _ _ record_result_of_row Hrel Hres).
      * unfold main, bind at 1. rewrite Hdata.
        destruct students as [|student students'].
        -- inversion Hres; subst. unfold bind, ret, print. subst w1. cbn [stdout files app].
           rewrite <- app_assoc. reflexivity.
        -- destruct rs as [|r rs']; [inversion Hres|].
           unfold bind at 1. unfold bind at 1.
           change (process_student_results (student :: students') w1)
             with (process_loop (student :: students') [] w1).
           rewrite Hproc.
           rewrite (write_results_to_csv_writable repr_float (r :: rs')
                      "student_results.csv" w1
                      ltac:(discriminate) (results_writable _ _ Hres)).
           unfold print. subst w1. cbn [stdout files].
           rewrite <- !app_assoc. reflexivity.
    + left. split.
      * clear -Hbad. induction rows as [|row rest IH]; [inversion Hbad|].
        cbn [List.filter] in Hbad. destruct (long_row row).
        -- inversion Hbad; subst; [apply Exists_cons_hd; assumption|].
           apply Exists_cons_tl, IH. assumption.
        -- apply Exists_cons_tl, IH. assumption.
      * unfold main, bind at 1. rewrite Hdata.
        destruct students as [|student students'].
        -- exfalso. inversion Hrel as [Hnil|]; subst. rewrite <- Hnil in Hbad. inversion Hbad.
        -- unfold bind at 1. unfold bind at 1.
           change (process_student_results (student :: students') w1)
             with (process_loop (student :: students') [] w1).
           rewrite Hproc. reflexivity.
  - left. exists messages. split; [exact Hbad|].
    unfold main, bind at 1.
    rewrite (read_student_data_exit "students.csv" w _ header_row rows 1 Hfile Hread).
    reflexivity.
Qed.

(** the run without a table to read: no input file, or one without even a
    header row *)
Lemma main_without_header (w : world) :
  files w !! "students.csv" = None \/ files w !! "students.csv" = Some [] ->
  exists message,
    main repr_float w
    = (Raise (SystemExit 1), World (stdout w ++ [message] ++ [Goodbye]) (files w)).
Proof.
  intros [Hfile | Hfile].
  - exists (FileNotFound "students.csv").
    unfold main, bind at 1. unfold read_student_data, try_except, bind at 1, open_read.
    rewrite Hfile. unfold bind, print, sys_exit, raise. cbn [stdout files].
    rewrite <- app_assoc. reflexivity.
  - exists (UnexpectedError StopIteration).
    unfold main, bind at 1. unfold read_student_data, try_except, bind at 1, open_read.
    rewrite Hfile. unfold bind, next_row, raise, print, sys_exit, raise.
    cbn [stdout files is_Exception]. rewrite <- app_assoc. reflexivity.
Qed.


Lemma row_student_functional (row : list string) (name name' : string)
    (m s e m' s' e' : Z) :
  row_student row name m s e -> row_student row name' m' s' e' ->
  name = name' /\ m = m' /\ s = s' /\ e = e'.
Proof.
  intros (tm & ts & te & extra & -> & Hm & Hs & He)
         (tm' & ts' & te' & extra' & Heq & Hm' & Hs' & He').
  injection Heq as <- <- <- <- _. repeat split; congruence.
Qed.

(** A Record whose average does not exist ends the run, but not the way a
    score that is no integer does: in a file whose rows are short or hold
    three integer scores, a row whose scores sum beyond the range of a
    double lets the Reader finish,
    so that every short row gets its diagnostic, and then ends the run in
    an [OverflowError] that nothing catches: the exit status is 1, no
    goodbye is printed and nothing is written, not even the Results of
    the rows before. *)
Theorem overflow_is_fatal (w : world)
    (header_row : list string) (rows : list (list string)) :
  files w !! "students.csv" = Some (header_row :: rows) ->
  short_cells rows ->
  Forall (fun row => short_row row = true \/ exists student, record_of_row row student)
         rows ->
  Exists overflowing_row rows ->
  main repr_float w
  = (Raise OverflowError,
     World (stdout w ++ map IncompleteData (List.filter short_row rows)) (files w)) /\
  exit_status (fst (main repr_float w)) = 1.
Proof.
  intros Hfile _ Hclean Hover.
  destruct (main_outcome w header_row rows Hfile)
    as [(messages & Hbad & _) | [(_ & Hmain) | (results & Hvalid & _)]].
  - exfalso. rewrite Forall_forall in Hclean. apply Exists_exists in Hbad.
    destruct Hbad as (row & Hin & Hbad).
    destruct (Hclean row Hin) as [Hshort | (student & name & m & s & e & Hrow & _)].
    + destruct Hbad as [Hlen _]. unfold short_row in Hshort.
      apply Nat.ltb_lt in Hshort. lia.
    + exact (invalid_score_row_not_student row name m s e Hbad Hrow).
  - rewrite Hmain. split; reflexivity.
  - exfalso. rewrite Forall_forall in Hvalid. apply Exists_exists in Hover.
    destruct Hover as (row & Hin & name & m & s & e & Hrow & Hrange).
    destruct (Hvalid row Hin) as [Hshort | (name' & m' & s' & e' & Hrow' & Hrange')].
    + destruct (student_of_row_student row name m s e Hrow) as [_ Hlong]. congruence.
    + destruct (row_student_functional _ _ _ _ _ _ _ _ _ Hrow Hrow') as (_ & -> & -> & ->).
      exact (Hrange Hrange').
Qed.

End RunProperties.


Lemma overflow_is_fatal_witness :
  main decimal_text world_with_overflow
  = (Raise OverflowError,
     World (stdout world_with_overflow
              ++ map IncompleteData
                   (List.filter short_row
                      [["Bob"; "70"];
                       ["Zoe"; int_text (10 ^ 400); "0"; "0"];
                       ["Alice"; "95"; "88"; "92"]]))
           (files world_with_overflow)) /\
  exit_status (fst (main decimal_text world_with_overflow)) = 1.
Proof.
  apply (overflow_is_fatal decimal_text world_with_overflow
           ["name"; "math"; "science"; "english"]).
  - reflexivity.
  - vm_compute. reflexivity.
  - constructor; [left; reflexivity|].
    constructor; [|constructor; [|constructor]]; right.
    + eexists. exists "Zoe", (10 ^ 400), 0, 0. split; [|reflexivity].
      exists (int_text (10 ^ 400)), "0", "0", [].
      split; [reflexivity|]. split; [vm_compute; reflexivity|]. split; reflexivity.
    + eexists. exists "Alice", 95, 88, 92. split; [|reflexivity].
      exists "95", "88", "92", []. repeat split; reflexivity.
  - apply Exists_cons_tl, Exists_cons_hd. exists "Zoe", (10 ^ 400), 0, 0. split.
    + exists (int_text (10 ^ 400)), "0", "0", [].
      split; [reflexivity|]. split; [vm_compute; reflexivity|]. split; reflexivity.
    + intros H. unfold in_float_range in H. apply Z.ltb_lt in H.
      vm_compute in H. discriminate H.
Defined.

(** ** Statistics of any list of integers *)

Lemma min_loop_int (xs : list Z) :
  forall best : Z,
    min_loop (VInt best) (map VInt xs) = Ok (VInt (fold_left Z.min xs best)).
Proof.
  induction xs as [|x xs IH]; intros best; [reflexivity|].
  cbn [map min_loop py_lt py_cmp res_bind fold_left].
  replace (if match x ?= best with Lt => true | _ => false end then VInt x else VInt best)
    with (VInt (Z.min best x)) by (destruct (Z.compare_spec x best); f_equal; lia).
  apply IH.
Qed.

Lemma max_loop_int (xs : list Z) :
  forall best : Z,
    max_loop (VInt best) (map VInt xs) = Ok (VInt (fold_left Z.max xs best)).
Proof.
  induction xs as [|x xs IH]; intros best; [reflexivity|].
  cbn [map max_loop py_gt py_cmp res_bind fold_left].
  replace (if match x ?= best with Gt => true | _ => false end then VInt x else VInt best)
    with (VInt (Z.max best x)) by (destruct (Z.compare_spec x best); f_equal; lia).
  apply IH.
Qed.

Lemma fold_min_spec (xs : list Z) :
  forall best : Z,
    let lo := fold_left Z.min xs best in
    In lo (best :: xs) /\ Forall (fun y => lo <= y) (best :: xs).
Proof.
  induction xs as [|x xs IH]; intros best; cbn [fold_left].
  - split; [left; reflexivity | repeat constructor; lia].
  - destruct (IH (Z.min best x)) as [Hin Hall].
    inversion Hall as [|? ? Hle Hrest]; subst. split.
    + destruct Hin as [Heq | Hin]; [|right; right; exact Hin].
      destruct (Z.min_spec best x) as [[_ Hm] | [_ Hm]].
      * left. congruence.
      * right; left. congruence.
    + constructor; [lia|]. constructor; [lia | exact Hrest].
Qed.

Lemma fold_max_spec (xs : list Z) :
  forall best : Z,
    let hi := fold_left Z.max xs best in
    In hi (best :: xs) /\ Forall (fun y => y <= hi) (best :: xs).
Proof.
  induction xs as [|x xs IH]; intros best; cbn [fold_left].
  - split; [left; reflexivity | repeat constructor; lia].
  - destruct (IH (Z.max best x)) as [Hin Hall].
    inversion Hall as [|? ? Hle Hrest]; subst. split.
    + destruct Hin as [Heq | Hin]; [|right; right; exact Hin].
      destruct (Z.max_spec best x) as [[_ Hm] | [_ Hm]].
      * right; left. congruence.
      * left. congruence.
    + constructor; [lia|]. constructor; [lia | exact Hrest].
Qed.

(** [calculate_min_max_range] takes a list of any length.  Of a list of
    integers that is not empty it returns the least item, the greatest item
    and their difference, which is never negative; both are items of the
    list and every item lies between them.  Of the empty list it raises
    the [ValueError] of [min]. *)
Theorem calculate_min_max_range_of_integers :
  (forall (x : Z) (xs : list Z),
     exists lo hi : Z,
       calculate_min_max_range (map VInt (x :: xs))
       = Ok (VInt lo, VInt hi, VInt (hi - lo)) /\
       In lo (x :: xs) /\ In hi (x :: xs) /\
       Forall (fun y => lo <= y <= hi) (x :: xs) /\
       0 <= hi - lo) /\
  (exists message, calculate_min_max_range [] = Raise (ValueError message)).
Proof.
  split; [|eexists; reflexivity].
  intros x xs.
  exists (fold_left Z.min xs x), (fold_left Z.max xs x).
  destruct (fold_min_spec xs x) as [Hlo Hmin].
  destruct (fold_max_spec xs x) as [Hhi Hmax].
  assert (Hall : Forall (fun y => fold_left Z.min xs x <= y <= fold_left Z.max xs x) (x :: xs)).
  { rewrite Forall_forall in *. intros y Hy. split; [apply Hmin | apply Hmax]; exact Hy. }
  split; [|split; [exact Hlo | split; [exact Hhi | split; [exact Hall|]]]].
  - unfold calculate_min_max_range, py_min, py_max. cbn [map].
    rewrite min_loop_int, max_loop_int. reflexivity.
  - inversion Hall; subst. lia.
Qed.

(** ** A record without a score, seen by [calculate_average] alone *)



(** ** Scores left as text *)

Lemma min_loop_str (xs : list string) :
  forall best : string, exists lo, min_loop (VStr best) (map VStr xs) = Ok (VStr lo).
Proof.
  induction xs as [|x xs IH]; intros best; [exists best; reflexivity|].
  cbn [map min_loop py_lt py_cmp res_bind].
  destruct (match String.compare x best with Lt => true | _ => false end); apply IH.
Qed.

Lemma max_loop_str (xs : list string) :
  forall best : string, exists hi, max_loop (VStr best) (map VStr xs) = Ok (VStr hi).
Proof.
  induction xs as [|x xs IH]; intros best; [exists best; reflexivity|].
  cbn [map max_loop py_gt py_cmp res_bind].
  destruct (match String.compare x best with Gt => true | _ => false end); apply IH.
Qed.

(** The conversion of the scores by the Reader is what makes the rest
    work: on a record whose scores are still text, the sum of
    [calculate_average] is a concatenation, and dividing it by three is a
    [TypeError], which the function does not catch; [min] and [max] do
    compare strings, but their difference is a [TypeError] as well; and so
    is the comparison of a string with a grade boundary.  The Processor
    ends in [TypeError] on such a record. *)
Theorem text_scores_are_type_errors
    (student : dict) (math science english : string) (w : world) :
  student !! "math" = Some (VStr math) ->
  student !! "science" = Some (VStr science) ->
  student !! "english" = Some (VStr english) ->
  calculate_average student w = (Raise TypeError, w) /\
  calculate_min_max_range [VStr math; VStr science; VStr english] = Raise TypeError /\
  assign_grade (VStr math) = Raise TypeError /\
  process_student_results [student] w = (Raise TypeError, w).
Proof.
  intros Hm Hs He.
  assert (Havg : calculate_average student w = (Raise TypeError, w)).
  { rewrite (calculate_average_present student _ _ _ w Hm Hs He). reflexivity. }
  split; [exact Havg|]. split; [|split; [reflexivity|]].
  - unfold calculate_min_max_range, py_min, py_max.
    destruct (min_loop_str [science; english] math) as [lo Hlo].
    destruct (max_loop_str [science; english] math) as [hi Hhi].
    cbn [map] in Hlo, Hhi. rewrite Hlo, Hhi. reflexivity.
  - unfold process_student_results. cbn [process_loop].
    unfold bind at 1. unfold process_student, bind, lift, subscript.
    rewrite Hm, Hs, He, Havg. reflexivity.
Qed.

Lemma text_scores_are_type_errors_witness :
  calculate_average
    (student_literal (VStr "Alice") (VStr "95") (VStr "88") (VStr "92")) empty_world
  = (Raise TypeError, empty_world) /\
  calculate_min_max_range [VStr "95"; VStr "88"; VStr "92"] = Raise TypeError /\
  assign_grade (VStr "95") = Raise TypeError /\
  process_student_results
    [student_literal (VStr "Alice") (VStr "95") (VStr "88") (VStr "92")] empty_world
  = (Raise TypeError, empty_world).
Proof.
  apply (text_scores_are_type_errors
           (student_literal (VStr "Alice") (VStr "95") (VStr "88") (VStr "92"))
           "95" "88" "92" empty_world); reflexivity.
Defined.

(** ** The order of the grades *)

Lemma Qle_bool_mono (n x y : Q) :
  (x <= y)%Q -> Qle_bool n x = true -> Qle_bool n y = true.
Proof.
  intros Hxy Hn. apply Qle_bool_iff. apply Qle_bool_iff in Hn.
  exact (Qle_trans _ _ _ Hn Hxy).
Qed.

(** [assign_grade] is monotone: of two numbers, integers or finite floats,
    the greater never gets the worse letter. *)
Theorem assign_grade_monotone (low high : pyval) (x y : Q) :
  number_value low = Some x ->
  number_value high = Some y ->
  (x <= y)%Q ->
  exists grade_low grade_high : string,
    assign_grade low = Ok grade_low /\
    assign_grade high = Ok grade_high /\
    grade_rank grade_low <= grade_rank grade_high.
Proof.
  intros Hx Hy Hxy.
  rewrite (assign_grade_value low x Hx), (assign_grade_value high y Hy).
  eexists _, _. split; [reflexivity|]. split; [reflexivity|].
  pose proof (Qle_bool_mono 90 x y Hxy) as H90.
  pose proof (Qle_bool_mono 80 x y Hxy) as H80.
  pose proof (Qle_bool_mono 70 x y Hxy) as H70.
  pose proof (Qle_bool_mono 60 x y Hxy) as H60.
  pose proof (Qle_bool_mono 50 x y Hxy) as H50.
  destruct (Qle_bool 90 x); [rewrite (H90 eq_refl); cbn; lia|].
  destruct (Qle_bool 80 x);
    [rewrite (H80 eq_refl); destruct (Qle_bool 90 y); cbn; lia|].
  destruct (Qle_bool 70 x);
    [rewrite (H70 eq_refl); destruct (Qle_bool 90 y), (Qle_bool 80 y); cbn; lia|].
  destruct (Qle_bool 60 x);
    [rewrite (H60 eq_refl);
     destruct (Qle_bool 90 y), (Qle_bool 80 y), (Qle_bool 70 y); cbn; lia|].
  destruct (Qle_bool 50 x);
    [rewrite (H50 eq_refl);
     destruct (Qle_bool 90 y), (Qle_bool 80 y), (Qle_bool 70 y), (Qle_bool 60 y);
     cbn; lia|].
  destruct (Qle_bool 90 y), (Qle_bool 80 y), (Qle_bool 70 y), (Qle_bool 60 y),
    (Qle_bool 50 y); cbn; lia.
Qed.

Lemma assign_grade_monotone_witness :
  exists grade_low grade_high : string,
    assign_grade (VInt 79) = Ok grade_low /\
    assign_grade (VFloat alice_average) = Ok grade_high /\
    grade_rank grade_low <= grade_rank grade_high.
Proof.
  apply (assign_grade_monotone (VInt 79) (VFloat alice_average)
           79%Q (6450468216285867 # 2 ^ 46)).
  - reflexivity.
  - reflexivity.
  - vm_compute. discriminate.
Defined.

(** ** Integers and their decimal text *)

Lemma digits_value_uint (d : Decimal.uint) :
  forall (acc : Z) (after_digit : bool),
    d <> Decimal.Nil \/ after_digit = true ->
    digits_value acc after_digit (list_ascii_of_string (NilEmpty.string_of_uint d))
    = Some (uint_value acc d).
Proof.
  induction d; intros acc after_digit Hd;
    try (cbn [NilEmpty.string_of_uint list_ascii_of_string digits_value uint_value];
         apply IHd; right; reflexivity).
  destruct Hd as [Hd | ->]; [congruence | reflexivity].
Qed.

Lemma uint_value_acc (d : Decimal.uint) :
  forall p : positive, uint_value (Zpos p) d = Zpos (Pos.of_uint_acc d p).
Proof.
  induction d; intros p; cbn [uint_value Pos.of_uint_acc]; try reflexivity;
    match goal with
    | |- uint_value ?a _ = Zpos (Pos.of_uint_acc _ ?q) =>
        replace a with (Zpos q) by lia; apply IHd
    end.
Qed.

Lemma uint_value_0 (d : Decimal.uint) : uint_value 0 d = Z.of_N (Pos.of_uint d).
Proof.
  induction d; cbn [uint_value Pos.of_uint]; try reflexivity;
    try (change (10 * 0 + 0) with 0; exact IHd);
    match goal with
    | |- uint_value ?a _ = Z.of_N (N.pos (Pos.of_uint_acc _ ?q)) =>
        change a with (Zpos q); apply uint_value_acc
    end.
Qed.

Lemma uint_digits_no_space (d : Decimal.uint) :
  Forall (fun c => is_space c = false)
         (list_ascii_of_string (NilEmpty.string_of_uint d)).
Proof.
  induction d; cbn [NilEmpty.string_of_uint list_ascii_of_string];
    constructor; try reflexivity; exact IHd.
Qed.

Lemma lstrip_no_space (cs : list ascii) :
  Forall (fun c => is_space c = false) cs -> lstrip cs = cs.
Proof.
  intros H. destruct H as [|c cs Hc _]; [reflexivity|].
  cbn [lstrip]. rewrite Hc. reflexivity.
Qed.

Lemma strip_no_space (cs : list ascii) :
  Forall (fun c => is_space c = false) cs -> strip cs = cs.
Proof.
  intros H. unfold strip. rewrite (lstrip_no_space cs H).
  rewrite lstrip_no_space by (apply Forall_rev; exact H).
  apply rev_involutive.
Qed.

(** [int] reads back the text [str] gives an integer *)
Lemma int_literal_int_text (n : Z) : int_literal (int_text n) = Some n.
Proof.
  unfold int_literal, int_text.
  destruct n as [|p|p]; cbn [Z.to_int NilZero.string_of_int]; [reflexivity| |].
  - pose proof (DecimalPos.Unsigned.to_uint_nonnil p) as Hnil.
    assert (Hs : NilZero.string_of_uint (Pos.to_uint p)
                 = NilEmpty.string_of_uint (Pos.to_uint p)).
    { destruct (Pos.to_uint p); try reflexivity. congruence. }
    rewrite Hs, (strip_no_space _ (uint_digits_no_space _)).
    pose proof (digits_value_uint (Pos.to_uint p) 0 false (or_introl Hnil)) as Hv.
    rewrite uint_value_0, DecimalPos.Unsigned.of_to in Hv. cbn [Z.of_N] in Hv.
    destruct (list_ascii_of_string (NilEmpty.string_of_uint (Pos.to_uint p)))
      as [|c rest] eqn:Hcs; [discriminate Hv|].
    pose proof (uint_digits_no_space (Pos.to_uint p)) as Hns. rewrite Hcs in Hns.
    assert (Hdigit : exists k, digit_of c = Some k).
    { cbn [digits_value] in Hv. destruct (Ascii.eqb c "_"); [discriminate Hv|].
      destruct (digit_of c) as [k|]; [exists k; reflexivity | discriminate Hv]. }
    destruct Hdigit as [k Hk].
    assert (Hminus : Ascii.eqb c "-" = false).
    { destruct (Ascii.eqb_spec c "-") as [-> | _]; [discriminate Hk | reflexivity]. }
    assert (Hplus : Ascii.eqb c "+" = false).
    { destruct (Ascii.eqb_spec c "+") as [-> | _]; [discriminate Hk | reflexivity]. }
    rewrite Hminus, Hplus. exact Hv.
  - pose proof (DecimalPos.Unsigned.to_uint_nonnil p) as Hnil.
    assert (Hs : NilZero.string_of_uint (Pos.to_uint p)
                 = NilEmpty.string_of_uint (Pos.to_uint p)).
    { destruct (Pos.to_uint p); try reflexivity. congruence. }
    rewrite Hs. cbn [list_ascii_of_string].
    rewrite strip_no_space
      by (constructor; [reflexivity | apply uint_digits_no_space]).
    change (Ascii.eqb "-" "-") with true. cbv iota.
    rewrite (digits_value_uint (Pos.to_uint p) 0 false (or_introl Hnil)).
    rewrite uint_value_0, DecimalPos.Unsigned.of_to. reflexivity.
Qed.

(** the row of a Result starts with the name and the texts of its scores *)
Lemma result_row_student
    (repr_float : spec_float -> string) (name : string) (m s e : Z) (f : spec_float) :
  row_student (result_row repr_float (student_result (VStr name) m s e f)) name m s e.
Proof.
  unfold result_row, cell.
  destruct (student_result_fields (VStr name) m s e f) as (Hn & Hm & Hs & He & _).
  cbv zeta in Hn, Hm, Hs, He. rewrite Hn, Hm, Hs, He. cbn [py_str].
  eexists _, _, _, _. split; [reflexivity|].
  repeat split; apply int_literal_int_text.
Qed.



(** ** What [int] rejects *)

Lemma In_lstrip (c : ascii) (cs : list ascii) :
  is_space c = false -> In c cs -> In c (lstrip cs).
Proof.
  intros Hc. induction cs as [|c' cs IH]; intros Hin; [exact Hin|].
  cbn [lstrip]. destruct (is_space c') eqn:Hc'; [|exact Hin].
  destruct Hin as [-> | Hin]; [congruence | exact (IH Hin)].
Qed.

Lemma In_strip (c : ascii) (cs : list ascii) :
  is_space c = false -> In c cs -> In c (strip cs).
Proof.
  intros Hc Hin. unfold strip.
  apply in_rev. rewrite rev_involutive.
  apply (In_lstrip c _ Hc). apply in_rev. rewrite rev_involutive.
  exact (In_lstrip c cs Hc Hin).
Qed.

Lemma digits_value_other (c : ascii) (cs : list ascii) :
  Ascii.eqb c "_" = false -> digit_of c = None -> In c cs ->
  forall (acc : Z) (after_digit : bool), digits_value acc after_digit cs = None.
Proof.
  intros Hu Hd. induction cs as [|c' cs IH]; intros Hin acc after_digit; [destruct Hin|].
  cbn [digits_value].
  destruct Hin as [-> | Hin].
  - rewrite Hu, Hd. reflexivity.
  - destruct (Ascii.eqb c' "_").
    + destruct after_digit; [apply IH; exact Hin | reflexivity].
    + destruct (digit_of c'); [apply IH; exact Hin | reflexivity].
Qed.

Lemma int_literal_other (text : string) (c : ascii) :
  In c (list_ascii_of_string text) -> int_char c = false -> int_literal text = None.
Proof.
  intros Hin Hc. unfold int_char in Hc.
  apply orb_false_elim in Hc. destruct Hc as [Hc Hminus].
  apply orb_false_elim in Hc. destruct Hc as [Hc Hplus].
  apply orb_false_elim in Hc. destruct Hc as [Hc Hunder].
  apply orb_false_elim in Hc. destruct Hc as [Hspace Hdigit].
  assert (Hd : digit_of c = None) by (destruct (digit_of c); [discriminate | reflexivity]).
  pose proof (In_strip c _ Hspace Hin) as Hs.
  unfold int_literal.
  destruct (strip (list_ascii_of_string text)) as [|c0 rest]; [reflexivity|].
  assert (Hrest : Ascii.eqb c0 "-" = true \/ Ascii.eqb c0 "+" = true -> In c rest).
  { intros Hsign. destruct Hs as [-> | Hs]; [|exact Hs].
    rewrite Hminus, Hplus in Hsign. destruct Hsign; discriminate. }
  destruct (Ascii.eqb c0 "-") eqn:H0.
  - rewrite (digits_value_other c rest Hunder Hd (Hrest (or_introl eq_refl))). reflexivity.
  - destruct (Ascii.eqb c0 "+") eqn:H1.
    + exact (digits_value_other c rest Hunder Hd (Hrest (or_intror eq_refl)) 0 false).
    + exact (digits_value_other c (c0 :: rest) Hunder Hd Hs 0 false).
Qed.

(** A score is an integer literal or the run is over: a field with a
    character (a code point below 256) other than a digit, a sign, an
    underscore or whitespace, such as a decimal point, a letter or a
    percent sign, is rejected by [int], and so is an empty field; in a row of four fields or more such a math,
    science or english field ends the reading with status 1, after the
    two lines of the diagnostic, whatever rows follow. *)
Theorem score_with_other_character_is_fatal
    (name math science english : string) (extra : list string)
    (rest : list (list string)) (data : list dict) (w : world) (c : ascii) :
  int_char c = false ->
  In c (list_ascii_of_string math) \/ In c (list_ascii_of_string science)
  \/ In c (list_ascii_of_string english) ->
  py_int "" = Raise (ValueError "") /\
  exists text,
    In text [math; science; english] /\
    py_int text = Raise (ValueError text) /\
    read_rows ((name :: math :: science :: english :: extra) :: rest) data w
    = (Raise (SystemExit 1),
       World (stdout w ++ [InvalidData (name :: math :: science :: english :: extra)
                                       (ValueError text); OnlyIntegers])
             (files w)).
Proof.
  intros Hc Hin. split; [reflexivity|].
  set (row := name :: math :: science :: english :: extra).
  assert (Hbad : forall text, In c (list_ascii_of_string text) ->
                              py_int text = Raise (ValueError text)).
  { intros text Ht. unfold py_int. rewrite (int_literal_other text c Ht Hc). reflexivity. }
  assert (Hlong : short_row row = false) by reflexivity.
  destruct (int_literal math) as [m|] eqn:Hm.
  - destruct (int_literal science) as [s|] eqn:Hs.
    + destruct (int_literal english) as [e|] eqn:He.
      * exfalso. destruct Hin as [H | [H | H]];
          pose proof (int_literal_other _ c H Hc); congruence.
      * exists english. split; [right; right; left; reflexivity|].
        split; [unfold py_int; rewrite He; reflexivity|].
        apply (read_rows_invalid row rest data w english Hlong).
        unfold row, student_of_row, list_get, py_int. cbn [nth_error res_bind].
        rewrite Hm, Hs, He. reflexivity.
    + exists science. split; [right; left; reflexivity|].
      split; [unfold py_int; rewrite Hs; reflexivity|].
      apply (read_rows_invalid row rest data w science Hlong).
      unfold row, student_of_row, list_get, py_int. cbn [nth_error res_bind].
      rewrite Hm, Hs. reflexivity.
  - exists math. split; [left; reflexivity|].
    split; [unfold py_int; rewrite Hm; reflexivity|].
    apply (read_rows_invalid row rest data w math Hlong).
    unfold row, student_of_row, list_get, py_int. cbn [nth_error res_bind].
    rewrite Hm. reflexivity.
Qed.

Lemma score_with_other_character_is_fatal_witness :
  py_int "" = Raise (ValueError "") /\
  exists text,
    In text ["95"; "88.5"; "92"] /\
    py_int text = Raise (ValueError text) /\
    read_rows (("Alice" :: "95" :: "88.5" :: "92" :: []) :: [["Bob"; "70"; "80"; "90"]])
              [] empty_world
    = (Raise (SystemExit 1),
       World (stdout empty_world
                ++ [InvalidData ("Alice" :: "95" :: "88.5" :: "92" :: [])
                                (ValueError text); OnlyIntegers])
             (files empty_world)).
Proof.
  apply (score_with_other_character_is_fatal
           "Alice" "95" "88.5" "92" [] [["Bob"; "70"; "80"; "90"]] [] empty_world ".").
  - reflexivity.
  - right. left. cbn. tauto.
Defined.

(** ** The average against an integer *)

(** Comparing the float average with an integer of at most 52 bits gives
    the answer of the exact comparison of the sum with three times the
    integer. *)
Lemma average_cmp_threshold (t n : Z) (f : spec_float) :
  Z.abs n <= 2 ^ 51 ->
  int_truediv t 3 = Ok f ->
  float_cmp_int f n = Some (t ?= 3 * n).
Proof.
  intros Hn Heq.
  destruct (int_truediv_3_cases t)
    as [[Ht H0] | [(Ht & Hlt & m & e & Hf & Hm & He & Hulp) | [_ Hovf]]].
  - rewrite H0 in Heq. injection Heq as <-. subst t.
    unfold float_cmp_int. f_equal.
    destruct (Z.compare_spec 0 n), (Z.compare_spec 0 (3 * n)); try reflexivity; lia.
  - rewrite Hf in Heq. injection Heq as <-.
    unfold float_cmp_int, signed_mantissa. unfold half_ulp in Hulp.
    change (2 ^ 51) with 2251799813685248 in Hn.
    change (2 ^ 52) with 4503599627370496 in Hm.
    destruct (Z.leb_spec 0 e) as [Hpos | Hnegexp].
    + rewrite (Z.max_l e 0), (Z.max_r (- e) 0) in Hulp by lia.
      rewrite Z.pow_0_r, Z.mul_1_r in Hulp.
      assert (HA : 1 <= 2 ^ e) by (pose proof (Z.pow_pos_nonneg 2 e); lia).
      set (A := 2 ^ e) in *. f_equal.
      destruct (Z.ltb_spec t 0) as [Hneg | Hnonneg].
      * rewrite (Z.abs_neq t) in Hulp by lia.
        destruct (Z.compare_spec (Zneg m * A) n), (Z.compare_spec t (3 * n));
          try reflexivity; nia.
      * rewrite (Z.abs_eq t) in Hulp by lia.
        destruct (Z.compare_spec (Zpos m * A) n), (Z.compare_spec t (3 * n));
          try reflexivity; nia.
    + rewrite (Z.max_r e 0), (Z.max_l (- e) 0) in Hulp by lia.
      rewrite Z.pow_0_r, Z.mul_1_r in Hulp.
      assert (HC : 2 <= 2 ^ (- e)).
      { change 2 with (2 ^ 1) at 1. apply Z.pow_le_mono_r; lia. }
      set (C := 2 ^ (- e)) in *. f_equal.
      destruct (Z.ltb_spec t 0) as [Hneg | Hnonneg].
      * rewrite (Z.abs_neq t) in Hulp by lia.
        destruct (Z.compare_spec (Zneg m) (n * C)), (Z.compare_spec t (3 * n));
          try reflexivity; nia.
      * rewrite (Z.abs_eq t) in Hulp by lia.
        destruct (Z.compare_spec (Zpos m) (n * C)), (Z.compare_spec t (3 * n));
          try reflexivity; nia.
  - rewrite Hovf in Heq. discriminate Heq.
Qed.

Lemma small_scores_in_float_range (m s e : Z) :
  Z.abs m <= 2 ^ 51 -> Z.abs s <= 2 ^ 51 -> Z.abs e <= 2 ^ 51 ->
  in_float_range m s e.
Proof.
  intros Hm Hs He. unfold in_float_range, overflow_bound.
  pose proof (Z.pow_pos_nonneg 2 970 ltac:(lia) ltac:(lia)) as HK.
  change (2 ^ 51) with 2251799813685248 in *.
  change (2 ^ 54) with 18014398509481984.
  set (K := 2 ^ 970) in *. clearbody K. lia.
Qed.

(** The average lies between the least and the greatest score.  For a
    record whose scores have at most 52 bits each, the float average
    compares, by Python's [>=], at least as large as min_score and at most
    as large as max_score, although it is rounded; and when the three
    scores are equal it compares equal to them. *)
Theorem average_between_min_and_max
    (student : dict) (name : pyval) (m s e : Z) (w : world) :
  int_record student name m s e ->
  Z.abs m <= 2 ^ 51 -> Z.abs s <= 2 ^ 51 -> Z.abs e <= 2 ^ 51 ->
  exists (f : spec_float) (lo hi : Z),
    calculate_average student w = (Ok (Some (VFloat f)), w) /\
    calculate_min_max_range [VInt m; VInt s; VInt e]
    = Ok (VInt lo, VInt hi, VInt (hi - lo)) /\
    py_ge (VFloat f) (VInt lo) = Ok true /\
    py_ge (VInt hi) (VFloat f) = Ok true /\
    (lo = hi -> py_cmp (VFloat f) (VInt m) = Ok (Some Eq)).
Proof.
  intros Hrec Hm Hs He.
  pose proof (small_scores_in_float_range m s e Hm Hs He) as Hrange.
  destruct (proj1 (int_truediv_3_total (m + s + e)) Hrange) as [f Hf].
  exists f, (Z.min (Z.min m s) e), (Z.max (Z.max m s) e).
  split; [rewrite (calculate_average_int student name m s e w Hrec), Hf; reflexivity|].
  split; [apply calculate_min_max_range_int|].
  assert (Hcmp : forall n, Z.abs n <= 2 ^ 51 ->
                           float_cmp_int f n = Some (m + s + e ?= 3 * n)).
  { intros n Hn. exact (average_cmp_threshold (m + s + e) n f Hn Hf). }
  split; [|split].
  - unfold py_ge. cbn [py_cmp res_bind]. rewrite Hcmp by lia.
    destruct (Z.compare_spec (m + s + e) (3 * Z.min (Z.min m s) e)); try reflexivity; lia.
  - unfold py_ge. cbn [py_cmp res_bind]. rewrite Hcmp by lia.
    destruct (Z.compare_spec (m + s + e) (3 * Z.max (Z.max m s) e)); try reflexivity; lia.
  - intros Heq. cbn [py_cmp]. rewrite Hcmp by lia.
    destruct (Z.compare_spec (m + s + e) (3 * m)); try reflexivity; lia.
Qed.

Lemma average_between_min_and_max_witness :
  exists (f : spec_float) (lo hi : Z),
    calculate_average alice empty_world = (Ok (Some (VFloat f)), empty_world) /\
    calculate_min_max_range [VInt 95; VInt 88; VInt 92]
    = Ok (VInt lo, VInt hi, VInt (hi - lo)) /\
    py_ge (VFloat f) (VInt lo) = Ok true /\
    py_ge (VInt hi) (VFloat f) = Ok true /\
    (lo = hi -> py_cmp (VFloat f) (VInt 95) = Ok (Some Eq)).
Proof.
  apply (average_between_min_and_max alice (VStr "Alice") 95 88 92 empty_world).
  - repeat split; reflexivity.
  - cbn. lia.
  - cbn. lia.
  - cbn. lia.
Defined.

(** ** The order of the averages *)

(** the quotient [t / 3], scaled, lies in the binade of 53 digits *)
Lemma third_binade (t : Z) :
  0 < t ->
  0 <= - third_exponent t /\ 0 <= third_shift t /\
  3 * 2 ^ 52 * 2 ^ third_shift t <= t * 2 ^ (- third_exponent t)
  < 3 * 2 ^ 53 * 2 ^ third_shift t.
Proof.
  intros Ht.
  pose proof (third_exponent_range t Ht) as Hex.
  destruct (third_quotient_digits t Ht) as [_ Hn].
  pose proof (third_shifted_quotient t Ht) as Hq.
  split; [lia|]. split; [exact Hn|].
  unfold third_numerator in Hq.
  pow2_pos (third_shift t).
  pose proof (Z.div_mod (t * 2 ^ (- third_exponent t)) (3 * 2 ^ third_shift t)
                ltac:(lia)) as Hdm.
  pose proof (Z.mod_pos_bound (t * 2 ^ (- third_exponent t)) (3 * 2 ^ third_shift t)
                ltac:(lia)) as Hb.
  change (2 ^ 52) with 4503599627370496 in *.
  change (2 ^ 53) with 9007199254740992 in *.
  set (N := t * 2 ^ (- third_exponent t)) in *.
  set (P := 2 ^ third_shift t) in *.
  set (q := N / (3 * P)) in *. set (r := N mod (3 * P)) in *.
  nia.
Qed.

Lemma third_mantissa_spec (t : Z) :
  0 < t ->
  2 ^ 52 <= third_mantissa t <= 2 ^ 53 /\
  2 * Z.abs (third_mantissa t * (3 * 2 ^ third_shift t) - t * 2 ^ (- third_exponent t))
  <= 3 * 2 ^ third_shift t.
Proof.
  intros Ht.
  destruct (third_quotient_digits t Ht) as [_ Hn].
  pose proof (third_shifted_quotient t Ht) as Hq.
  pow2_pos (third_shift t).
  destruct (round_half_even_spec (third_numerator t) (3 * 2 ^ third_shift t) ltac:(lia))
    as (Hm & Hnear & _).
  fold (third_mantissa t) in Hm, Hnear.
  split; [lia | exact Hnear].
Qed.

(** a larger dividend has no smaller exponent *)
Lemma third_scale_mono (t1 t2 : Z) :
  0 < t1 <= t2 ->
  third_exponent t1 + third_shift t1 <= third_exponent t2 + third_shift t2.
Proof.
  intros [Ht1 Hle]. assert (Ht2 : 0 < t2) by lia.
  destruct (third_binade t1 Ht1) as (Ha1 & Hn1 & Hlo1 & _).
  destruct (third_binade t2 Ht2) as (Ha2 & Hn2 & _ & Hhi2).
  destruct (Z.le_gt_cases (third_exponent t1 + third_shift t1)
                          (third_exponent t2 + third_shift t2)) as [|Hgt]; [assumption|].
  exfalso.
  assert (Hpow : 2 * (2 ^ third_shift t2 * 2 ^ (- third_exponent t1))
                 <= 2 ^ third_shift t1 * 2 ^ (- third_exponent t2)).
  { rewrite <- !Z.pow_add_r by lia.
    replace (2 * 2 ^ (third_shift t2 + - third_exponent t1))
      with (2 ^ (1 + (third_shift t2 + - third_exponent t1)))
      by (rewrite Z.pow_add_r by lia; reflexivity).
    apply Z.pow_le_mono_r; lia. }
  pow2_pos (third_shift t1). pow2_pos (third_shift t2).
  pow2_pos (- third_exponent t1). pow2_pos (- third_exponent t2).
  change (2 ^ 52) with 4503599627370496 in *.
  change (2 ^ 53) with 9007199254740992 in *.
  set (P1 := 2 ^ third_shift t1) in *. set (P2 := 2 ^ third_shift t2) in *.
  set (A1 := 2 ^ (- third_exponent t1)) in *. set (A2 := 2 ^ (- third_exponent t2)) in *.
  assert (S1 : 3 * 4503599627370496 * (P1 * A2) <= t1 * A1 * A2) by nia.
  assert (S2 : t2 * A2 * A1 < 3 * 9007199254740992 * (P2 * A1)) by nia.
  assert (S3 : t1 * A1 * A2 <= t2 * A2 * A1) by nia.
  lia.
Qed.

(** at the same exponent, a larger dividend has no smaller mantissa *)
Lemma third_mantissa_mono (t1 t2 : Z) :
  0 < t1 <= t2 ->
  third_exponent t1 + third_shift t1 = third_exponent t2 + third_shift t2 ->
  third_mantissa t1 <= third_mantissa t2.
Proof.
  intros [Ht1 Hle] Hscale. assert (Ht2 : 0 < t2) by lia.
  destruct (Z.eq_dec t1 t2) as [-> | Hne]; [lia|].
  destruct (third_binade t1 Ht1) as (Ha1 & Hn1 & _).
  destruct (third_binade t2 Ht2) as (Ha2 & Hn2 & _).
  destruct (third_mantissa_spec t1 Ht1) as [_ Hnear1].
  destruct (third_mantissa_spec t2 Ht2) as [_ Hnear2].
  destruct (Z.le_gt_cases (third_mantissa t1) (third_mantissa t2)) as [|Hgt]; [assumption|].
  exfalso.
  assert (Hpow : 2 ^ third_shift t1 * 2 ^ (- third_exponent t2)
                 = 2 ^ third_shift t2 * 2 ^ (- third_exponent t1)).
  { rewrite <- !Z.pow_add_r by lia. f_equal. lia. }
  pow2_pos (third_shift t1). pow2_pos (third_shift t2).
  pow2_pos (- third_exponent t1). pow2_pos (- third_exponent t2).
  set (M1 := third_mantissa t1) in *. set (M2 := third_mantissa t2) in *.
  set (P1 := 2 ^ third_shift t1) in *. set (P2 := 2 ^ third_shift t2) in *.
  set (A1 := 2 ^ (- third_exponent t1)) in *. set (A2 := 2 ^ (- third_exponent t2)) in *.
  assert (HX : 0 < P1 * A2) by nia.
  assert (S1 : 2 * (3 * M1 * (P1 * A2) - t1 * A1 * A2) <= 3 * (P1 * A2)) by nia.
  assert (S2 : 2 * (t2 * A2 * A1 - 3 * M2 * (P2 * A1)) <= 3 * (P2 * A1)) by nia.
  assert (S3 : t1 * A1 * A2 < t2 * A2 * A1) by nia.
  rewrite <- Hpow in S2.
  assert (S4 : (M2 + 1) * (P1 * A2) <= M1 * (P1 * A2)) by nia.
  nia.
Qed.

(** the double of a positive third, read off its mantissa and exponent *)
Lemma int_truediv_3_finite (t : Z) :
  0 < t -> t < overflow_bound ->
  int_truediv t 3
  = Ok (S754_finite false (Z.to_pos (third_float_mantissa t)) (third_float_exponent t)) /\
  2 ^ 52 <= third_float_mantissa t < 2 ^ 53.
Proof.
  intros Ht Hlt.
  pose proof (proj2 (final_exponent t Ht) Hlt) as Hexp.
  destruct (third_mantissa_spec t Ht) as [Hm _].
  rewrite (int_truediv_3_unfold t Ht).
  unfold third_float_mantissa, third_float_exponent.
  destruct (Z.ltb_spec (third_mantissa t) (2 ^ 53)) as [Hsmall | Hfull].
  - split; [|lia]. unfold pack_float, checked.
    rewrite (proj2 (Z.leb_le _ _) Hexp). reflexivity.
  - split; [|cbn; lia]. unfold pack_float, checked.
    rewrite (proj2 (Z.leb_le _ _) Hexp). reflexivity.
Qed.

(** rounding keeps the order of the positive thirds *)
Lemma third_float_mono (t1 t2 : Z) :
  0 < t1 <= t2 ->
  third_float_exponent t1 < third_float_exponent t2 \/
  third_float_exponent t1 = third_float_exponent t2 /\
  third_float_mantissa t1 <= third_float_mantissa t2.
Proof.
  intros Ht. assert (Ht1 : 0 < t1) by lia. assert (Ht2 : 0 < t2) by lia.
  pose proof (third_scale_mono t1 t2 Ht) as Hscale.
  pose proof (third_mantissa_mono t1 t2 Ht) as Hmant.
  destruct (third_mantissa_spec t1 Ht1) as [Hm1 _].
  destruct (third_mantissa_spec t2 Ht2) as [Hm2 _].
  unfold third_float_exponent, third_float_mantissa.
  destruct (Z.ltb_spec (third_mantissa t1) (2 ^ 53)) as [H1 | H1];
    destruct (Z.ltb_spec (third_mantissa t2) (2 ^ 53)) as [H2 | H2]; lia.
Qed.

(** the double of a third, by the sign of the dividend *)
Lemma int_truediv_3_form (t : Z) (f : spec_float) :
  int_truediv t 3 = Ok f ->
  (t = 0 /\ f = S754_zero false) \/
  (0 < t /\
   f = S754_finite false (Z.to_pos (third_float_mantissa t)) (third_float_exponent t) /\
   2 ^ 52 <= third_float_mantissa t) \/
  (t < 0 /\
   f = S754_finite true (Z.to_pos (third_float_mantissa (- t)))
                   (third_float_exponent (- t)) /\
   2 ^ 52 <= third_float_mantissa (- t)).
Proof.
  intros Hf.
  assert (Hlt : Z.abs t < overflow_bound).
  { destruct (Z.lt_ge_cases (Z.abs t) overflow_bound) as [|Hge]; [assumption|].
    rewrite (proj2 (int_truediv_3_total t) Hge) in Hf. discriminate Hf. }
  destruct (Z.lt_trichotomy t 0) as [Hneg | [-> | Hpos]].
  - right; right. split; [exact Hneg|].
    assert (Ht : 0 < - t) by lia.
    destruct (int_truediv_3_finite (- t) Ht ltac:(lia)) as [Hfin Hm].
    pose proof (int_truediv_3_opp (- t) Ht) as Hopp.
    rewrite Z.opp_involutive, Hfin, Hf in Hopp. injection Hopp as ->.
    split; [reflexivity | lia].
  - left. split; [reflexivity|]. cbn in Hf. congruence.
  - right; left. split; [exact Hpos|].
    destruct (int_truediv_3_finite t Hpos ltac:(lia)) as [Hfin Hm].
    rewrite Hfin in Hf. injection Hf as <-. split; [reflexivity | lia].
Qed.

(** Rounding keeps the order of the thirds: of two integers the greater
    has, by Python's [>=], the third that is at least as large. *)
Lemma int_truediv_3_mono (t1 t2 : Z) (f1 f2 : spec_float) :
  t1 <= t2 ->
  int_truediv t1 3 = Ok f1 ->
  int_truediv t2 3 = Ok f2 ->
  py_ge (VFloat f2) (VFloat f1) = Ok true.
Proof.
  intros Hle Hf1 Hf2.
  assert (Hpos52 : 0 < 2 ^ 52) by reflexivity.
  unfold py_ge. cbn [py_cmp res_bind].
  destruct (int_truediv_3_form t1 f1 Hf1)
    as [[Ht1 ->] | [(Ht1 & -> & Hm1) | (Ht1 & -> & Hm1)]];
    destruct (int_truediv_3_form t2 f2 Hf2)
      as [[Ht2 ->] | [(Ht2 & -> & Hm2) | (Ht2 & -> & Hm2)]];
    try lia; try reflexivity.
  - (* both positive *)
    cbn [SFcompare].
    change (PosDef.Pos.compare_cont Eq) with Pos.compare.
    rewrite <- Z2Pos.inj_compare by lia.
    destruct (third_float_mono t1 t2 ltac:(lia)) as [Hexp | [Hexp Hmant]].
    + rewrite (proj2 (Z.compare_gt_iff _ _) Hexp). reflexivity.
    + rewrite Hexp, Z.compare_refl.
      destruct (Z.compare_spec (third_float_mantissa t2) (third_float_mantissa t1));
        try reflexivity; lia.
  - (* both negative *)
    cbn [SFcompare].
    change (PosDef.Pos.compare_cont Eq) with Pos.compare.
    rewrite <- Z2Pos.inj_compare by lia.
    destruct (third_float_mono (- t2) (- t1) ltac:(lia)) as [Hexp | [Hexp Hmant]].
    + rewrite (proj2 (Z.compare_lt_iff _ _) Hexp). reflexivity.
    + rewrite Hexp, Z.compare_refl.
      destruct (Z.compare_spec (third_float_mantissa (- t2)) (third_float_mantissa (- t1)));
        try reflexivity; lia.
Qed.

(** The averages are ordered as the sums are: of two records with integer
    scores whose averages exist, the one with the greater sum has, by
    Python's [>=], the average that is at least as large, and equal sums
    have the same average.  The rounding of the division never reverses
    two students. *)
Theorem average_is_monotone
    (low high : dict) (name name' : pyval) (m s e m' s' e' : Z) (w : world) :
  int_record low name m s e ->
  int_record high name' m' s' e' ->
  in_float_range m s e ->
  in_float_range m' s' e' ->
  m + s + e <= m' + s' + e' ->
  exists f f' : spec_float,
    calculate_average low w = (Ok (Some (VFloat f)), w) /\
    calculate_average high w = (Ok (Some (VFloat f')), w) /\
    py_ge (VFloat f') (VFloat f) = Ok true /\
    (m + s + e = m' + s' + e' -> f = f').
Proof.
  intros Hlow Hhigh Hrange Hrange' Hle.
  destruct (proj1 (int_truediv_3_total (m + s + e)) Hrange) as [f Hf].
  destruct (proj1 (int_truediv_3_total (m' + s' + e')) Hrange') as [f' Hf'].
  exists f, f'.
  split; [rewrite (calculate_average_int low name m s e w Hlow), Hf; reflexivity|].
  split; [rewrite (calculate_average_int high name' m' s' e' w Hhigh), Hf'; reflexivity|].
  split; [exact (int_truediv_3_mono _ _ f f' Hle Hf Hf')|].
  intros Heq. rewrite Heq in Hf. congruence.
Qed.

Lemma average_is_monotone_witness :
  exists f f' : spec_float,
    calculate_average bob empty_world = (Ok (Some (VFloat f)), empty_world) /\
    calculate_average alice empty_world = (Ok (Some (VFloat f')), empty_world) /\
    py_ge (VFloat f') (VFloat f) = Ok true /\
    (40 + 55 + 30 = 95 + 88 + 92 -> f = f').
Proof.
  apply (average_is_monotone bob alice (VStr "Bob") (VStr "Alice") 40 55 30 95 88 92
           empty_world).
  - repeat split; reflexivity.
  - repeat split; reflexivity.
  - vm_compute. reflexivity.
  - vm_compute. reflexivity.
  - lia.
Defined.

(** ** The Writer on a dictionary it refuses *)

Section WriterEdges.

Variable repr_float : spec_float -> string.



End WriterEdges.


(** ** The output file as an input file *)

Section Rerun.

Variable repr_float : spec_float -> string.

(** the rows of Results are rows of Records whose averages exist *)
Lemma result_rows_clean (results : list dict) :
  Forall (fun r => exists row, result_of_row row r) results ->
  Forall (fun row => exists name m s e f,
            row_student row name m s e /\ int_truediv (m + s + e) 3 = Ok f)
         (map (result_row repr_float) results).
Proof.
  induction 1 as [|r rest (row & name & m & s & e & f & _ & Hf & ->) _ IH];
    cbn [map]; constructor; [|exact IH].
  exists name, m, s, e, f. split; [apply result_row_student | exact Hf].
Qed.

(** the Results of the rows of Results are those Results *)
Lemma result_rows_reread (results : list dict) :
  Forall (fun r => exists row, result_of_row row r) results ->
  forall results',
    Forall2 result_of_row (map (result_row repr_float) results) results' ->
    results' = results.
Proof.
  induction 1 as [|r rest (row & name & m & s & e & f & _ & Hf & ->) _ IH];
    intros results' H'.
  - inversion H'. reflexivity.
  - cbn [map] in H'. inversion H' as [|row' r' rows' rs' Hr' Hrest']; subst.
    f_equal; [|apply IH; exact Hrest'].
    destruct Hr' as (name' & m' & s' & e' & f' & Hrow' & Hf' & ->).
    destruct (row_student_functional _ _ _ _ _ _ _ _ _
                (result_row_student repr_float name m s e f) Hrow')
      as (<- & <- & <- & <-).
    congruence.
Qed.

Lemma result_rows_long (results : list dict) :
  List.filter long_row (map (result_row repr_float) results)
  = map (result_row repr_float) results /\
  List.filter short_row (map (result_row repr_float) results) = [].
Proof.
  induction results as [|r rest [IHlong IHshort]]; [split; reflexivity|].
  cbn [map List.filter].
  change (long_row (result_row repr_float r)) with true.
  change (short_row (result_row repr_float r)) with false.
  cbv iota. rewrite IHlong, IHshort. split; reflexivity.
Qed.

Lemma results_of_rows (rows : list (list string)) (results : list dict) :
  Forall2 result_of_row rows results ->
  Forall (fun r => exists row, result_of_row row r) results.
Proof. induction 1; constructor; eauto. Qed.

(** the run on a file that holds the header and the rows of Results *)
Lemma main_on_results (w : world) (header_row : list string) (results : list dict) :
  results <> [] ->
  Forall (fun r => exists row, result_of_row row r) results ->
  files w !! "students.csv"
  = Some (header_row :: map (result_row repr_float) results) ->
  main repr_float w
  = (Ok tt,
     World (stdout w ++ [ResultsWritten "student_results.csv"; Goodbye])
           (<["student_results.csv" := header :: map (result_row repr_float) results]>
              (files w))).
Proof.
  intros Hne Hall Hfile.
  pose proof (result_rows_clean results Hall) as Hclean.
  destruct (result_rows_long results) as [Hlong Hshort].
  destruct (main_outcome repr_float w header_row _ Hfile)
    as [(messages & Hbad & _) | [(Hover & _) | (results' & _ & Hres & Hmain)]].
  - exfalso. rewrite Forall_forall in Hclean. apply Exists_exists in Hbad.
    destruct Hbad as (row & Hin & Hbad).
    destruct (Hclean row Hin) as (name & m & s & e & f & Hrow & _).
    exact (invalid_score_row_not_student row name m s e Hbad Hrow).
  - exfalso. rewrite Forall_forall in Hclean. apply Exists_exists in Hover.
    destruct Hover as (row & Hin & name & m & s & e & Hrow & Hrange).
    destruct (Hclean row Hin) as (name' & m' & s' & e' & f & Hrow' & Hf).
    destruct (row_student_functional _ _ _ _ _ _ _ _ _ Hrow Hrow') as (_ & -> & -> & ->).
    unfold in_float_range in Hrange.
    destruct (Z.lt_ge_cases (Z.abs (m' + s' + e')) overflow_bound) as [Hlt | Hge];
      [exact (Hrange Hlt)|].
    rewrite (proj2 (int_truediv_3_total _) Hge) in Hf. discriminate Hf.
  - rewrite Hlong in Hres. rewrite Hshort in Hmain.
    rewrite (result_rows_reread results Hall results' Hres) in Hmain.
    rewrite Hmain. destruct results as [|r rest]; [congruence|]. reflexivity.
Qed.

(** The output of a run is a fixed point of the program: when a run has
    written its output file, a second run that is given this file as its
    input file ends normally as well, prints no diagnostic and writes the
    very same table, header and rows, cell by cell.  (The cells of the
    first input file are taken to be shorter than 4300 characters.) *)
Theorem rerun_reproduces_output (w w1 w2 : world) :
  (forall table, files w !! "students.csv" = Some table -> short_cells table) ->
  main repr_float w = (Ok tt, w1) ->
  files w1 <> files w ->
  files w2 !! "students.csv" = files w1 !! "student_results.csv" ->
  exists table,
    files w1 !! "student_results.csv" = Some table /\
    main repr_float w2
    = (Ok tt,
       World (stdout w2 ++ [ResultsWritten "student_results.csv"; Goodbye])
             (<["student_results.csv" := table]> (files w2))).
Proof.
  intros _ Hmain Hwritten Hinput.
  destruct (files w !! "students.csv") as [[|header_row rows]|] eqn:Hfile.
  - destruct (main_without_header repr_float w (or_intror Hfile)) as [message Hexit].
    rewrite Hexit in Hmain. discriminate Hmain.
  - destruct (main_outcome repr_float w header_row rows Hfile)
      as [(messages & _ & Hrun) | [(_ & Hrun) | (results & _ & Hres & Hrun)]];
      rewrite Hrun in Hmain; [discriminate Hmain | discriminate Hmain |].
    injection Hmain as <-. cbn [files] in Hwritten, Hinput.
    destruct results as [|r rest]; [congruence|].
    rewrite lookup_insert_eq in Hinput.
    exists (header :: map (result_row repr_float) (r :: rest)).
    split; [cbn [files]; apply lookup_insert_eq|].
    apply (main_on_results w2 header (r :: rest));
      [discriminate | exact (results_of_rows _ _ Hres) | exact Hinput].
  - destruct (main_without_header repr_float w (or_introl Hfile)) as [message Hexit].
    rewrite Hexit in Hmain. discriminate Hmain.
Qed.

End Rerun.

Lemma rerun_reproduces_output_witness :
  exists table,
    files (snd (main decimal_text world_with_short_row)) !! "student_results.csv"
    = Some table /\
    main decimal_text world_with_results
    = (Ok tt,
       World (stdout world_with_results ++ [ResultsWritten "student_results.csv"; Goodbye])
             (<["student_results.csv" := table]> (files world_with_results))).
Proof.
  apply (rerun_reproduces_output decimal_text world_with_short_row
           (snd (main decimal_text world_with_short_row)) world_with_results).
  - intros table Htable.
    assert (Hfile : files world_with_short_row !! "students.csv"
                    = Some [["name"; "math"; "science"; "english"];
                            ["Bob"; "abc"; "88"];
                            ["Alice"; "95"; "88"; "92"]]) by reflexivity.
    rewrite Hfile in Htable. injection Htable as <-. reflexivity.
  - vm_compute. reflexivity.
  - intros Hsame.
    apply (f_equal (fun fs => fs !! "student_results.csv")) in Hsame.
    vm_compute in Hsame. discriminate Hsame.
  - vm_compute. reflexivity.
Defined.
